(** * Axis-aligned boxes of phi.geom._box: a shallow embedding

    The development follows [src/phi/geom/_box.py]: the classes
    [AbstractBox], [BoxType], [Box], [Cuboid] and [GridCell].

    Numbers.  The tensors of the source hold IEEE floats.  A scalar is
    modelled as an exact rational or one of the three special values the
    source itself produces ([np.inf], [-np.inf]) or propagates (NaN).
    Arithmetic on the special values follows IEEE 754; arithmetic on finite
    values is exact, so rounding, overflow and the sign of zero are outside
    the model.  A theorem whose proof uses the arithmetic of finite values
    says so: it holds "in exact arithmetic".  Theorems that rest on
    comparisons, on indexing, on the special values or on the control flow
    alone hold for floats as they stand.  The module [IEEE] replays single
    entries of the source's expressions on binary32 and binary64 values, to
    show where the exact arithmetic and the floats part.

    Tensors.  The tensor engine ([phi.math]) is not part of the module.  A
    tensor is modelled as a list of rows: one row per element of the
    flattened batch and spatial dimensions, each row holding the components
    of the [vector] dimension.  Elementwise operations broadcast a
    dimension of size one against any size and raise on other mismatches.
    Named dimensions that only one operand has (an outer product of batch
    and spatial dimensions) are outside the model.

    Errors.  A Python exception is a [Raise] in the [result] monad. *)

From Stdlib Require Import String Bool ZArith QArith Qcanon Qcabs Lia Lqa List.
From Stdlib Require Import SpecFloat.
Import ListNotations.
Open Scope nat_scope.

(** ** Exceptions and the error monad *)

Inductive exn : Type :=
| AssertionError
| NotImplementedError
| IncompatibleShapes
| IndexError
| ValueError
| ZeroDivisionError.

Inductive result (A : Type) : Type :=
| Ok (a : A)
| Raise (e : exn).

Arguments Ok {A} a.
Arguments Raise {A} e.

Definition bind {A B : Type} (m : result A) (k : A -> result B) : result B :=
  match m with
  | Ok a => k a
  | Raise e => Raise e
  end.

Notation "x <- m ;; k" := (bind m (fun x => k))
  (at level 61, m at next level, right associativity).

(** ** Scalars: rationals extended with the IEEE special values *)

Inductive num : Type :=
| Fin (q : Qc)
| PInf
| NInf
| NaN.

Module Num.

Definition of_Z (z : Z) : num := Fin (Q2Qc (inject_Z z)).
Definition of_Q (q : Q) : num := Fin (Q2Qc q).

Definition zero : Qc := Q2Qc 0.

Definition Qc_ltb (x y : Qc) : bool :=
  match (x ?= y)%Qc with Lt => true | _ => false end.
Definition Qc_leb (x y : Qc) : bool :=
  match (x ?= y)%Qc with Gt => false | _ => true end.
Definition Qc_eqb (x y : Qc) : bool :=
  match (x ?= y)%Qc with Eq => true | _ => false end.

(** The infinity with the sign of [q]; a zero counts as positive. *)
Definition signed_inf (q : Qc) : num := if Qc_ltb q zero then NInf else PInf.

Definition opp (x : num) : num :=
  match x with
  | Fin q => Fin (- q)%Qc
  | PInf => NInf
  | NInf => PInf
  | NaN => NaN
  end.

Definition add (x y : num) : num :=
  match x, y with
  | NaN, _ | _, NaN => NaN
  | Fin a, Fin b => Fin (a + b)%Qc
  | PInf, NInf | NInf, PInf => NaN
  | PInf, _ | _, PInf => PInf
  | NInf, _ | _, NInf => NInf
  end.

Definition sub (x y : num) : num :=
  match x, y with
  | NaN, _ | _, NaN => NaN
  | Fin a, Fin b => Fin (a - b)%Qc
  | PInf, PInf | NInf, NInf => NaN
  | PInf, _ | _, NInf => PInf
  | NInf, _ | _, PInf => NInf
  end.

Definition mul (x y : num) : num :=
  match x, y with
  | NaN, _ | _, NaN => NaN
  | Fin a, Fin b => Fin (a * b)%Qc
  | Fin a, PInf | PInf, Fin a => if Qc_eqb a zero then NaN else signed_inf a
  | Fin a, NInf | NInf, Fin a => if Qc_eqb a zero then NaN else opp (signed_inf a)
  | PInf, PInf | NInf, NInf => PInf
  | PInf, NInf | NInf, PInf => NInf
  end.

(** numpy division: no exception, a zero divisor gives an infinity or NaN. *)
Definition div (x y : num) : num :=
  match x, y with
  | NaN, _ | _, NaN => NaN
  | Fin a, Fin b =>
      if Qc_eqb b zero
      then (if Qc_eqb a zero then NaN else signed_inf a)
      else Fin (a / b)%Qc
  | Fin _, _ => Fin zero
  | PInf, Fin b => signed_inf b
  | NInf, Fin b => opp (signed_inf b)
  | _, _ => NaN
  end.

Definition abs (x : num) : num :=
  match x with
  | Fin q => Fin (Qcabs q)
  | PInf | NInf => PInf
  | NaN => NaN
  end.

(** Comparisons: every comparison with NaN is false. *)
Definition leb (x y : num) : bool :=
  match x, y with
  | NaN, _ | _, NaN => false
  | NInf, _ | _, PInf => true
  | Fin a, Fin b => Qc_leb a b
  | _, _ => false
  end.

Definition ltb (x y : num) : bool :=
  match x, y with
  | NaN, _ | _, NaN => false
  | Fin a, Fin b => Qc_ltb a b
  | PInf, _ | _, NInf => false
  | _, _ => true
  end.

Definition geb (x y : num) : bool := leb y x.
Definition gtb (x y : num) : bool := ltb y x.

(** Numeric equality, as [==] on floats: NaN differs from itself. *)
Definition eqb (x y : num) : bool :=
  match x, y with
  | Fin a, Fin b => Qc_eqb a b
  | PInf, PInf | NInf, NInf => true
  | _, _ => false
  end.

(** The larger of two values; NaN propagates, as in [np.max]. *)
Definition max (x y : num) : num :=
  match x, y with
  | NaN, _ | _, NaN => NaN
  | _, _ => if leb x y then y else x
  end.

Definition is_finite (x : num) : bool :=
  match x with Fin _ => true | _ => false end.

Definition is_nan (x : num) : bool :=
  match x with NaN => true | _ => false end.

End Num.

(** ** Scalars as the arrays hold them: binary floating point

    [SpecFloat] of the Standard Library computes the operations of the
    IEEE-754 binary formats with rounding to nearest even.  The definitions
    below evaluate one entry of an expression of the source on floats of a
    format [f]; a decimal literal that is an integer, such as [1e20], is the
    float nearest to that integer. *)
Module IEEE.

Record format : Type := mkFormat { prec : Z; emax : Z }.

Definition binary32 : format := mkFormat 24 128.
Definition binary64 : format := mkFormat 53 1024.

Definition float : Type := spec_float.

Section Operations.
Variable f : format.

Definition of_Z (z : Z) : float := binary_normalize (prec f) (emax f) z 0 false.
Definition add : float -> float -> float := SFadd (prec f) (emax f).
Definition sub : float -> float -> float := SFsub (prec f) (emax f).
Definition mul : float -> float -> float := SFmul (prec f) (emax f).
Definition div : float -> float -> float := SFdiv (prec f) (emax f).
Definition abs : float -> float := SFabs.
Definition eqb : float -> float -> bool := SFeqb.
Definition ltb : float -> float -> bool := SFltb.
Definition leb : float -> float -> bool := SFleb.

(** The literals [0.5], [1.5], [-0.5] and [-1.5]. *)
Definition half : float := div (of_Z 1) (of_Z 2).
Definition three_halves : float := div (of_Z 3) (of_Z 2).
Definition opp_half : float := SFopp half.
Definition opp_three_halves : float := SFopp three_halves.

Definition is_finite (x : float) : bool :=
  match x with
  | S754_zero _ | S754_finite _ _ _ => true
  | _ => false
  end.

(** [Box.size]: [self.upper - self.lower] *)
Definition Box_size (lower upper : float) : float := sub upper lower.

(** [Cuboid.lower]: [self.center - self.half_size] *)
Definition Cuboid_lower (center half_size : float) : float :=
  sub center half_size.

(** [Cuboid.size]: [2 * self.half_size] *)
Definition Cuboid_size (half_size : float) : float := mul (of_Z 2) half_size.

(** [(global_position - self.lower) / self.size] *)
Definition global_to_local (lower size global_position : float) : float :=
  div (sub global_position lower) size.

(** [local_position * self.size + self.lower] *)
Definition local_to_global (lower size local_position : float) : float :=
  add (mul local_position size) lower.

(** [b.local_to_global(b.global_to_local(p))] *)
Definition round_trip (lower size p : float) : float :=
  local_to_global lower size (global_to_local lower size p).

(** One axis of [approximate_signed_distance]:
    [center = 0.5 * (self.lower + self.upper)],
    [extent = self.upper - self.lower] and
    [math.abs(location - center) - extent * 0.5]. *)
Definition approximate_signed_distance (lower upper location : float) : float :=
  let center := mul half (add lower upper) in
  let extent := sub upper lower in
  sub (abs (sub location center)) (mul extent half).

(** The size of [Box(self.lower + delta, self.upper + delta)]. *)
Definition shifted_size (lower upper delta : float) : float :=
  Box_size (add lower delta) (add upper delta).

(** Modelled from the spec: entry [i] of [np.linspace(start, stop, num)],
    computed as numpy does: [i * (stop - start) / div + start] with
    [div = num - 1], and [stop] itself for the last entry. *)
Definition linspace (start stop : float) (num i : nat) : float :=
  let div_ := (num - 1)%nat in
  let delta := sub stop start in
  if Nat.eqb div_ 0 then add (mul (of_Z (Z.of_nat i)) delta) start
  else if Nat.eqb i div_ then stop
  else add (mul (of_Z (Z.of_nat i)) (div delta (of_Z (Z.of_nat div_)))) start.

(** Entry [i] of [np.linspace(0.5 / size, 1 - 0.5 / size, size)] of
    [GridCell.__init__]. *)
Definition axis_point (size i : nat) : float :=
  let h := div half (of_Z (Z.of_nat size)) in
  linspace h (sub (of_Z 1) h) size i.

(** Center [i] and the half size of the cells of [GridCell] on one axis:
    [bounds.local_to_global(local_coords)] and
    [bounds.size / resolution.sizes / 2]. *)
Definition cell_center (lower upper : float) (size i : nat) : float :=
  local_to_global lower (Box_size lower upper) (axis_point size i).

Definition cell_half_size (lower upper : float) (size : nat) : float :=
  div (div (Box_size lower upper) (of_Z (Z.of_nat size))) (of_Z 2).

End Operations.

End IEEE.

(** ** The tensor engine *)

(** Modelled from the spec: the tensor type of [phi.math], which the
    module imports and which is not under src/.  A tensor is a list of
    rows; the row index runs over the flattened batch and spatial
    dimensions, the column index over the [vector] dimension. *)
Definition tensor_of (A : Type) : Type := list (list A).

Definition Tensor : Type := tensor_of num.

Fixpoint mapM {A B : Type} (f : A -> result B) (l : list A) : result (list B) :=
  match l with
  | [] => Ok []
  | x :: l' => y <- f x ;; ys <- mapM f l' ;; Ok (y :: ys)
  end.

Fixpoint zipM {A B C : Type} (f : A -> B -> result C)
    (xs : list A) (ys : list B) : result (list C) :=
  match xs, ys with
  | [], [] => Ok []
  | x :: xs', y :: ys' => z <- f x y ;; zs <- zipM f xs' ys' ;; Ok (z :: zs)
  | _, _ => Raise IncompatibleShapes
  end.

(** Modelled from the spec: one dimension of the engine's broadcasting.
    A side of size one is repeated, equal sizes are paired, any other
    mismatch is an error. *)
Definition broadcast {A B C : Type} (f : A -> B -> result C)
    (xs : list A) (ys : list B) : result (list C) :=
  match xs, ys with
  | x :: nil, _ => mapM (f x) ys
  | _, y :: nil => mapM (fun x => f x y) xs
  | _, _ => zipM f xs ys
  end.

(** Modelled from the spec: an elementwise operation of the engine,
    broadcasting over the rows and over the [vector] dimension. *)
Definition tensor_op {A B C : Type} (f : A -> B -> C)
    (a : tensor_of A) (b : tensor_of B) : result (tensor_of C) :=
  broadcast (broadcast (fun x y => Ok (f x y))) a b.

Definition tmap {A B : Type} (f : A -> B) (t : tensor_of A) : tensor_of B :=
  map (map f) t.

(** Size of the [vector] dimension ([shape[-1]]) and the tensor's shape. *)
Definition vdim {A : Type} (t : tensor_of A) : nat :=
  match t with
  | [] => 0
  | row :: _ => length row
  end.

Definition tshape {A : Type} (t : tensor_of A) : nat * nat := (length t, vdim t).

Definition tshape_eqb (s t : nat * nat) : bool :=
  Nat.eqb (fst s) (fst t) && Nat.eqb (snd s) (snd t).

(** Size of one dimension of a combined shape. *)
Definition combined_dim (n m : nat) : result nat :=
  if Nat.eqb n m then Ok n
  else if Nat.eqb n 1 then Ok m
  else if Nat.eqb m 1 then Ok n
  else Raise IncompatibleShapes.

(** Modelled from the spec: [combined_shape] of [phi.math], the union of
    the shapes of two tensors; sizes that cannot be reconciled raise. *)
Definition combined_shape {A B : Type} (a : tensor_of A) (b : tensor_of B)
    : result (nat * nat) :=
  n <- combined_dim (length a) (length b) ;;
  r <- combined_dim (vdim a) (vdim b) ;;
  Ok (n, r).

(** Arithmetic and comparison operators of tensors. *)
Definition tadd : Tensor -> Tensor -> result Tensor := tensor_op Num.add.
Definition tsub : Tensor -> Tensor -> result Tensor := tensor_op Num.sub.
Definition tmul : Tensor -> Tensor -> result Tensor := tensor_op Num.mul.
Definition tdiv : Tensor -> Tensor -> result Tensor := tensor_op Num.div.
Definition tge : Tensor -> Tensor -> result (tensor_of bool) := tensor_op Num.geb.
Definition tle : Tensor -> Tensor -> result (tensor_of bool) := tensor_op Num.leb.
Definition tand : tensor_of bool -> tensor_of bool -> result (tensor_of bool) :=
  tensor_op andb.

(** A Python scalar on one side of an operator. *)
Definition scalar_mul (c : num) (t : Tensor) : Tensor := tmap (Num.mul c) t.
Definition mul_scalar (t : Tensor) (c : num) : Tensor :=
  tmap (fun x => Num.mul x c) t.
Definition div_scalar (t : Tensor) (c : num) : Tensor :=
  tmap (fun x => Num.div x c) t.

(** Modelled from the spec: [math.abs], the elementwise absolute value. *)
Definition tabs (t : Tensor) : Tensor := tmap Num.abs t.

(** Modelled from the spec: [math.all(t, 'vector')], the conjunction
    over the [vector] dimension, one boolean per row. *)
Definition all_vector (t : tensor_of bool) : list bool :=
  map (forallb (fun b => b)) t.

(** Modelled from the spec: [np.all(t)], one boolean for the whole
    tensor. *)
Definition np_all (t : tensor_of bool) : bool :=
  forallb (forallb (fun b => b)) t.

(** Maximum of a row; numpy refuses to reduce an empty axis. *)
Definition max_list (row : list num) : result num :=
  match row with
  | [] => Raise ValueError
  | x :: xs => Ok (fold_left Num.max xs x)
  end.

(** Modelled from the spec: [math.max(t, 'vector')], the maximum over the
    [vector] dimension, one number per row. *)
Definition max_vector (t : Tensor) : result (list num) := mapM max_list t.

(** Python values that the constructors coerce with [tensor(...)]. *)
Inductive PyData : Type :=
| PyScalar (x : num)
| PyList (xs : list num)
| PyTensor (t : Tensor).

(** Modelled from the spec: [tensor(value, names='..., vector')] of
    [phi.math].  A number becomes a vector of one component that
    broadcasts to every axis, a flat sequence becomes one vector. *)
Definition tensor (d : PyData) : Tensor :=
  match d with
  | PyScalar x => [[x]]
  | PyList xs => [xs]
  | PyTensor t => t
  end.

(** Modelled from the spec: indexing the last dimension, [t[..., k]], with
    Python's negative indices. *)
Definition index_last (t : Tensor) (k : Z) : result (list num) :=
  let r := Z.of_nat (vdim t) in
  if (0 <=? k)%Z && (k <? r)%Z then
    Ok (map (fun row => nth (Z.to_nat k) row NaN) t)
  else if (- r <=? k)%Z && (k <? 0)%Z then
    Ok (map (fun row => nth (Z.to_nat (k + r)) row NaN) t)
  else Raise IndexError.

Definition rel_tolerance : num := Num.of_Q (1 # 100000).
Definition abs_tolerance : num := Num.of_Q 0.

(** Two entries are close as for [np.allclose]: finite values when they
    differ by at most [abs_tolerance + rel_tolerance * |y|]; an infinity is
    close to the same infinity only, and NaN to nothing. *)
Definition close_entries (x y : num) : bool :=
  match x, y with
  | Fin _, Fin _ =>
      Num.leb (Num.abs (Num.sub x y))
              (Num.add abs_tolerance (Num.mul rel_tolerance (Num.abs y)))
  | _, _ => Num.eqb x y
  end.

(** Modelled from the spec: [math.close], the equality-within-tolerance
    check of the engine, on two tensors.  The engine answers true at once
    when both operands are one and the same tensor object; tensors are
    values here, so that shortcut is outside the model. *)
Definition close (a b : Tensor) : result bool :=
  t <- tensor_op close_entries a b ;; Ok (np_all t).

Definition Qc_of_nat (n : nat) : Qc := Q2Qc (inject_Z (Z.of_nat n)).

(** Modelled from the spec: the linear-spacing generation
    [np.linspace(start, stop, num)], end point included. *)
Definition linspace (start stop : Qc) (num : nat) : list Qc :=
  let div := (num - 1)%nat in
  let delta := (stop - start)%Qc in
  map (fun i =>
         if Nat.eqb div 0 then (Qc_of_nat i * delta + start)%Qc
         else if Nat.eqb i div then stop
         else (Qc_of_nat i * (delta / Qc_of_nat div) + start)%Qc)
      (seq 0 num).

(** Modelled from the spec: [math.meshgrid], the outer product of the
    axes, one row per grid point, the first axis varying slowest. *)
Fixpoint meshgrid (axes : list (list num)) : Tensor :=
  match axes with
  | [] => [[]]
  | ax :: rest => flat_map (fun c => map (cons c) (meshgrid rest)) ax
  end.

(** ** Shapes with named dimensions

    Modelled from the spec: the shape of [phi.math], an ordered list of
    named, sized dimensions of three kinds. *)

Inductive dim_type : Type := BATCH_DIM | SPATIAL_DIM | CHANNEL_DIM.

Record Dim : Type := mkDim {
  dim_name : string;
  dim_kind : dim_type;
  dim_size : nat
}.

Definition Shape : Type := list Dim.

Definition is_spatial (d : Dim) : bool :=
  match dim_kind d with SPATIAL_DIM => true | _ => false end.

Definition rank (s : Shape) : nat := length s.
Definition spatial_rank (s : Shape) : nat := length (filter is_spatial s).
Definition sizes (s : Shape) : list nat := map dim_size s.
Definition named_sizes (s : Shape) : list (string * nat) :=
  map (fun d => (dim_name d, dim_size d)) s.

Definition dim_type_eqb (a b : dim_type) : bool :=
  match a, b with
  | BATCH_DIM, BATCH_DIM | SPATIAL_DIM, SPATIAL_DIM | CHANNEL_DIM, CHANNEL_DIM => true
  | _, _ => false
  end.

Definition Dim_eqb (a b : Dim) : bool :=
  String.eqb (dim_name a) (dim_name b)
  && dim_type_eqb (dim_kind a) (dim_kind b)
  && Nat.eqb (dim_size a) (dim_size b).

Fixpoint Shape_eqb (s t : Shape) : bool :=
  match s, t with
  | [], [] => true
  | a :: s', b :: t' => Dim_eqb a b && Shape_eqb s' t'
  | _, _ => false
  end.

(** ** The box classes

    [Box] stores its corners, [Cuboid] its center and half size;
    [GridCell] is a [Cuboid] that also keeps its resolution and bounds. *)

Record Box : Type := mkBox {
  Box_lower : Tensor;
  Box_upper : Tensor;
  Box_shape : nat * nat
}.

Record Cuboid : Type := mkCuboid {
  Cuboid_center : Tensor;
  Cuboid_half_size : Tensor;
  Cuboid_shape : nat
}.

Inductive AbstractBox : Type :=
| IsBox (b : Box)
| IsCuboid (c : Cuboid)
| IsGridCell (c : Cuboid) (resolution : Shape) (bounds : AbstractBox).

(** Any Python object a method may be handed. *)
Inductive PyObject : Type :=
| PyNone
| PyBox (b : AbstractBox)
| PyOther (type_name : string).

Definition half : num := Num.of_Q (1 # 2).
Definition two : num := Num.of_Z 2.

(** The properties every variant overrides, dispatched on the class:
    [Box] stores [lower] and [upper] and computes [size = upper - lower],
    [center = 0.5 * (lower + upper)] and [half_size = size * 0.5];
    [Cuboid] stores [center] and [half_size] and computes
    [size = 2 * half_size], [lower = center - half_size] and
    [upper = center + half_size]. *)
Definition lower (self : AbstractBox) : result Tensor :=
  match self with
  | IsBox b => Ok (Box_lower b)
  | IsCuboid c | IsGridCell c _ _ => tsub (Cuboid_center c) (Cuboid_half_size c)
  end.

Definition upper (self : AbstractBox) : result Tensor :=
  match self with
  | IsBox b => Ok (Box_upper b)
  | IsCuboid c | IsGridCell c _ _ => tadd (Cuboid_center c) (Cuboid_half_size c)
  end.

Definition size (self : AbstractBox) : result Tensor :=
  match self with
  | IsBox b => tsub (Box_upper b) (Box_lower b)
  | IsCuboid c | IsGridCell c _ _ => Ok (scalar_mul two (Cuboid_half_size c))
  end.

Definition center (self : AbstractBox) : result Tensor :=
  match self with
  | IsBox b => s <- tadd (Box_lower b) (Box_upper b) ;; Ok (scalar_mul half s)
  | IsCuboid c | IsGridCell c _ _ => Ok (Cuboid_center c)
  end.

Definition half_size (self : AbstractBox) : result Tensor :=
  match self with
  | IsBox b => s <- tsub (Box_upper b) (Box_lower b) ;; Ok (mul_scalar s half)
  | IsCuboid c | IsGridCell c _ _ => Ok (Cuboid_half_size c)
  end.

Module Box.

(** [Box(lower, upper)].  [_fill_spatial_with_singleton] only adds spatial
    placeholder dimensions of size one, which the two sizes kept here do
    not record. *)
Definition __init__ (lower upper : PyData) : result Box :=
  let _lower := tensor lower in
  let _upper := tensor upper in
  _shape <- combined_shape _lower _upper ;;
  Ok (mkBox _lower _upper _shape).

(** [raise NotImplementedError()] *)
Definition unstack (self : Box) (dimension : string) : result PyObject :=
  Raise NotImplementedError.

(** [isinstance(other, AbstractBox) and self._lower.shape == other.lower.shape
    and math.close(self._lower, other.lower)] *)
Definition __eq__ (self : Box) (other : PyObject) : result bool :=
  match other with
  | PyBox o =>
      other_lower <- lower o ;;
      if tshape_eqb (tshape (Box_lower self)) (tshape other_lower)
      then close (Box_lower self) other_lower
      else Ok false
  | _ => Ok false
  end.

(** [Box(self.lower + delta, self.upper + delta)] *)
Definition shifted (self : Box) (delta : Tensor) : result Box :=
  l <- tadd (Box_lower self) delta ;;
  u <- tadd (Box_upper self) delta ;;
  __init__ (PyTensor l) (PyTensor u).

End Box.

Module Cuboid.

(** [Cuboid(center, half_size)]; the stored shape drops [vector]. *)
Definition __init__ (center half_size : PyData) : result Cuboid :=
  let _center := tensor center in
  let _half_size := tensor half_size in
  _shape <- combined_shape _center _half_size ;;
  Ok (mkCuboid _center _half_size (fst _shape)).

(** [Cuboid(self._center + delta, self._half_size)] *)
Definition shifted (self : Cuboid) (delta : Tensor) : result Cuboid :=
  c <- tadd (Cuboid_center self) delta ;;
  __init__ (PyTensor c) (PyTensor (Cuboid_half_size self)).

End Cuboid.

Module AbstractBox.

(** [raise NotImplementedError()] *)
Definition unstack (self : AbstractBox) (dimension : string)
    : result PyObject :=
  Raise NotImplementedError.

(** [self.size * 0.5] *)
Definition bounding_half_extent (self : AbstractBox) : result Tensor :=
  s <- size self ;; Ok (mul_scalar s half).

(** [(global_position - self.lower) / self.size] *)
Definition global_to_local (self : AbstractBox) (global_position : Tensor)
    : result Tensor :=
  l <- lower self ;;
  d <- tsub global_position l ;;
  s <- size self ;;
  tdiv d s.

(** [local_position * self.size + self.lower] *)
Definition local_to_global (self : AbstractBox) (local_position : Tensor)
    : result Tensor :=
  s <- size self ;;
  m <- tmul local_position s ;;
  l <- lower self ;;
  tadd m l.

(** [bool_inside = (location >= self.lower) & (location <= self.upper)] and
    [math.all(bool_inside, 'vector')] *)
Definition lies_inside (self : AbstractBox) (location : Tensor)
    : result (list bool) :=
  l <- lower self ;;
  above <- tge location l ;;
  u <- upper self ;;
  below <- tle location u ;;
  bool_inside <- tand above below ;;
  Ok (all_vector bool_inside).

(** [center = 0.5 * (self.lower + self.upper)], [extent = self.upper - self.lower],
    [distance = math.abs(location - center) - extent * 0.5] and
    [math.max(distance, 'vector')] *)
Definition approximate_signed_distance (self : AbstractBox)
    (location : Tensor) : result (list num) :=
  l <- lower self ;;
  u <- upper self ;;
  s <- tadd l u ;;
  let center := scalar_mul half s in
  u' <- upper self ;;
  l' <- lower self ;;
  extent <- tsub u' l' ;;
  d <- tsub location center ;;
  distance <- tsub (tabs d) (mul_scalar extent half) ;;
  max_vector distance.

(** [vector[...,0]] if [vector.shape[-1] == 1], else [vector[...,axis]] *)
Definition _get (vector : Tensor) (axis : Z) : result (list num) :=
  if Nat.eqb (vdim vector) 1 then index_last vector 0
  else index_last vector axis.

Definition get_lower (self : AbstractBox) (axis : Z) : result (list num) :=
  l <- lower self ;; _get l axis.

Definition get_upper (self : AbstractBox) (axis : Z) : result (list num) :=
  u <- upper self ;; _get u axis.

(** [Box(self.lower, self.upper)] *)
Definition corner_representation (self : AbstractBox) : result Box :=
  l <- lower self ;;
  u <- upper self ;;
  Box.__init__ (PyTensor l) (PyTensor u).

(** [Cuboid(self.center, self.half_size)] *)
Definition center_representation (self : AbstractBox) : result Cuboid :=
  c <- center self ;;
  h <- half_size self ;;
  Cuboid.__init__ (PyTensor c) (PyTensor h).

(** [np.all(other.lower >= self.lower) and np.all(other.upper <= self.upper)]
    for an [AbstractBox], [raise NotImplementedError] otherwise; [A and B]
    does not evaluate [B] when [A] is false. *)
Definition contains (self : AbstractBox) (other : PyObject) : result bool :=
  match other with
  | PyBox o =>
      other_lower <- lower o ;;
      self_lower <- lower self ;;
      above <- tge other_lower self_lower ;;
      if np_all above then
        other_upper <- upper o ;;
        self_upper <- upper self ;;
        below <- tle other_upper self_upper ;;
        Ok (np_all below)
      else Ok false
  | _ => Raise NotImplementedError
  end.

End AbstractBox.

Module BoxType.

(** One entry of the subscript of [Box[...]]. *)
Record slice : Type := mkSlice {
  start : option num;
  stop : option num;
  step : option num
}.

Inductive entry : Type :=
| Slice (s : slice)
| NotSlice (type_name : string).

Inductive subscript : Type :=
| Sequence (items : list entry)
| Single (item : entry).

(** The loop over the entries, with its two assertions, appending
    [dim.start] or [-np.inf] to [lower] and [dim.stop] or [np.inf] to
    [upper]. *)
Fixpoint corners (item : list entry) (lower upper : list num)
    : result (list num * list num) :=
  match item with
  | [] => Ok (lower, upper)
  | NotSlice _ :: _ => Raise AssertionError
  | Slice dim :: rest =>
      let step_ok :=
        match step dim with
        | None => true
        | Some s => Num.eqb s (Num.of_Z 1)
        end in
      if step_ok then
        corners rest
          (lower ++ [match start dim with Some x => x | None => NInf end])
          (upper ++ [match stop dim with Some x => x | None => PInf end])
      else Raise AssertionError
  end.

(** A subscript that is no tuple or list is wrapped in a list; the result
    is [Box(lower, upper)]. *)
Definition __getitem__ (item : subscript) : result Box :=
  let item :=
    match item with
    | Sequence items => items
    | Single it => [it]
    end in
  lu <- corners item [] [] ;;
  Box.__init__ (PyList (fst lu)) (PyList (snd lu)).

End BoxType.

Module GridCell.

(** [0.5 / size] on Python numbers raises on a zero size. *)
Definition half_over (size : nat) : result Qc :=
  if Nat.eqb size 0 then Raise ZeroDivisionError
  else Ok (Q2Qc (1 # 2) / Qc_of_nat size)%Qc.

(** [np.linspace(0.5 / size, 1 - 0.5 / size, size)] *)
Definition axis_points (size : nat) : result (list num) :=
  h <- half_over size ;;
  h' <- half_over size ;;
  Ok (map Fin (linspace h (1 - h')%Qc size)).

(** [GridCell(resolution, bounds)]: the assertion on the resolution,
    [local_coords = math.meshgrid(...)],
    [points = bounds.local_to_global(local_coords)] and
    [Cuboid.__init__(self, points, half_size=bounds.size / resolution.sizes / 2)]. *)
Definition __init__ (resolution : Shape) (bounds : AbstractBox)
    : result AbstractBox :=
  if Nat.eqb (spatial_rank resolution) (rank resolution) then
    axes <- mapM (fun ds => axis_points (snd ds)) (named_sizes resolution) ;;
    let local_coords := meshgrid axes in
    points <- AbstractBox.local_to_global bounds local_coords ;;
    s <- size bounds ;;
    q <- tdiv s (tensor (PyList (map (fun n => Fin (Qc_of_nat n)) (sizes resolution)))) ;;
    c <- Cuboid.__init__ (PyTensor points) (PyTensor (div_scalar q two)) ;;
    Ok (IsGridCell c resolution bounds)
  else Raise AssertionError.

(** [pass]: the method returns [None]. *)
Definition unstack (c : Cuboid) (resolution : Shape) (bounds : AbstractBox)
    (dimension : string) : result PyObject :=
  Ok PyNone.

End GridCell.

(** Method resolution of [unstack]: [Box] and [GridCell] override it,
    [Cuboid] inherits the one of [AbstractBox]. *)
Definition unstack (self : AbstractBox) (dimension : string) : result PyObject :=
  match self with
  | IsBox b => Box.unstack b dimension
  | IsCuboid _ => AbstractBox.unstack self dimension
  | IsGridCell c resolution bounds => GridCell.unstack c resolution bounds dimension
  end.


(** ** Further methods and functions of the module *)

(** The literal [1.414214] of [bounding_radius]. *)
Definition sqrt2 : num := Num.of_Q (1414214 # 1000000).

(** [math.max(self.size, 'vector') * 1.414214] *)
Definition bounding_radius (self : AbstractBox) : result (list num) :=
  s <- size self ;;
  m <- max_vector s ;;
  Ok (map (fun x => Num.mul x sqrt2) m).

(** [Box(lower=center - extent, upper=center + extent)] with
    [center = geometry.center] and [extent = geometry.bounding_half_extent()]. *)
Definition bounding_box (geometry : AbstractBox) : result Box :=
  c <- center geometry ;;
  extent <- AbstractBox.bounding_half_extent geometry ;;
  l <- tsub c extent ;;
  u <- tadd c extent ;;
  Box.__init__ (PyTensor l) (PyTensor u).

(** The operator [self == other] on the classes of the module.  [Box] and
    [GridCell] define [__eq__]; [Cuboid] inherits the one of [AbstractBox],
    which raises.  Python asks the right operand first when its class is a
    subclass of the left one's that overrides [__eq__]: that is the case of a
    [Cuboid] compared with a [GridCell], where [GridCell.__eq__] answers
    false.  [GridCell.__eq__] is
    [isinstance(other, GridCell) and self._bounds == other._bounds
     and self._resolution == other._resolution]; the two resolutions are
    compared with [Shape_eqb]. *)
Fixpoint __eq__ (self : AbstractBox) (other : PyObject) {struct self}
    : result bool :=
  match self with
  | IsBox b => Box.__eq__ b other
  | IsCuboid _ =>
      match other with
      | PyBox (IsGridCell _ _ _) => Ok false
      | _ => Raise NotImplementedError
      end
  | IsGridCell _ resolution bounds =>
      match other with
      | PyBox (IsGridCell _ resolution' bounds') =>
          same_bounds <- __eq__ bounds (PyBox bounds') ;;
          if same_bounds then Ok (Shape_eqb resolution resolution')
          else Ok false
      | _ => Ok false
      end
  end.

(** [AbstractBox.__ne__]: [not self == other] *)
Definition __ne__ (self : AbstractBox) (other : PyObject) : result bool :=
  e <- __eq__ self other ;; Ok (negb e).

(** Method resolution of [shifted]: [Box] and [Cuboid] override it;
    [GridCell] inherits the one of [Cuboid], so that a shifted grid is a
    plain [Cuboid]. *)
Definition shifted (self : AbstractBox) (delta : Tensor) : result AbstractBox :=
  match self with
  | IsBox b => b' <- Box.shifted b delta ;; Ok (IsBox b')
  | IsCuboid c | IsGridCell c _ _ => c' <- Cuboid.shifted c delta ;; Ok (IsCuboid c')
  end.


(** * Vocabulary of the statements *)

(** Entry of a list under broadcasting: a list of one element answers
    every index with that element. *)
Definition bnth {A : Type} (l : list A) (i : nat) (d : A) : A :=
  match l with
  | x :: nil => x
  | _ => nth i l d
  end.

Definition tget {A : Type} (d : A) (t : tensor_of A) (i j : nat) : A :=
  bnth (bnth t i []) j d.

(** Entry [(i, j)] of a tensor seen at a broadcast shape. *)
Definition get (t : Tensor) (i j : nat) : num := tget NaN t i j.

(** The value of a broadcasting operation in closed form, entry by entry. *)
Definition blen {A B : Type} (xs : list A) (ys : list B) : nat :=
  if Nat.eqb (length xs) 1 then length ys else length xs.

Definition bmap {A B C : Type} (g : A -> B -> C) (dx : A) (dy : B)
    (xs : list A) (ys : list B) : list C :=
  map (fun i => g (bnth xs i dx) (bnth ys i dy)) (seq 0 (blen xs ys)).

Definition bmap2 {A B C : Type} (g : A -> B -> C) (dx : A) (dy : B)
    (a : tensor_of A) (b : tensor_of B) : tensor_of C :=
  bmap (bmap g dx dy) [] [] a b.

Definition compatible (n m : nat) : Prop := n = m \/ n = 1 \/ m = 1.

(** Shape tests, as booleans so that they can be evaluated.  [fits t n r]:
    the tensor broadcasts to [n] rows of [r] components; [full t n r]: it
    has exactly that shape. *)
Definition dim_fits (len n : nat) : bool := Nat.eqb len 1 || Nat.eqb len n.

Definition fits {A : Type} (t : tensor_of A) (n r : nat) : bool :=
  dim_fits (length t) n && forallb (fun row => dim_fits (length row) r) t.

Definition full {A : Type} (t : tensor_of A) (n r : nat) : bool :=
  Nat.eqb (length t) n && forallb (fun row => Nat.eqb (length row) r) t.

Definition all_entries {A : Type} (P : A -> bool) (t : tensor_of A) : bool :=
  forallb (forallb P) t.

Definition finite (t : Tensor) : bool := all_entries Num.is_finite t.

Definition no_nan (t : Tensor) : bool :=
  all_entries (fun x => negb (Num.is_nan x)) t.

Definition positive (t : Tensor) : bool :=
  all_entries (fun x => Num.ltb (Fin Num.zero) x) t.

Definition qval (x : num) : Qc :=
  match x with Fin q => q | _ => Num.zero end.

(** [b.local_to_global(b.global_to_local(p))] *)
Definition round_trip (self : AbstractBox) (p : Tensor) : result Tensor :=
  q <- AbstractBox.global_to_local self p ;; AbstractBox.local_to_global self q.

(** [Box[:5]], [Box[:]], [Box([0], [1])] and [Box((0, 0), (10, 20))]. *)
Definition half_space : result Box :=
  BoxType.__getitem__
    (BoxType.Single (BoxType.Slice
       (BoxType.mkSlice None (Some (Num.of_Z 5)) None))).

Definition whole_line : result Box :=
  BoxType.__getitem__
    (BoxType.Single (BoxType.Slice (BoxType.mkSlice None None None))).

Definition unit_interval : Box :=
  mkBox [[Num.of_Z 0]] [[Num.of_Z 1]] (1, 1).

Definition unit_box : result Box :=
  Box.__init__ (PyList [Num.of_Z 0; Num.of_Z 0])
               (PyList [Num.of_Z 10; Num.of_Z 20]).

(** The midpoint of cell [i] of [n] equal cells of the unit interval. *)
Definition midpoint (n i : nat) : Qc :=
  ((Qc_of_nat i + Q2Qc (1 # 2)) / Qc_of_nat n)%Qc.

Definition grid_centers (n : nat) : Tensor :=
  map (fun i => [Fin (midpoint n i)]) (seq 0 n).

Definition grid_half_size (n : nat) : Tensor :=
  [[Fin (1 / (Q2Qc 2 * Qc_of_nat n))%Qc]].

(** The box [other] lies inside [self], entry by entry. *)
Definition inside_entrywise (sl su ol ou : Tensor) (n r : nat) : Prop :=
  forall i j, i < n -> j < r ->
    Num.geb (get ol i j) (get sl i j) = true /\
    Num.leb (get ou i j) (get su i j) = true.

(** Row [i] of the location lies between the corners on every axis. *)
Definition inside_row (l u p : Tensor) (r i : nat) : bool :=
  forallb (fun j => Num.geb (get p i j) (get l i j)
                    && Num.leb (get p i j) (get u i j)) (seq 0 r).

(** The distance of the specification for one axis:
    [|p - (lower + upper) / 2| - (upper - lower) / 2]. *)
Definition axis_distance (l u p : num) : num :=
  Num.sub (Num.abs (Num.sub p (Num.div (Num.add l u) two)))
          (Num.div (Num.sub u l) two).

Definition axis_distance_Qc (l u p : Qc) : Qc :=
  (Qcabs (p - (l + u) / Q2Qc 2) - (u - l) / Q2Qc 2)%Qc.

Definition distance_row (l u p : Tensor) (r i : nat) : list num :=
  map (fun j => axis_distance (get l i j) (get u i j) (get p i j)) (seq 0 r).

(** Row [i] of the location is strictly inside, strictly outside, or on
    the boundary of the box. *)
Definition interior_row (l u p : Tensor) (r i : nat) : bool :=
  forallb (fun j => Num.ltb (get l i j) (get p i j)
                    && Num.ltb (get p i j) (get u i j)) (seq 0 r).

Definition exterior_row (l u p : Tensor) (r i : nat) : bool :=
  existsb (fun j => Num.ltb (get p i j) (get l i j)
                    || Num.ltb (get u i j) (get p i j)) (seq 0 r).

Definition boundary_row (l u p : Tensor) (r i : nat) : bool :=
  inside_row l u p r i
  && existsb (fun j => Num.eqb (get p i j) (get l i j)
                       || Num.eqb (get p i j) (get u i j)) (seq 0 r).

Definition row_max (row : list num) : num :=
  match row with
  | [] => NaN
  | x :: xs => fold_left Num.max xs x
  end.

(** The corners a slice stands for, and whether its step is accepted. *)
Definition slice_lower (s : BoxType.slice) : num :=
  match BoxType.start s with Some x => x | None => NInf end.

Definition slice_upper (s : BoxType.slice) : num :=
  match BoxType.stop s with Some x => x | None => PInf end.

Definition step_ok (s : BoxType.slice) : bool :=
  match BoxType.step s with
  | None => true
  | Some st => Num.eqb st (Num.of_Z 1)
  end.

(** Component [k] of every row of a tensor. *)
Definition component (t : Tensor) (k : nat) : list num :=
  map (fun row => nth k row NaN) t.

(** ** Vocabulary of the further properties *)

(** The two tensors an object stores broadcast to [n] rows of [r]
    components. *)
Definition well_shaped (self : AbstractBox) (n r : nat) : bool :=
  match self with
  | IsBox b => fits (Box_lower b) n r && fits (Box_upper b) n r
  | IsCuboid c | IsGridCell c _ _ =>
      fits (Cuboid_center c) n r && fits (Cuboid_half_size c) n r
  end.

(** The lower corner is below, or strictly below, the upper corner on
    every axis of every row. *)
Definition ordered (l u : Tensor) (n r : nat) : bool :=
  forallb (fun i => forallb (fun j => Num.leb (get l i j) (get u i j)) (seq 0 r))
          (seq 0 n).

Definition strictly_ordered (l u : Tensor) (n r : nat) : bool :=
  forallb (fun i => forallb (fun j => Num.ltb (get l i j) (get u i j)) (seq 0 r))
          (seq 0 n).

(** Row [i] of a tensor of local coordinates lies in the unit cube. *)
Definition in_unit_cube (g : Tensor) (r i : nat) : bool :=
  forallb (fun j => Num.leb (Num.of_Z 0) (get g i j)
                    && Num.leb (get g i j) (Num.of_Z 1)) (seq 0 r).

(** Two objects give the same entries for a property, and for each of the
    five properties of a box. *)
Definition agree (view : AbstractBox -> result Tensor) (a b : AbstractBox)
    (n r : nat) : Prop :=
  exists ta tb,
    view a = Ok ta /\ view b = Ok tb /\
    forall i j, i < n -> j < r -> get ta i j = get tb i j.

Definition same_geometry (a b : AbstractBox) (n r : nat) : Prop :=
  agree lower a b n r /\ agree upper a b n r /\ agree size a b n r /\
  agree center a b n r /\ agree half_size a b n r.

(** Edge [i] of [n] equal cells between [lo] and [hi]. *)
Definition cell_edge (lo hi : Qc) (n i : nat) : Qc :=
  (lo + Qc_of_nat i * ((hi - lo) / Qc_of_nat n))%Qc.

(** The error a resolution makes [GridCell(resolution, bounds)] raise
    before the bounds are looked at: a dimension that is not spatial fails
    the assertion, a spatial dimension of size zero the division
    [0.5 / size]. *)
Definition resolution_error (resolution : Shape) : option exn :=
  if negb (forallb is_spatial resolution) then Some AssertionError
  else if existsb (fun d => Nat.eqb (dim_size d) 0) resolution
       then Some ZeroDivisionError
       else None.

(** The entries of a subscript, whether an entry is accepted, and the
    corners it stands for. *)
Definition entries (item : BoxType.subscript) : list BoxType.entry :=
  match item with
  | BoxType.Sequence items => items
  | BoxType.Single it => [it]
  end.

Definition entry_ok (e : BoxType.entry) : bool :=
  match e with
  | BoxType.Slice s => step_ok s
  | BoxType.NotSlice _ => false
  end.

Definition entry_lower (e : BoxType.entry) : num :=
  match e with
  | BoxType.Slice s => slice_lower s
  | BoxType.NotSlice _ => NaN
  end.

Definition entry_upper (e : BoxType.entry) : num :=
  match e with
  | BoxType.Slice s => slice_upper s
  | BoxType.NotSlice _ => NaN
  end.

(** Row [i] of a location holds a NaN. *)
Definition nan_row (p : Tensor) (r i : nat) : bool :=
  existsb (fun j => Num.is_nan (get p i j)) (seq 0 r).

(** [b.global_to_local(b.local_to_global(q))] *)
Definition local_round_trip (self : AbstractBox) (q : Tensor) : result Tensor :=
  p <- AbstractBox.local_to_global self q ;; AbstractBox.global_to_local self p.

(** The squared distance from the center of row [i] of a box to each of
    its corners: the sum over the axes of the squared half sizes. *)
Definition half_diagonal_sq (l u : Tensor) (r i : nat) : Qc :=
  fold_right
    (fun j acc =>
       let h := ((qval (get u i j) - qval (get l i j)) / Q2Qc 2)%Qc in
       (h * h + acc)%Qc)
    (Q2Qc 0) (seq 0 r).

(** ** Vocabulary of the replays on floats *)

(** Both binary formats agree on a boolean observation. *)
Definition in_both_formats (P : IEEE.format -> bool) : bool :=
  P IEEE.binary32 && P IEEE.binary64.

(** [Cuboid(center=1e20, half_size=0.5)]: its lower corner, its size and
    the round trip of the point 1 through it. *)
Definition far_cuboid_lower (f : IEEE.format) : IEEE.float :=
  IEEE.Cuboid_lower f (IEEE.of_Z f (10 ^ 20)) (IEEE.half f).

Definition far_cuboid_size (f : IEEE.format) : IEEE.float :=
  IEEE.Cuboid_size f (IEEE.half f).

Definition far_cuboid_round_trip (f : IEEE.format) : IEEE.float :=
  IEEE.round_trip f (far_cuboid_lower f) (far_cuboid_size f) (IEEE.of_Z f 1).

(** [Box(-1, 1e17)]: the signed distance of a location [p]. *)
Definition wide_box_distance (f : IEEE.format) (p : IEEE.float) : IEEE.float :=
  IEEE.approximate_signed_distance f (IEEE.of_Z f (-1)) (IEEE.of_Z f (10 ^ 17)) p.

(** [Box(0, 1).shifted(1e20)]: its size. *)
Definition far_shift_size (f : IEEE.format) : IEEE.float :=
  IEEE.shifted_size f (IEEE.of_Z f 0) (IEEE.of_Z f 1) (IEEE.of_Z f (10 ^ 20)).

(** The centers and the half size of the grid of [n] cells over
    [Box([0], [1])]. *)
Definition unit_cell_center (f : IEEE.format) (n i : nat) : IEEE.float :=
  IEEE.cell_center f (IEEE.of_Z f 0) (IEEE.of_Z f 1) n i.

Definition unit_cell_half_size (f : IEEE.format) (n : nat) : IEEE.float :=
  IEEE.cell_half_size f (IEEE.of_Z f 0) (IEEE.of_Z f 1) n.

(** The float [a / 2 ^ k], for an odd part [a] that the format holds. *)
Definition binary (f : IEEE.format) (a : Z) (k : nat) : IEEE.float :=
  IEEE.div f (IEEE.of_Z f a) (IEEE.of_Z f (2 ^ Z.of_nat k)).

(** A rational is a binary fraction, the only rationals a binary float
    can hold: its denominator in lowest terms is a power of two. *)
Fixpoint power_of_two (p : BinNums.positive) : bool :=
  match p with
  | xH => true
  | xO p' => power_of_two p'
  | xI _ => false
  end.

Definition binary_fraction (q : Qc) : bool := power_of_two (Qden (this q)).

(** Row [i] of a tensor holds finite values only; row [i] of a box reaches
    to infinity on some axis, as the boxes of [Box[...]] do. *)
Definition finite_row (t : Tensor) (r i : nat) : bool :=
  forallb (fun j => Num.is_finite (get t i j)) (seq 0 r).

Definition unbounded_row (l u : Tensor) (r i : nat) : bool :=
  existsb (fun j => match get l i j, get u i j with
                    | NInf, _ | _, PInf => true
                    | _, _ => false
                    end) (seq 0 r).

(** * Facts about the tensor engine *)

Section ListFacts.
Context {A B C : Type}.

Lemma bnth_nth (l : list A) (i : nat) (d : A) :
  i < length l -> bnth l i d = nth i l d.
Proof.
  destruct l as [|x [|y l]]; simpl; intros Hi; try reflexivity.
  destruct i; [reflexivity | lia].
Qed.

Lemma bnth_single (l : list A) (i k : nat) (d : A) :
  length l = 1 -> bnth l i d = bnth l k d.
Proof.
  destruct l as [|x [|y l]]; simpl; intros; try reflexivity; discriminate.
Qed.

Lemma bnth_In (l : list A) (i n : nat) (d : A) :
  dim_fits (length l) n = true -> i < n -> In (bnth l i d) l.
Proof.
  unfold dim_fits. intros H Hi.
  apply orb_true_iff in H. destruct H as [H|H]; apply Nat.eqb_eq in H.
  - destruct l as [|x [|y l]]; simpl in *; try discriminate. now left.
  - rewrite bnth_nth by lia. apply nth_In. lia.
Qed.

Lemma mapM_map (f : A -> result B) (g : A -> B) (l : list A) :
  (forall x, In x l -> f x = Ok (g x)) -> mapM f l = Ok (map g l).
Proof.
  induction l as [|x l IH]; simpl; intros H; [reflexivity|].
  rewrite (H x) by now left. simpl.
  rewrite IH by (intros; apply H; now right). reflexivity.
Qed.

Lemma zipM_map (f : A -> B -> result C) (g : A -> B -> C) :
  forall (xs : list A) (ys : list B),
    length xs = length ys ->
    (forall x y, In (x, y) (combine xs ys) -> f x y = Ok (g x y)) ->
    zipM f xs ys = Ok (map (fun p => g (fst p) (snd p)) (combine xs ys)).
Proof.
  induction xs as [|x xs IH]; intros [|y ys] Hlen H; simpl in *;
    try discriminate; [reflexivity|].
  rewrite (H x y) by now left. simpl.
  rewrite IH; [reflexivity | lia | intros; apply H; now right].
Qed.

Lemma map_seq_nth (l : list A) (g : A -> B) (d : A) :
  map g l = map (fun i => g (nth i l d)) (seq 0 (length l)).
Proof.
  induction l as [|x l IH]; simpl; [reflexivity|].
  f_equal. rewrite <- seq_shift, map_map. exact IH.
Qed.

Lemma map_combine_seq (g : A -> B -> C) (dx : A) (dy : B) :
  forall (xs : list A) (ys : list B),
    length xs = length ys ->
    map (fun p => g (fst p) (snd p)) (combine xs ys)
    = map (fun i => g (nth i xs dx) (nth i ys dy)) (seq 0 (length xs)).
Proof.
  induction xs as [|x xs IH]; intros [|y ys] Hlen; simpl in *;
    try discriminate; [reflexivity|].
  f_equal. rewrite <- seq_shift, map_map. apply IH. lia.
Qed.

Lemma map_seq_ext (g h : nat -> C) (n : nat) :
  (forall i, i < n -> g i = h i) -> map g (seq 0 n) = map h (seq 0 n).
Proof.
  intros H. apply map_ext_in. intros i Hi. apply in_seq in Hi. apply H. lia.
Qed.

Lemma bnth_map (g : A -> B) (l : list A) (i : nat) (d : A) :
  bnth (map g l) i (g d) = g (bnth l i d).
Proof.
  destruct l as [|x [|y l]]; [destruct i; reflexivity | reflexivity |].
  change (bnth (map g (x :: y :: l)) i (g d)) with (nth i (map g (x :: y :: l)) (g d)).
  apply map_nth.
Qed.

Lemma bnth_indep (l : list A) (i n : nat) (d d' : A) :
  dim_fits (length l) n = true -> i < n -> bnth l i d = bnth l i d'.
Proof.
  unfold dim_fits. intros H Hi. apply orb_true_iff in H.
  rewrite !Nat.eqb_eq in H.
  destruct l as [|x [|y l]]; try reflexivity.
  - simpl in H. exfalso. lia.
  - apply nth_indep. simpl in H |- *. lia.
Qed.

Lemma bnth_In' (l : list A) (i : nat) (d : A) :
  length l = 1 \/ i < length l -> In (bnth l i d) l.
Proof.
  intros [H|H].
  - destruct l as [|x [|y l]]; simpl in *; try discriminate. now left.
  - rewrite bnth_nth by exact H. now apply nth_In.
Qed.

End ListFacts.

Section BroadcastFacts.
Context {A B C : Type}.

Lemma broadcast_bmap (f : A -> B -> result C) (g : A -> B -> C)
    (dx : A) (dy : B) (xs : list A) (ys : list B) :
  compatible (length xs) (length ys) ->
  (forall x y, In x xs -> In y ys -> f x y = Ok (g x y)) ->
  broadcast f xs ys = Ok (bmap g dx dy xs ys).
Proof.
  intros Hc Hf. unfold bmap, blen.
  destruct xs as [|x [|x' xs]].
  - (* xs empty *)
    destruct ys as [|y [|y' ys]]; simpl; try reflexivity.
    destruct Hc as [Hc|[Hc|Hc]]; simpl in Hc; discriminate.
  - (* xs a singleton *)
    simpl length. simpl Nat.eqb. cbv iota.
    unfold broadcast.
    rewrite (mapM_map (f x) (g x)) by (intros; apply Hf; simpl; auto).
    f_equal. rewrite (map_seq_nth ys (g x) dy).
    apply map_seq_ext. intros i Hi. simpl bnth at 1.
    now rewrite bnth_nth.
  - destruct ys as [|y [|y' ys]].
    + destruct Hc as [Hc|[Hc|Hc]]; simpl in Hc; discriminate.
    + unfold broadcast.
      rewrite (mapM_map (fun a => f a y) (fun a => g a y))
        by (intros; apply Hf; simpl; auto).
      f_equal. rewrite (map_seq_nth (x :: x' :: xs) (fun a => g a y) dx).
      apply map_seq_ext. intros i Hi.
      now rewrite bnth_nth.
    + assert (Hlen : length (x :: x' :: xs) = length (y :: y' :: ys)).
      { destruct Hc as [Hc|[Hc|Hc]]; simpl in Hc; try discriminate. exact Hc. }
      unfold broadcast.
      rewrite (zipM_map f g).
      * f_equal. rewrite (map_combine_seq g dx dy) by exact Hlen.
        apply map_seq_ext. intros i Hi.
        simpl in Hi, Hlen.
        rewrite !bnth_nth; [reflexivity | simpl; lia | simpl; lia].
      * exact Hlen.
      * intros a b Hin. apply Hf.
        -- eapply in_combine_l; eauto.
        -- eapply in_combine_r; eauto.
Qed.

Lemma bmap_length (g : A -> B -> C) dx dy (xs : list A) (ys : list B) :
  length (bmap g dx dy xs ys) = blen xs ys.
Proof. unfold bmap. now rewrite length_map, length_seq. Qed.

Lemma blen_fits (xs : list A) (ys : list B) (n : nat) :
  dim_fits (length xs) n = true -> dim_fits (length ys) n = true ->
  dim_fits (blen xs ys) n = true.
Proof.
  unfold blen. intros Hx Hy.
  destruct (Nat.eqb (length xs) 1); assumption.
Qed.

Lemma dim_fits_compatible (n m k : nat) :
  dim_fits n k = true -> dim_fits m k = true -> compatible n m.
Proof.
  unfold dim_fits, compatible. intros H1 H2.
  apply orb_true_iff in H1, H2.
  rewrite !Nat.eqb_eq in H1, H2. lia.
Qed.

Lemma bmap_bnth (g : A -> B -> C) dx dy dz (xs : list A) (ys : list B)
    (n i : nat) :
  dim_fits (length xs) n = true -> dim_fits (length ys) n = true ->
  i < n ->
  bnth (bmap g dx dy xs ys) i dz = g (bnth xs i dx) (bnth ys i dy).
Proof.
  intros Hx Hy Hi.
  unfold dim_fits in Hx, Hy. apply orb_true_iff in Hx, Hy.
  rewrite !Nat.eqb_eq in Hx, Hy.
  destruct (Nat.eq_dec (blen xs ys) 1) as [H1|H1].
  - (* the result is a singleton: both sides are *)
    assert (Hxs : length xs = 1 /\ length ys = 1).
    { unfold blen in H1. destruct (Nat.eqb_spec (length xs) 1); lia. }
    destruct Hxs as [Hxs Hys].
    unfold bmap. rewrite H1. simpl.
    now rewrite (bnth_single xs i 0 dx Hxs), (bnth_single ys i 0 dy Hys).
  - assert (Hn : blen xs ys = n).
    { unfold blen in *. destruct (Nat.eqb_spec (length xs) 1); lia. }
    rewrite bnth_nth by (rewrite bmap_length; lia).
    unfold bmap. rewrite Hn.
    rewrite (nth_indep _ dz (g (bnth xs 0 dx) (bnth ys 0 dy)))
      by (now rewrite length_map, length_seq).
    rewrite (map_nth (fun i => g (bnth xs i dx) (bnth ys i dy)) (seq 0 n) 0 i).
    now rewrite seq_nth.
Qed.

End BroadcastFacts.

Section ShapeFacts.
Context {A : Type}.

Lemma fits_iff (t : tensor_of A) (n r : nat) :
  fits t n r = true <->
  dim_fits (length t) n = true /\
  (forall row, In row t -> dim_fits (length row) r = true).
Proof.
  unfold fits. rewrite andb_true_iff, forallb_forall. reflexivity.
Qed.

Lemma full_iff (t : tensor_of A) (n r : nat) :
  full t n r = true <->
  length t = n /\ (forall row, In row t -> length row = r).
Proof.
  unfold full. rewrite andb_true_iff, forallb_forall, Nat.eqb_eq.
  split; intros [H1 H2]; split; auto; intros row Hr.
  - now apply Nat.eqb_eq, H2.
  - now apply Nat.eqb_eq, H2.
Qed.

Lemma full_fits (t : tensor_of A) (n r : nat) :
  full t n r = true -> fits t n r = true.
Proof.
  intros H. apply full_iff in H. apply fits_iff.
  unfold dim_fits. destruct H as [H1 H2]. split.
  - apply orb_true_iff. right. now apply Nat.eqb_eq.
  - intros row Hr. apply orb_true_iff. right. apply Nat.eqb_eq. auto.
Qed.

Lemma fits_row (t : tensor_of A) (n r i : nat) :
  fits t n r = true -> i < n ->
  dim_fits (length (bnth t i [])) r = true.
Proof.
  intros H Hi. apply fits_iff in H. destruct H as [H1 H2]. apply H2.
  eapply bnth_In; eauto.
Qed.

End ShapeFacts.

Section TensorFacts.
Context {A B C : Type}.

Lemma tget_tmap (g : A -> B) (d : A) (d' : B) (t : tensor_of A)
    (n r i j : nat) :
  fits t n r = true -> i < n -> j < r ->
  tget d' (tmap g t) i j = g (tget d t i j).
Proof.
  intros Hf Hi Hj. unfold tget, tmap.
  pose proof (fits_row t n r i Hf Hi) as Hrow.
  change (@nil B) with (map g []). rewrite (bnth_map (map g) t i []).
  rewrite (bnth_indep _ _ r d' (g d)); [apply bnth_map | | exact Hj].
  now rewrite length_map.
Qed.

Lemma forallb_map_length (g : A -> B) (P : nat -> bool) (t : tensor_of A) :
  forallb (fun row => P (length row)) (map (map g) t)
  = forallb (fun row => P (length row)) t.
Proof.
  induction t as [|row t IH]; simpl; [reflexivity|].
  now rewrite length_map, IH.
Qed.

Lemma fits_tmap (g : A -> B) (t : tensor_of A) (n r : nat) :
  fits (tmap g t) n r = fits t n r.
Proof.
  unfold fits, tmap. rewrite length_map. f_equal.
  apply (forallb_map_length g (fun k => dim_fits k r)).
Qed.

Variable f : A -> B -> C.
Variables (dx : A) (dy : B).

Lemma tensor_op_bmap2 (a : tensor_of A) (b : tensor_of B) (n r : nat) :
  fits a n r = true -> fits b n r = true ->
  tensor_op f a b = Ok (bmap2 f dx dy a b).
Proof.
  intros Ha Hb. apply fits_iff in Ha, Hb.
  destruct Ha as [Ha Hra], Hb as [Hb Hrb].
  unfold tensor_op, bmap2. apply broadcast_bmap.
  - eapply dim_fits_compatible; eauto.
  - intros x y Hx Hy. apply broadcast_bmap.
    + eapply dim_fits_compatible; eauto.
    + reflexivity.
Qed.

Lemma bmap2_get (dz : C) (a : tensor_of A) (b : tensor_of B)
    (n r i j : nat) :
  fits a n r = true -> fits b n r = true -> i < n -> j < r ->
  tget dz (bmap2 f dx dy a b) i j = f (tget dx a i j) (tget dy b i j).
Proof.
  intros Ha Hb Hi Hj. unfold tget, bmap2.
  pose proof (fits_row a n r i Ha Hi) as Hra.
  pose proof (fits_row b n r i Hb Hi) as Hrb.
  apply fits_iff in Ha, Hb. destruct Ha as [Ha _], Hb as [Hb _].
  rewrite (bmap_bnth _ [] [] [] a b n i Ha Hb Hi).
  now rewrite (bmap_bnth f dx dy dz _ _ r j Hra Hrb Hj).
Qed.

Lemma bmap2_fits (a : tensor_of A) (b : tensor_of B) (n r : nat) :
  fits a n r = true -> fits b n r = true ->
  fits (bmap2 f dx dy a b) n r = true.
Proof.
  intros Ha Hb. apply fits_iff. apply fits_iff in Ha, Hb.
  destruct Ha as [Ha Hra], Hb as [Hb Hrb].
  unfold bmap2. split.
  - rewrite bmap_length. now apply blen_fits.
  - intros row Hrow. unfold bmap in Hrow at 1.
    apply in_map_iff in Hrow. destruct Hrow as [i [<- Hi]].
    apply in_seq in Hi. rewrite bmap_length.
    pose proof (dim_fits_compatible _ _ _ Ha Hb) as Hc.
    apply blen_fits.
    + apply Hra, bnth_In'. unfold blen in Hi.
      destruct (Nat.eqb_spec (length a) 1); lia.
    + apply Hrb, bnth_In'. unfold blen, compatible in *.
      destruct (Nat.eqb_spec (length a) 1); lia.
Qed.

Lemma bmap2_full (a : tensor_of A) (b : tensor_of B) (n r : nat) :
  fits a n r = true -> fits b n r = true ->
  full a n r = true \/ full b n r = true ->
  full (bmap2 f dx dy a b) n r = true.
Proof.
  intros Ha Hb Hfull.
  pose proof (bmap2_fits a b n r Ha Hb) as Hc.
  apply fits_iff in Ha, Hb. destruct Ha as [Ha Hra], Hb as [Hb Hrb].
  pose proof (dim_fits_compatible _ _ _ Ha Hb) as Hcomp.
  unfold dim_fits in Ha, Hb. apply orb_true_iff in Ha, Hb.
  rewrite !Nat.eqb_eq in Ha, Hb.
  apply full_iff. unfold bmap2. split.
  - rewrite bmap_length. unfold blen.
    destruct Hfull as [Hf|Hf]; apply full_iff in Hf; destruct Hf as [Hf _];
      destruct (Nat.eqb_spec (length a) 1); lia.
  - intros row Hrow. unfold bmap in Hrow at 1.
    apply in_map_iff in Hrow. destruct Hrow as [i [<- Hi]].
    apply in_seq in Hi. rewrite bmap_length.
    assert (Hia : In (bnth a i []) a).
    { apply bnth_In'. unfold blen in Hi.
      destruct (Nat.eqb_spec (length a) 1); lia. }
    assert (Hib : In (bnth b i []) b).
    { apply bnth_In'. unfold blen, compatible in *.
      destruct (Nat.eqb_spec (length a) 1); lia. }
    pose proof (Hra _ Hia) as H1. pose proof (Hrb _ Hib) as H2.
    unfold dim_fits in H1, H2. apply orb_true_iff in H1, H2.
    rewrite !Nat.eqb_eq in H1, H2.
    unfold blen.
    destruct Hfull as [Hf|Hf]; apply full_iff in Hf; destruct Hf as [_ Hf].
    + specialize (Hf _ Hia).
      destruct (Nat.eqb_spec (length (bnth a i [])) 1); lia.
    + specialize (Hf _ Hib).
      destruct (Nat.eqb_spec (length (bnth a i [])) 1); lia.
Qed.

End TensorFacts.

Lemma tensor_ext {A : Type} (d : A) (a b : tensor_of A) (n r : nat) :
  full a n r = true -> full b n r = true ->
  (forall i j, i < n -> j < r -> tget d a i j = tget d b i j) ->
  a = b.
Proof.
  intros Ha Hb H. apply full_iff in Ha, Hb.
  destruct Ha as [Ha Hra], Hb as [Hb Hrb].
  apply (nth_ext a b [] []); [lia|].
  intros i Hi.
  assert (Hia : In (nth i a []) a) by (apply nth_In; lia).
  assert (Hib : In (nth i b []) b) by (apply nth_In; lia).
  apply (nth_ext _ _ d d); [rewrite Hra, Hrb; auto|].
  intros j Hj. rewrite Hra in Hj by exact Hia.
  specialize (H i j ltac:(lia) Hj). unfold tget in H.
  rewrite (bnth_nth a) in H by lia.
  rewrite (bnth_nth b) in H by lia.
  rewrite !bnth_nth in H; [exact H | rewrite Hrb; auto | rewrite Hra; auto].
Qed.

(** ** Facts about scalars *)

Lemma this_plus (x y : Qc) : (this (x + y)%Qc == this x + this y)%Q.
Proof. apply Qred_correct. Qed.

Lemma this_mult (x y : Qc) : (this (x * y)%Qc == this x * this y)%Q.
Proof. apply Qred_correct. Qed.

Lemma this_opp (x : Qc) : (this (- x)%Qc == - this x)%Q.
Proof. apply Qred_correct. Qed.

Lemma this_minus (x y : Qc) : (this (x - y)%Qc == this x - this y)%Q.
Proof. unfold Qcminus. rewrite this_plus, this_opp. reflexivity. Qed.

Lemma this_Q2Qc (q : Q) : (this (Q2Qc q) == q)%Q.
Proof. apply Qred_correct. Qed.

(** Linear arithmetic on [Qc], through the underlying rationals. *)
Ltac qc_lra :=
  unfold Qclt, Qcle, Num.zero in *;
  repeat (rewrite ?this_plus, ?this_minus, ?this_mult, ?this_opp, ?this_Q2Qc in * );
  lra.

Lemma Qc_ltb_lt (x y : Qc) : Num.Qc_ltb x y = true <-> (x < y)%Qc.
Proof.
  unfold Num.Qc_ltb. rewrite Qclt_alt.
  destruct (x ?= y)%Qc; split; intros H; try reflexivity; discriminate.
Qed.

Lemma Qc_leb_le (x y : Qc) : Num.Qc_leb x y = true <-> (x <= y)%Qc.
Proof.
  unfold Num.Qc_leb. rewrite Qcle_alt.
  destruct (x ?= y)%Qc; split; intros H; try reflexivity; try discriminate;
    try (intros H'; discriminate). now elim H.
Qed.

Lemma Qc_eqb_eq (x y : Qc) : Num.Qc_eqb x y = true <-> x = y.
Proof.
  unfold Num.Qc_eqb. rewrite Qceq_alt.
  destruct (x ?= y)%Qc; split; intros H; try reflexivity; discriminate.
Qed.

Lemma Qc_ltb_irrefl_pos (s : Qc) :
  Num.Qc_ltb Num.zero s = true ->
  Num.Qc_eqb s Num.zero = false /\ Num.Qc_ltb s Num.zero = false.
Proof.
  intros H. apply Qc_ltb_lt in H. split.
  - destruct (Num.Qc_eqb s Num.zero) eqn:E; [|reflexivity].
    apply Qc_eqb_eq in E. subst. exfalso. qc_lra.
  - destruct (Num.Qc_ltb s Num.zero) eqn:E; [|reflexivity].
    apply Qc_ltb_lt in E. exfalso. qc_lra.
Qed.

Lemma round_trip_entry (x l s : num) :
  Num.is_finite l = true ->
  Num.is_finite s = true -> Num.ltb (Fin Num.zero) s = true ->
  Num.add (Num.mul (Num.div (Num.sub x l) s) s) l = x.
Proof.
  intros Hl Hs Hpos.
  destruct l as [l| | |]; try discriminate.
  destruct s as [s| | |]; try discriminate.
  simpl in Hpos. destruct (Qc_ltb_irrefl_pos s Hpos) as [Hne Hnlt].
  destruct x as [x| | |]; simpl.
  - rewrite Hne. simpl. f_equal. field.
    intros ->. discriminate.
  - unfold Num.signed_inf. rewrite Hnlt. simpl. rewrite Hne.
    unfold Num.signed_inf. now rewrite Hnlt.
  - unfold Num.signed_inf. rewrite Hnlt. simpl. rewrite Hne.
    unfold Num.signed_inf. now rewrite Hnlt.
  - reflexivity.
Qed.

(** ** Elementwise operations, entry by entry *)

Lemma tensor_op_spec {A B C : Type} (f : A -> B -> C) (dx : A) (dy : B) (dz : C)
    (a : tensor_of A) (b : tensor_of B) (n r : nat) :
  fits a n r = true -> fits b n r = true ->
  exists c,
    tensor_op f a b = Ok c /\
    fits c n r = true /\
    (full a n r = true \/ full b n r = true -> full c n r = true) /\
    (forall i j, i < n -> j < r ->
       tget dz c i j = f (tget dx a i j) (tget dy b i j)).
Proof.
  intros Ha Hb. exists (bmap2 f dx dy a b). repeat split.
  - now apply tensor_op_bmap2 with (n := n) (r := r).
  - now apply bmap2_fits.
  - now apply bmap2_full.
  - intros i j Hi Hj. now apply bmap2_get with (n := n) (r := r).
Qed.

Lemma all_entries_tget {A : Type} (P : A -> bool) (d : A) (t : tensor_of A)
    (n r i j : nat) :
  all_entries P t = true -> fits t n r = true -> i < n -> j < r ->
  P (tget d t i j) = true.
Proof.
  intros Hall Hf Hi Hj. unfold all_entries in Hall.
  rewrite forallb_forall in Hall.
  pose proof (fits_row t n r i Hf Hi) as Hrow.
  apply fits_iff in Hf. destruct Hf as [Hlen _].
  assert (Hin : In (bnth t i []) t) by (eapply bnth_In; eauto).
  specialize (Hall _ Hin). rewrite forallb_forall in Hall.
  apply Hall. unfold tget. eapply bnth_In; eauto.
Qed.

(** ** Facts about the grid of a unit interval *)

Lemma Qc_of_nat_S (n : nat) : Qc_of_nat (S n) = (Qc_of_nat n + 1)%Qc.
Proof.
  apply Qc_is_canon. unfold Qc_of_nat.
  rewrite this_plus, !this_Q2Qc, Nat2Z.inj_succ, <- Z.add_1_r, inject_Z_plus.
  reflexivity.
Qed.

Lemma Qc_of_nat_pos (n : nat) : 1 <= n -> (Q2Qc 0 < Qc_of_nat n)%Qc.
Proof.
  intros H. unfold Qc_of_nat, Qclt. rewrite !this_Q2Qc.
  change 0%Q with (inject_Z 0). rewrite <- Zlt_Qlt. lia.
Qed.

Lemma Qc_of_nat_neq_0 (n : nat) : 1 <= n -> Qc_of_nat n <> Q2Qc 0.
Proof.
  intros H E. pose proof (Qc_of_nat_pos n H) as P. rewrite E in P. qc_lra.
Qed.

Lemma half_as_quotient : Q2Qc (1 # 2) = (1 / (1 + 1))%Qc.
Proof. apply Qc_is_canon. reflexivity. Qed.

Lemma two_as_sum : Q2Qc 2 = (1 + 1)%Qc.
Proof. apply Qc_is_canon. reflexivity. Qed.

Lemma midpoint_first (n i : nat) :
  n = 1 -> i = 0 ->
  (Qc_of_nat i * ((1 - Q2Qc (1 # 2) / Qc_of_nat n) - Q2Qc (1 # 2) / Qc_of_nat n)
   + Q2Qc (1 # 2) / Qc_of_nat n)%Qc = midpoint n i.
Proof.
  intros -> ->. apply Qc_is_canon. reflexivity.
Qed.

Lemma midpoint_last (n : nat) :
  2 <= n ->
  (1 - Q2Qc (1 # 2) / Qc_of_nat n)%Qc = midpoint n (n - 1).
Proof.
  intros H. unfold midpoint.
  destruct n as [|n]; [lia|]. replace (S n - 1) with n by lia.
  rewrite Qc_of_nat_S.
  assert (Hn : (Qc_of_nat n + 1)%Qc <> Q2Qc 0).
  { rewrite <- Qc_of_nat_S. apply Qc_of_nat_neq_0. lia. }
  generalize dependent (Qc_of_nat n). intros x Hx.
  rewrite half_as_quotient. field.
  split; [intros E; inversion E | exact Hx].
Qed.

Lemma midpoint_inner (n i : nat) :
  2 <= n ->
  (Qc_of_nat i
   * (((1 - Q2Qc (1 # 2) / Qc_of_nat n) - Q2Qc (1 # 2) / Qc_of_nat n)
      / Qc_of_nat (n - 1))
   + Q2Qc (1 # 2) / Qc_of_nat n)%Qc = midpoint n i.
Proof.
  intros H. unfold midpoint.
  destruct n as [|n]; [lia|]. replace (S n - 1) with n by lia.
  rewrite Qc_of_nat_S.
  assert (Hn : (Qc_of_nat n + 1)%Qc <> Q2Qc 0).
  { rewrite <- Qc_of_nat_S. apply Qc_of_nat_neq_0. lia. }
  assert (Hn' : Qc_of_nat n <> Q2Qc 0) by (apply Qc_of_nat_neq_0; lia).
  generalize dependent (Qc_of_nat n). generalize (Qc_of_nat i).
  intros y x Hx Hx'. rewrite half_as_quotient. field.
  repeat split; try assumption; intros E; inversion E.
Qed.

Lemma linspace_midpoints (n : nat) :
  1 <= n ->
  linspace (Q2Qc (1 # 2) / Qc_of_nat n)%Qc
           (1 - Q2Qc (1 # 2) / Qc_of_nat n)%Qc n
  = map (midpoint n) (seq 0 n).
Proof.
  intros H. unfold linspace. apply map_ext_in. intros i Hi.
  apply in_seq in Hi.
  destruct (Nat.eqb_spec (n - 1) 0) as [E|E].
  - apply midpoint_first; lia.
  - destruct (Nat.eqb_spec i (n - 1)) as [E'|E'].
    + subst i. apply midpoint_last. lia.
    + apply midpoint_inner. lia.
Qed.

Lemma meshgrid_one_axis (ax : list num) :
  meshgrid [ax] = map (fun c => [c]) ax.
Proof.
  simpl. induction ax as [|c ax IH]; simpl; [reflexivity|]. now rewrite IH.
Qed.

Lemma axis_points_midpoints (n : nat) :
  1 <= n ->
  GridCell.axis_points n = Ok (map (fun i => Fin (midpoint n i)) (seq 0 n)).
Proof.
  intros H. unfold GridCell.axis_points, GridCell.half_over.
  destruct (Nat.eqb_spec n 0) as [E|E]; [lia|]. simpl.
  rewrite linspace_midpoints by exact H. now rewrite map_map.
Qed.

Lemma axes_midpoints (n : nat) (name : string) :
  1 <= n ->
  mapM (fun ds : string * nat => GridCell.axis_points (snd ds)) [(name, n)]
  = Ok [map (fun i => Fin (midpoint n i)) (seq 0 n)].
Proof.
  intros H. cbn [mapM snd]. now rewrite (axis_points_midpoints n H).
Qed.

Lemma grid_centers_full (n : nat) : full (grid_centers n) n 1 = true.
Proof.
  apply full_iff. unfold grid_centers. split.
  - now rewrite length_map, length_seq.
  - intros row Hrow. apply in_map_iff in Hrow. now destruct Hrow as [i [<- _]].
Qed.

Lemma grid_centers_finite (n : nat) :
  all_entries Num.is_finite (grid_centers n) = true.
Proof.
  unfold all_entries, grid_centers. apply forallb_forall.
  intros row Hrow. apply in_map_iff in Hrow. now destruct Hrow as [i [<- _]].
Qed.

Lemma unit_interval_size :
  size (IsBox unit_interval) = Ok [[Fin (1 - 0)%Qc]].
Proof. reflexivity. Qed.

Lemma local_to_global_unit_interval (p : Tensor) (n : nat) :
  full p n 1 = true -> all_entries Num.is_finite p = true ->
  AbstractBox.local_to_global (IsBox unit_interval) p = Ok p.
Proof.
  intros Fp Ap. pose proof (full_fits p n 1 Fp) as Fp'.
  unfold AbstractBox.local_to_global. rewrite unit_interval_size. simpl.
  assert (Fs : fits [[Fin (1 - 0)%Qc]] n 1 = true) by reflexivity.
  assert (Fl : fits [[Num.of_Z 0]] n 1 = true) by reflexivity.
  destruct (tensor_op_spec Num.mul NaN NaN NaN p _ n 1 Fp' Fs)
    as (m & Hm & Fm & Um & Gm).
  unfold tmul. rewrite Hm. simpl.
  destruct (tensor_op_spec Num.add NaN NaN NaN m _ n 1 Fm Fl)
    as (g & Hg & Fg & Ug & Gg).
  unfold tadd. rewrite Hg. f_equal.
  apply (tensor_ext NaN g p n 1); [| exact Fp |].
  { apply Ug. left. apply Um. now left. }
  intros i j Hi Hj. rewrite Gg, Gm by assumption.
  pose proof (all_entries_tget _ NaN p n 1 i j Ap Fp' Hi Hj) as Hfin.
  destruct (tget NaN p i j) as [x| | |]; try discriminate.
  assert (Hj0 : j = 0) by lia. subst j.
  change (tget NaN [[Fin (1 - 0)%Qc]] i 0) with (Fin (1 - 0)%Qc).
  change (tget NaN [[Num.of_Z 0]] i 0) with (Fin 0%Qc).
  simpl. f_equal. ring.
Qed.

Lemma unit_interval_half_size (n : nat) :
  1 <= n ->
  (q <- tdiv [[Fin (1 - 0)%Qc]] (tensor (PyList (map (fun k => Fin (Qc_of_nat k)) [n]))) ;;
   Ok (div_scalar q two)) = Ok (grid_half_size n).
Proof.
  intros H. pose proof (Qc_of_nat_neq_0 n H) as Hn.
  unfold grid_half_size. simpl.
  destruct (Num.Qc_eqb (Qc_of_nat n) Num.zero) eqn:E.
  { apply Qc_eqb_eq in E. contradiction. }
  simpl. unfold two, Num.of_Z.
  change (Num.Qc_eqb (Q2Qc (inject_Z 2)) Num.zero) with false. cbv iota.
  do 4 f_equal.
  change (Q2Qc (inject_Z 2)) with (Q2Qc 2). rewrite two_as_sum.
  generalize dependent (Qc_of_nat n). intros x Hx _. field.
  split; [exact Hx | intros E'; inversion E'].
Qed.

Lemma grid_combined_shape (n : nat) (h : Tensor) :
  1 <= n -> tshape h = (1, 1) ->
  combined_shape (grid_centers n) h = Ok (n, 1).
Proof.
  intros H Hh. unfold combined_shape, tshape in *.
  injection Hh as Hlen Hv. rewrite Hlen, Hv.
  unfold grid_centers at 1. rewrite length_map, length_seq.
  assert (Hd : combined_dim n 1 = Ok n).
  { unfold combined_dim. destruct (Nat.eqb_spec n 1); [now subst|].
    reflexivity. }
  rewrite Hd. simpl.
  assert (Hvd : vdim (grid_centers n) = 1).
  { unfold grid_centers. destruct n; [lia|]. reflexivity. }
  now rewrite Hvd.
Qed.

(** ** Full reductions and operations of a tensor with itself *)

Lemma In_bnth {A : Type} (l : list A) (n : nat) (d x : A) :
  dim_fits (length l) n = true -> 1 <= n -> In x l ->
  exists i, i < n /\ bnth l i d = x.
Proof.
  intros Hf Hn Hin. destruct (In_nth l x d Hin) as (i & Hi & Hx).
  exists i. unfold dim_fits in Hf. apply orb_true_iff in Hf.
  rewrite !Nat.eqb_eq in Hf. split; [lia|].
  now rewrite bnth_nth.
Qed.

Lemma np_all_iff (t : tensor_of bool) (n r : nat) :
  fits t n r = true -> 1 <= n -> 1 <= r ->
  (np_all t = true <->
   forall i j, i < n -> j < r -> tget false t i j = true).
Proof.
  intros Hf Hn Hr. split.
  - intros Hall i j Hi Hj.
    apply (all_entries_tget (fun b => b) false t n r i j Hall Hf Hi Hj).
  - intros H. unfold np_all. apply forallb_forall. intros row Hrow.
    apply forallb_forall. intros x Hx.
    pose proof Hf as Hf'. apply fits_iff in Hf'. destruct Hf' as [Hlen Hrows].
    destruct (In_bnth t n [] row Hlen Hn Hrow) as (i & Hi & Ei).
    destruct (In_bnth row r false x (Hrows row Hrow) Hr Hx) as (j & Hj & Ej).
    specialize (H i j Hi Hj). unfold tget in H. now rewrite Ei, Ej in H.
Qed.

Lemma zipM_diag {A C : Type} (f : A -> A -> result C) (xs : list A) :
  zipM f xs xs = mapM (fun x => f x x) xs.
Proof.
  induction xs as [|x xs IH]; simpl; [reflexivity|]. now rewrite IH.
Qed.

Lemma broadcast_diag {A C : Type} (f : A -> A -> result C) (xs : list A) :
  broadcast f xs xs = mapM (fun x => f x x) xs.
Proof.
  destruct xs as [|x [|y xs]]; try reflexivity.
  unfold broadcast. apply zipM_diag.
Qed.

Lemma tensor_op_diag {A C : Type} (f : A -> A -> C) (a : tensor_of A) :
  tensor_op f a a = Ok (tmap (fun x => f x x) a).
Proof.
  unfold tensor_op. rewrite broadcast_diag. unfold tmap.
  apply mapM_map. intros row _. rewrite broadcast_diag.
  now apply mapM_map.
Qed.

Lemma leb_refl (x : num) : Num.is_nan x = false -> Num.leb x x = true.
Proof.
  destruct x as [q| | |]; simpl; try reflexivity; try discriminate.
  intros _. apply Qc_leb_le. apply Qcle_refl.
Qed.

Lemma np_all_tmap_diag (f : num -> num -> bool) (t : Tensor) :
  (forall x, Num.is_nan x = false -> f x x = true) ->
  no_nan t = true -> np_all (tmap (fun x => f x x) t) = true.
Proof.
  intros Hf Ht. unfold np_all, tmap, no_nan, all_entries in *.
  rewrite forallb_forall in *. intros row' Hrow.
  apply in_map_iff in Hrow. destruct Hrow as (row & <- & Hrow).
  specialize (Ht row Hrow). rewrite forallb_forall in *.
  intros b Hb. apply in_map_iff in Hb. destruct Hb as (x & <- & Hx).
  apply Hf. apply negb_true_iff. now apply Ht.
Qed.

(** ** Reductions over the [vector] dimension *)

Lemma forallb_ext_in {A : Type} (f g : A -> bool) (l : list A) :
  (forall x, In x l -> f x = g x) -> forallb f l = forallb g l.
Proof.
  induction l as [|x l IH]; simpl; intros H; [reflexivity|].
  rewrite (H x) by now left. f_equal. apply IH. intros; apply H; now right.
Qed.

Lemma forallb_map {A B : Type} (f : B -> bool) (g : A -> B) (l : list A) :
  forallb f (map g l) = forallb (fun x => f (g x)) l.
Proof. induction l as [|x l IH]; simpl; [reflexivity|]. now rewrite IH. Qed.

Lemma forallb_const (b : bool) (l : list nat) :
  l <> [] -> forallb (fun _ => b) l = b.
Proof.
  induction l as [|x l IH]; intros H; [contradiction|]. simpl.
  destruct l as [|y l]; [simpl; apply andb_true_r|].
  rewrite IH by discriminate. apply andb_diag.
Qed.

Lemma seq_nonempty (r : nat) : 1 <= r -> seq 0 r <> [].
Proof. destruct r; [lia | discriminate]. Qed.

Lemma row_as_seq {A : Type} (d : A) (row : list A) (r : nat) :
  dim_fits (length row) r = true -> 1 <= r ->
  (length row = 1 /\ exists x, row = [x] /\ forall j, bnth row j d = x) \/
  (length row = r /\ row = map (fun j => bnth row j d) (seq 0 r)).
Proof.
  intros Hf Hr. unfold dim_fits in Hf. apply orb_true_iff in Hf.
  rewrite !Nat.eqb_eq in Hf. destruct Hf as [H1|Hn].
  - left. split; [exact H1|].
    destruct row as [|x [|y row]]; try discriminate. exists x. now split.
  - right. split; [exact Hn|]. rewrite <- Hn.
    rewrite <- (map_id row) at 1. rewrite (map_seq_nth row (fun x => x) d).
    apply map_ext_in. intros j Hj. apply in_seq in Hj.
    symmetry. apply bnth_nth. lia.
Qed.

Lemma forallb_row (row : list bool) (r : nat) :
  dim_fits (length row) r = true -> 1 <= r ->
  forallb (fun b => b) row = forallb (fun j => bnth row j false) (seq 0 r).
Proof.
  intros Hf Hr.
  destruct (row_as_seq false row r Hf Hr) as [(_ & x & -> & Hx)|(_ & E)].
  - simpl forallb at 1. rewrite andb_true_r.
    rewrite (forallb_ext_in _ (fun _ => x)) by (intros; apply Hx).
    symmetry. apply forallb_const. now apply seq_nonempty.
  - rewrite E at 1. now rewrite forallb_map.
Qed.

Lemma reduced_row {A B : Type} (g : list A -> B) (d : B)
    (t : tensor_of A) (n r i : nat) :
  fits t n r = true -> i < n ->
  bnth (map g t) i d = g (bnth t i []).
Proof.
  intros Hf Hi. apply fits_iff in Hf. destruct Hf as [Hlen _].
  rewrite (bnth_indep (map g t) i n d (g [])); [apply bnth_map | | exact Hi].
  now rewrite length_map.
Qed.

(** ** Distances on one axis *)

Lemma half_mul_l (x : num) : Num.mul half x = Num.div x two.
Proof.
  destruct x as [q| | |]; try reflexivity.
  unfold half, two, Num.of_Q, Num.of_Z, Num.mul, Num.div.
  change (Num.Qc_eqb (Q2Qc (inject_Z 2)) Num.zero) with false. cbv iota.
  f_equal. change (Q2Qc (inject_Z 2)) with (Q2Qc 2).
  rewrite half_as_quotient, two_as_sum. field. intros E. inversion E.
Qed.

Lemma half_mul_r (x : num) : Num.mul x half = Num.div x two.
Proof. destruct x as [q| | |]; reflexivity. Qed.

Lemma axis_distance_finite (l u p : Qc) :
  axis_distance (Fin l) (Fin u) (Fin p) = Fin (axis_distance_Qc l u p).
Proof.
  unfold axis_distance, axis_distance_Qc, two, Num.of_Z. simpl.
  change (Num.Qc_eqb (Q2Qc (inject_Z 2)) Num.zero) with false. cbv iota.
  reflexivity.
Qed.

Lemma this_half (x : Qc) : (this (x / Q2Qc 2)%Qc == this x * (1 # 2))%Q.
Proof.
  assert (E : (x / Q2Qc 2 = x * Q2Qc (1 # 2))%Qc).
  { rewrite half_as_quotient, two_as_sum. field. intros E. inversion E. }
  rewrite E, this_mult, this_Q2Qc. reflexivity.
Qed.

Ltac qc_abs_lra :=
  unfold axis_distance_Qc in *; apply Qcabs_case; intros;
  unfold Qclt, Qcle, Num.zero in *;
  repeat (rewrite ?this_plus, ?this_minus, ?this_half, ?this_mult,
                  ?this_opp, ?this_Q2Qc in * );
  lra.

Lemma axis_distance_interior (l u p : Qc) :
  (l < p)%Qc -> (p < u)%Qc -> (axis_distance_Qc l u p < Num.zero)%Qc.
Proof. intros H1 H2. qc_abs_lra. Qed.

Lemma axis_distance_exterior (l u p : Qc) :
  (p < l)%Qc \/ (u < p)%Qc -> (Num.zero < axis_distance_Qc l u p)%Qc.
Proof. intros [H|H]; qc_abs_lra. Qed.

Lemma axis_distance_inside (l u p : Qc) :
  (l <= p)%Qc -> (p <= u)%Qc -> (axis_distance_Qc l u p <= Num.zero)%Qc.
Proof. intros H1 H2. qc_abs_lra. Qed.

Lemma axis_distance_on_face (l u p : Qc) :
  (l <= u)%Qc -> p = l \/ p = u -> axis_distance_Qc l u p = Num.zero.
Proof.
  intros H [->| ->]; apply Qc_is_canon; qc_abs_lra.
Qed.

(** ** The maximum of a row *)

Lemma max_list_row_max (row : list num) :
  row <> [] -> max_list row = Ok (row_max row).
Proof. destruct row; [contradiction | reflexivity]. Qed.

Lemma max_idem (x : num) : Num.max x x = x.
Proof. destruct x as [q| | |]; simpl; try reflexivity. now destruct (Num.Qc_leb q q). Qed.

Lemma fold_max_const (x : num) (l : list nat) :
  fold_left Num.max (map (fun _ => x) l) x = x.
Proof. induction l as [|k l IH]; simpl; [reflexivity|]. now rewrite max_idem. Qed.

Lemma row_max_row (row : list num) (r : nat) :
  dim_fits (length row) r = true -> 1 <= r ->
  row_max row = row_max (map (fun j => bnth row j NaN) (seq 0 r)).
Proof.
  intros Hf Hr.
  destruct (row_as_seq NaN row r Hf Hr) as [(_ & x & -> & Hx)|(_ & E)].
  - destruct r as [|r]; [lia|]. simpl seq. simpl map. simpl row_max.
    rewrite <- seq_shift, map_map. symmetry. apply fold_max_const.
  - now rewrite <- E.
Qed.

Lemma finite_qval (x : num) : Num.is_finite x = true -> x = Fin (qval x).
Proof. destruct x; try discriminate. reflexivity. Qed.

Lemma finite_get (t : Tensor) (n r i j : nat) :
  finite t = true -> fits t n r = true -> i < n -> j < r ->
  get t i j = Fin (qval (get t i j)).
Proof.
  intros Ht Hf Hi Hj. apply finite_qval.
  apply (all_entries_tget Num.is_finite NaN t n r i j Ht Hf Hi Hj).
Qed.

(** ** The order of scalars *)

Lemma leb_trans (x y z : num) :
  Num.leb x y = true -> Num.leb y z = true -> Num.leb x z = true.
Proof.
  destruct x as [a| | |], y as [b| | |], z as [c| | |]; simpl;
    try reflexivity; try discriminate.
  rewrite !Qc_leb_le. apply Qcle_trans.
Qed.

Lemma leb_total (x y : num) :
  Num.is_nan x = false -> Num.is_nan y = false ->
  Num.leb x y = true \/ Num.leb y x = true.
Proof.
  destruct x as [a| | |], y as [b| | |]; simpl; intros Hx Hy;
    try discriminate; auto.
  rewrite !Qc_leb_le.
  destruct (Qclt_le_dec a b) as [H|H]; [left; now apply Qclt_le_weak | now right].
Qed.

Lemma leb_antisym (x y : num) :
  Num.leb x y = true -> Num.leb y x = true -> x = y.
Proof.
  destruct x as [a| | |], y as [b| | |]; simpl;
    try reflexivity; try discriminate.
  rewrite !Qc_leb_le. intros H1 H2. f_equal. now apply Qcle_antisym.
Qed.

Lemma ltb_leb_trans (x y z : num) :
  Num.ltb x y = true -> Num.leb y z = true -> Num.ltb x z = true.
Proof.
  destruct x as [a| | |], y as [b| | |], z as [c| | |]; simpl;
    try reflexivity; try discriminate.
  rewrite !Qc_ltb_lt, Qc_leb_le. apply Qclt_le_trans.
Qed.

Lemma max_spec (x y : num) :
  Num.is_nan x = false -> Num.is_nan y = false ->
  (Num.max x y = x \/ Num.max x y = y) /\
  Num.leb x (Num.max x y) = true /\ Num.leb y (Num.max x y) = true.
Proof.
  intros Hx Hy.
  assert (E : Num.max x y = if Num.leb x y then y else x).
  { destruct x, y; try discriminate; reflexivity. }
  rewrite E. destruct (Num.leb x y) eqn:L.
  - repeat split; auto. now apply leb_refl.
  - repeat split; auto; [now apply leb_refl|].
    destruct (leb_total x y Hx Hy) as [H|H]; [congruence | exact H].
Qed.

Lemma fold_max_spec (xs : list num) :
  forall x,
    Num.is_nan x = false -> (forall y, In y xs -> Num.is_nan y = false) ->
    let m := fold_left Num.max xs x in
    (m = x \/ In m xs) /\ Num.leb x m = true /\
    (forall y, In y xs -> Num.leb y m = true).
Proof.
  induction xs as [|z xs IH]; intros x Hx Hxs; simpl.
  - split; [now left|]. split; [now apply leb_refl | intros y []].
  - assert (Hz : Num.is_nan z = false) by (apply Hxs; now left).
    destruct (max_spec x z Hx Hz) as (Hor & Lx & Lz).
    assert (Hm : Num.is_nan (Num.max x z) = false).
    { destruct Hor as [-> | ->]; assumption. }
    destruct (IH (Num.max x z) Hm ltac:(intros; apply Hxs; now right))
      as (Hin & Lm & Hall).
    repeat split.
    + destruct Hin as [E|Hin]; [|now right; right].
      rewrite E. destruct Hor as [-> | ->]; [now left | right; now left].
    + eapply leb_trans; eauto.
    + intros y [<-|Hy]; [eapply leb_trans; eauto | now apply Hall].
Qed.

Lemma row_max_spec (row : list num) :
  row <> [] -> (forall y, In y row -> Num.is_nan y = false) ->
  In (row_max row) row /\ (forall y, In y row -> Num.leb y (row_max row) = true).
Proof.
  destruct row as [|x xs]; [contradiction|]. intros _ Hrow. simpl.
  destruct (fold_max_spec xs x ltac:(apply Hrow; now left)
              ltac:(intros; apply Hrow; now right)) as (Hin & Lx & Hall).
  split.
  - destruct Hin as [->|Hin]; [now left | now right].
  - intros y [<-|Hy]; auto.
Qed.

(** ** The distance on one axis of a box with finite corners *)

Lemma axis_distance_not_nan (l u : Qc) (p : num) :
  Num.is_nan p = false -> Num.is_nan (axis_distance (Fin l) (Fin u) p) = false.
Proof.
  destruct p as [p| | |]; try discriminate; intros _.
  - now rewrite axis_distance_finite.
  - reflexivity.
  - reflexivity.
Qed.

Lemma axis_distance_interior_entry (l u : Qc) (p : num) :
  Num.ltb (Fin l) p && Num.ltb p (Fin u) = true ->
  Num.ltb (axis_distance (Fin l) (Fin u) p) (Fin Num.zero) = true.
Proof.
  destruct p as [p| | |]; intros H; simpl in H; try discriminate.
  apply andb_true_iff in H. destruct H as [H1 H2].
  apply Qc_ltb_lt in H1, H2. rewrite axis_distance_finite. simpl.
  apply Qc_ltb_lt. now apply axis_distance_interior.
Qed.

Lemma axis_distance_exterior_entry (l u : Qc) (p : num) :
  Num.ltb p (Fin l) || Num.ltb (Fin u) p = true ->
  Num.ltb (Fin Num.zero) (axis_distance (Fin l) (Fin u) p) = true.
Proof.
  destruct p as [p| | |]; intros H; simpl in H; try discriminate;
    try reflexivity.
  rewrite axis_distance_finite. simpl. apply Qc_ltb_lt.
  apply axis_distance_exterior.
  apply orb_true_iff in H. destruct H as [H|H]; apply Qc_ltb_lt in H; auto.
Qed.

Lemma axis_distance_inside_entry (l u : Qc) (p : num) :
  Num.geb p (Fin l) && Num.leb p (Fin u) = true ->
  Num.leb (axis_distance (Fin l) (Fin u) p) (Fin Num.zero) = true.
Proof.
  destruct p as [p| | |]; unfold Num.geb; intros H; simpl in H;
    try discriminate.
  apply andb_true_iff in H. destruct H as [H1 H2].
  apply Qc_leb_le in H1, H2. rewrite axis_distance_finite. simpl.
  apply Qc_leb_le. now apply axis_distance_inside.
Qed.

Lemma axis_distance_face_entry (l u : Qc) (p : num) :
  Num.geb p (Fin l) && Num.leb p (Fin u) = true ->
  Num.eqb p (Fin l) || Num.eqb p (Fin u) = true ->
  axis_distance (Fin l) (Fin u) p = Fin Num.zero.
Proof.
  destruct p as [p| | |]; unfold Num.geb; intros H F; simpl in H, F;
    try discriminate.
  apply andb_true_iff in H. destruct H as [H1 H2].
  apply Qc_leb_le in H1, H2. rewrite axis_distance_finite. f_equal.
  apply axis_distance_on_face.
  - eapply Qcle_trans; eauto.
  - apply orb_true_iff in F. destruct F as [F|F]; apply Qc_eqb_eq in F; auto.
Qed.

(** ** Slices *)

Lemma corners_slices (slices : list BoxType.slice) :
  forall lo hi,
    forallb step_ok slices = true ->
    BoxType.corners (map BoxType.Slice slices) lo hi
    = Ok (lo ++ map slice_lower slices, hi ++ map slice_upper slices).
Proof.
  induction slices as [|s slices IH]; intros lo hi H; simpl.
  - now rewrite !app_nil_r.
  - simpl in H. apply andb_true_iff in H. destruct H as [Hs H].
    unfold step_ok in Hs. rewrite Hs. rewrite IH by exact H.
    now rewrite <- !app_assoc.
Qed.

Lemma corners_bad_step (items : list BoxType.entry) (bad : BoxType.slice) :
  forall lo hi,
    In (BoxType.Slice bad) items -> step_ok bad = false ->
    BoxType.corners items lo hi = Raise AssertionError.
Proof.
  induction items as [|it items IH]; intros lo hi Hin Hbad; [contradiction|].
  simpl. destruct it as [s|name]; [|reflexivity].
  destruct Hin as [E|Hin].
  - injection E as ->. unfold step_ok in Hbad. now rewrite Hbad.
  - destruct (match BoxType.step s with
              | Some s0 => Num.eqb s0 (Num.of_Z 1)
              | None => true
              end); [|reflexivity].
    now apply IH.
Qed.

Lemma combined_dim_same (k : nat) : combined_dim k k = Ok k.
Proof. unfold combined_dim. now rewrite Nat.eqb_refl. Qed.

(** ** Shapes of shifted boxes *)

Lemma combined_dim_compatible (x y : nat) :
  compatible x y -> exists k, combined_dim x y = Ok k.
Proof.
  unfold compatible, combined_dim. intros H.
  destruct (Nat.eqb_spec x y); [eauto|].
  destruct (Nat.eqb_spec x 1); [eauto|].
  destruct (Nat.eqb_spec y 1); [eauto|]. lia.
Qed.

Lemma vdim_fits {A : Type} (t : tensor_of A) (n r : nat) :
  fits t n r = true -> 1 <= n -> dim_fits (vdim t) r = true.
Proof.
  intros Hf Hn. apply fits_iff in Hf. destruct Hf as [Hlen Hrows].
  destruct t as [|row t].
  - unfold dim_fits in Hlen. simpl in Hlen.
    destruct n; [lia | discriminate].
  - simpl. apply Hrows. now left.
Qed.

Lemma combined_shape_fits {A B : Type} (a : tensor_of A) (b : tensor_of B)
    (n r : nat) :
  fits a n r = true -> fits b n r = true -> 1 <= n ->
  exists sh, combined_shape a b = Ok sh.
Proof.
  intros Ha Hb Hn. unfold combined_shape.
  pose proof (vdim_fits a n r Ha Hn) as Va.
  pose proof (vdim_fits b n r Hb Hn) as Vb.
  apply fits_iff in Ha, Hb. destruct Ha as [La _], Hb as [Lb _].
  destruct (combined_dim_compatible _ _ (dim_fits_compatible _ _ _ La Lb))
    as [k ->].
  destruct (combined_dim_compatible _ _ (dim_fits_compatible _ _ _ Va Vb))
    as [k' ->].
  simpl. eauto.
Qed.

Lemma shift_keeps_extent (u l d : num) :
  Num.is_finite d = true ->
  Num.sub (Num.add u d) (Num.add l d) = Num.sub u l.
Proof.
  intros Hd. destruct d as [d| | |]; try discriminate.
  destruct u as [u| | |], l as [l| | |]; simpl; try reflexivity.
  f_equal. ring.
Qed.

(** ** Components and shapes *)

Lemma get_single_component (v : Tensor) (axis : Z) :
  vdim v = 1 -> AbstractBox._get v axis = Ok (component v 0).
Proof.
  intros H. unfold AbstractBox._get, index_last. rewrite H. reflexivity.
Qed.

Lemma get_requested_component (v : Tensor) (axis : Z) :
  1 < vdim v -> (0 <= axis < Z.of_nat (vdim v))%Z ->
  AbstractBox._get v axis = Ok (component v (Z.to_nat axis)).
Proof.
  intros H Hax. unfold AbstractBox._get, index_last.
  destruct (Nat.eqb_spec (vdim v) 1) as [E|_]; [lia|].
  destruct (Z.leb_spec 0 axis); [|lia].
  destruct (Z.ltb_spec axis (Z.of_nat (vdim v))); [|lia].
  reflexivity.
Qed.

Lemma tshape_eqb_refl (s t : nat * nat) : s = t -> tshape_eqb s t = true.
Proof. intros <-. unfold tshape_eqb. now rewrite !Nat.eqb_refl. Qed.

Lemma tshape_eqb_neq (s t : nat * nat) : s <> t -> tshape_eqb s t = false.
Proof.
  destruct s as [a b], t as [c d]. intros H. unfold tshape_eqb. simpl.
  destruct (Nat.eqb_spec a c) as [->|]; [|reflexivity].
  destruct (Nat.eqb_spec b d) as [->|]; [|reflexivity].
  now elim H.
Qed.

(** ** The methods, row by row *)

Lemma lies_inside_rows (self : AbstractBox) (l u p : Tensor) (n r : nat) :
  lower self = Ok l -> upper self = Ok u ->
  fits l n r = true -> fits u n r = true -> fits p n r = true ->
  1 <= r ->
  exists res,
    AbstractBox.lies_inside self p = Ok res /\
    dim_fits (length res) n = true /\
    (forall i, i < n -> bnth res i false = inside_row l u p r i).
Proof.
  intros Hl Hu Fl Fu Fp Hr.
  unfold AbstractBox.lies_inside. rewrite Hl, Hu. cbn [bind].
  destruct (tensor_op_spec Num.geb NaN NaN false p l n r Fp Fl)
    as (above & Ha & Fa & _ & Ga).
  destruct (tensor_op_spec Num.leb NaN NaN false p u n r Fp Fu)
    as (below & Hb & Fb & _ & Gb).
  destruct (tensor_op_spec andb false false false above below n r Fa Fb)
    as (both & Hc & Fc & _ & Gc).
  unfold tge, tle, tand. rewrite Ha. cbn [bind]. rewrite Hb. cbn [bind].
  rewrite Hc. cbn [bind].
  exists (all_vector both). split; [reflexivity|].
  unfold all_vector. rewrite length_map. split.
  - apply fits_iff in Fc. tauto.
  - intros i Hi. rewrite (reduced_row _ false both n r i Fc Hi).
    rewrite (forallb_row _ r (fits_row both n r i Fc Hi) Hr).
    unfold inside_row. apply forallb_ext_in. intros j Hj.
    apply in_seq in Hj.
    change (bnth (bnth both i []) j false) with (tget false both i j).
    rewrite Gc, Ga, Gb by lia. reflexivity.
Qed.

Lemma contains_entrywise (self o : AbstractBox) (sl su ol ou : Tensor)
    (n r : nat) :
  lower self = Ok sl -> upper self = Ok su ->
  lower o = Ok ol -> upper o = Ok ou ->
  fits sl n r = true -> fits su n r = true ->
  fits ol n r = true -> fits ou n r = true ->
  1 <= n -> 1 <= r ->
  exists b : bool,
    AbstractBox.contains self (PyBox o) = Ok b /\
    (b = true <-> inside_entrywise sl su ol ou n r).
Proof.
  intros Hsl Hsu Hol Hou Fsl Fsu Fol Fou Hn Hr.
  unfold AbstractBox.contains. rewrite Hol, Hsl, Hou, Hsu. cbn [bind].
  destruct (tensor_op_spec Num.geb NaN NaN false ol sl n r Fol Fsl)
    as (above & Ha & Fa & _ & Ga).
  destruct (tensor_op_spec Num.leb NaN NaN false ou su n r Fou Fsu)
    as (below & Hb & Fb & _ & Gb).
  unfold tge, tle. rewrite Ha. cbn [bind]. rewrite Hb.
  pose proof (np_all_iff above n r Fa Hn Hr) as Ia.
  pose proof (np_all_iff below n r Fb Hn Hr) as Ib.
  destruct (np_all above) eqn:Ea.
  - cbn [bind]. exists (np_all below). split; [reflexivity|].
    rewrite Ib. unfold inside_entrywise, get. split.
    + intros H i j Hi Hj. split.
      * rewrite <- Ga by assumption. now apply Ia.
      * rewrite <- Gb by assumption. now apply H.
    + intros H i j Hi Hj. rewrite Gb by assumption. now apply H.
  - exists false. split; [reflexivity|]. split; [discriminate|].
    intros H. apply Ia. intros i j Hi Hj.
    rewrite Ga by assumption. now apply H.
Qed.

Lemma contains_true_iff (self o : AbstractBox) (sl su ol ou : Tensor)
    (n r : nat) :
  lower self = Ok sl -> upper self = Ok su ->
  lower o = Ok ol -> upper o = Ok ou ->
  fits sl n r = true -> fits su n r = true ->
  fits ol n r = true -> fits ou n r = true ->
  1 <= n -> 1 <= r ->
  (AbstractBox.contains self (PyBox o) = Ok true
   <-> inside_entrywise sl su ol ou n r).
Proof.
  intros Hsl Hsu Hol Hou Fsl Fsu Fol Fou Hn Hr.
  destruct (contains_entrywise self o sl su ol ou n r) as (b & Hb & Hiff);
    try assumption.
  rewrite Hb. split.
  - intros E. apply Hiff. congruence.
  - intros H. f_equal. now apply Hiff.
Qed.

Lemma inside_row_forall (l u p : Tensor) (r i : nat) :
  inside_row l u p r i = true <->
  forall j, j < r ->
    Num.geb (get p i j) (get l i j) = true /\
    Num.leb (get p i j) (get u i j) = true.
Proof.
  unfold inside_row. rewrite forallb_forall. split.
  - intros H j Hj. apply andb_true_iff. apply H. apply in_seq. lia.
  - intros H j Hj. apply in_seq in Hj. apply andb_true_iff. apply H. lia.
Qed.

Lemma ordered_get (f : num -> num -> bool) (l u : Tensor) (n r i j : nat) :
  forallb (fun i => forallb (fun j => f (get l i j) (get u i j)) (seq 0 r))
          (seq 0 n) = true ->
  i < n -> j < r -> f (get l i j) (get u i j) = true.
Proof.
  intros H Hi Hj. rewrite forallb_forall in H.
  specialize (H i ltac:(apply in_seq; lia)). rewrite forallb_forall in H.
  apply H. apply in_seq. lia.
Qed.

Lemma signed_distance_rows (self : AbstractBox) (l u p : Tensor) (n r : nat) :
  lower self = Ok l -> upper self = Ok u ->
  fits l n r = true -> fits u n r = true -> fits p n r = true ->
  1 <= r ->
  exists res,
    AbstractBox.approximate_signed_distance self p = Ok res /\
    dim_fits (length res) n = true /\
    forall i, i < n -> bnth res i NaN = row_max (distance_row l u p r i).
Proof.
  intros Hl Hu Fl Fu Fp Hr.
  unfold AbstractBox.approximate_signed_distance. rewrite Hl, Hu. cbn [bind].
  destruct (tensor_op_spec Num.add NaN NaN NaN l u n r Fl Fu)
    as (s & Hs & Fs & _ & Gs).
  destruct (tensor_op_spec Num.sub NaN NaN NaN u l n r Fu Fl)
    as (extent & He & Fe & _ & Ge).
  assert (Fc : fits (scalar_mul half s) n r = true)
    by (unfold scalar_mul; now rewrite fits_tmap).
  destruct (tensor_op_spec Num.sub NaN NaN NaN p _ n r Fp Fc)
    as (d & Hd & Fd & _ & Gd).
  assert (Fa : fits (tabs d) n r = true)
    by (unfold tabs; now rewrite fits_tmap).
  assert (Fh : fits (mul_scalar extent half) n r = true)
    by (unfold mul_scalar; now rewrite fits_tmap).
  destruct (tensor_op_spec Num.sub NaN NaN NaN _ _ n r Fa Fh)
    as (distance & Hdist & Fdist & _ & Gdist).
  unfold tadd, tsub in *. rewrite Hs. cbn [bind]. rewrite He. cbn [bind].
  rewrite Hd. cbn [bind]. rewrite Hdist. cbn [bind].
  assert (Hrows : forall row, In row distance -> row <> []).
  { apply fits_iff in Fdist. destruct Fdist as [_ Hrows]. intros row Hin E.
    specialize (Hrows row Hin). rewrite E in Hrows. unfold dim_fits in Hrows.
    simpl in Hrows. destruct r as [|r]; [lia | discriminate]. }
  unfold max_vector.
  rewrite (mapM_map max_list row_max distance)
    by (intros row Hin; apply max_list_row_max; auto).
  exists (map row_max distance). split; [reflexivity|].
  rewrite length_map.
  pose proof Fdist as Fdist'. apply fits_iff in Fdist'.
  split; [tauto|]. intros i Hi.
  rewrite (reduced_row row_max NaN distance n r i Fdist Hi).
  rewrite (row_max_row _ r (fits_row distance n r i Fdist Hi) Hr).
  f_equal. unfold distance_row. apply map_ext_in. intros j Hj.
  apply in_seq in Hj.
  change (bnth (bnth distance i []) j NaN) with (tget NaN distance i j).
  rewrite Gdist by lia. unfold tabs, mul_scalar, scalar_mul.
  rewrite (tget_tmap Num.abs NaN NaN d n r i j Fd) by lia.
  rewrite (tget_tmap (fun x => Num.mul x half) NaN NaN extent n r i j Fe) by lia.
  rewrite Gd, Ge by lia.
  unfold scalar_mul.
  rewrite (tget_tmap (Num.mul half) NaN NaN s n r i j Fs) by lia.
  rewrite Gs by lia.
  now rewrite half_mul_l, half_mul_r.
Qed.

Lemma max_nan_l (x : num) : Num.max NaN x = NaN.
Proof. reflexivity. Qed.

Lemma max_nan_r (x : num) : Num.max x NaN = NaN.
Proof. now destruct x. Qed.

Lemma fold_max_nan (xs : list num) : fold_left Num.max xs NaN = NaN.
Proof. induction xs as [|y xs IH]; simpl; [reflexivity | exact IH]. Qed.

Lemma fold_max_holds_nan (xs : list num) :
  forall x, In NaN xs -> fold_left Num.max xs x = NaN.
Proof.
  induction xs as [|y xs IH]; intros x Hin; [contradiction|]. simpl.
  destruct Hin as [->|Hin].
  - rewrite max_nan_r. apply fold_max_nan.
  - now apply IH.
Qed.

Lemma row_max_holds_nan (row : list num) : In NaN row -> row_max row = NaN.
Proof.
  destruct row as [|x xs]; [contradiction|]. intros [->|Hin]; simpl.
  - apply fold_max_nan.
  - now apply fold_max_holds_nan.
Qed.

Lemma axis_distance_nan (l u : num) : axis_distance l u NaN = NaN.
Proof. unfold axis_distance. now destruct (Num.div (Num.add l u) two). Qed.

Lemma axis_distance_unbounded (l u p : num) :
  match l, u with
  | NInf, _ | _, PInf => true
  | _, _ => false
  end = true ->
  axis_distance l u p = NaN.
Proof.
  destruct l as [l| | |], u as [u| | |], p as [p| | |]; intros H;
    try discriminate; reflexivity.
Qed.

Lemma finite_row_get (t : Tensor) (r i j : nat) :
  finite_row t r i = true -> j < r -> Num.is_finite (get t i j) = true.
Proof.
  unfold finite_row. rewrite forallb_forall. intros H Hj.
  apply H. apply in_seq. lia.
Qed.

Lemma nan_row_get (p : Tensor) (r i j : nat) :
  nan_row p r i = false -> j < r -> Num.is_nan (get p i j) = false.
Proof.
  unfold nan_row. intros H Hj.
  destruct (Num.is_nan (get p i j)) eqn:E; [|reflexivity].
  assert (T : existsb (fun j => Num.is_nan (get p i j)) (seq 0 r) = true).
  { apply existsb_exists. exists j. split; [apply in_seq; lia | exact E]. }
  congruence.
Qed.

(** * Properties of the specification *)

(** ** C1: round trip of the coordinate maps *)

(** The box [Box[:5]] has the strictly positive size [+inf], and the round
    trip of the point 3 through it is NaN, not 3.  On floats a box with
    finite corners loses a point as well: in binary32 and in binary64,
    [Cuboid(center=1e20, half_size=0.5)] has the lower corner 1e20 and the
    size 1, and the round trip of the point 1 through it is 0. *)
Lemma C1_round_trip_fails :
  (exists b,
     half_space = Ok b /\
     size (IsBox b) = Ok [[PInf]] /\
     positive [[PInf]] = true /\
     round_trip (IsBox b) [[Num.of_Z 3]] = Ok [[NaN]] /\
     round_trip (IsBox b) [[Num.of_Z 3]] <> Ok [[Num.of_Z 3]]) /\
  in_both_formats (fun f =>
    IEEE.eqb (far_cuboid_lower f) (IEEE.of_Z f (10 ^ 20))
    && IEEE.eqb (far_cuboid_size f) (IEEE.of_Z f 1)
    && IEEE.eqb (far_cuboid_round_trip f) (IEEE.of_Z f 0)
    && negb (IEEE.eqb (far_cuboid_round_trip f) (IEEE.of_Z f 1))) = true.
Proof.
  split.
  - eexists. split; [reflexivity|].
    split; [reflexivity|]. split; [reflexivity|].
    split; [reflexivity|]. discriminate.
  - vm_compute. reflexivity.
Qed.

(** C1.  [global_to_local] computes [(p - lower) / size] and
    [local_to_global] computes [q * size + lower], for every box and
    every point tensor.  In exact arithmetic
    [local_to_global (global_to_local p)] returns the entry of [p] at
    every entry where the lower corner and the size are finite and the size
    is strictly positive, whatever that entry of [p] holds; on a box where
    this is so for all entries it returns [p], as a tensor when [p] has the
    broadcast shape. *)
Theorem C1_round_trip (self : AbstractBox) (l s p : Tensor) (n r : nat) :
  lower self = Ok l -> size self = Ok s ->
  fits l n r = true -> fits s n r = true -> fits p n r = true ->
  exists q g,
    AbstractBox.global_to_local self p = Ok q /\
    (forall i j, i < n -> j < r ->
       get q i j = Num.div (Num.sub (get p i j) (get l i j)) (get s i j)) /\
    AbstractBox.local_to_global self q = Ok g /\
    (forall i j, i < n -> j < r ->
       get g i j = Num.add (Num.mul (get q i j) (get s i j)) (get l i j)) /\
    round_trip self p = Ok g /\
    (forall i j, i < n -> j < r ->
       Num.is_finite (get l i j) = true ->
       Num.is_finite (get s i j) = true ->
       Num.ltb (Fin Num.zero) (get s i j) = true ->
       get g i j = get p i j) /\
    (finite l = true -> finite s = true -> positive s = true ->
     full p n r = true -> g = p).
Proof.
  intros Hl Hs Fl Fs Fp.
  destruct (tensor_op_spec Num.sub NaN NaN NaN p l n r Fp Fl)
    as (d & Hd & Fd & Ud & Gd).
  destruct (tensor_op_spec Num.div NaN NaN NaN d s n r Fd Fs)
    as (q & Hq & Fq & Uq & Gq).
  destruct (tensor_op_spec Num.mul NaN NaN NaN q s n r Fq Fs)
    as (m & Hm & Fm & Um & Gm).
  destruct (tensor_op_spec Num.add NaN NaN NaN m l n r Fm Fl)
    as (g & Hg & Fg & Ug & Gg).
  assert (Hto : AbstractBox.global_to_local self p = Ok q).
  { unfold AbstractBox.global_to_local, tsub, tdiv.
    rewrite Hl, Hs. cbn [bind]. rewrite Hd. cbn [bind]. exact Hq. }
  assert (Hfrom : AbstractBox.local_to_global self q = Ok g).
  { unfold AbstractBox.local_to_global, tmul, tadd.
    rewrite Hl, Hs. cbn [bind]. rewrite Hm. cbn [bind]. exact Hg. }
  assert (Hback : forall i j, i < n -> j < r ->
            Num.is_finite (get l i j) = true ->
            Num.is_finite (get s i j) = true ->
            Num.ltb (Fin Num.zero) (get s i j) = true ->
            get g i j = get p i j).
  { intros i j Hi Hj Hfl Hfs Hps. unfold get in *.
    rewrite Gg, Gm, Gq, Gd by assumption.
    now apply round_trip_entry. }
  exists q, g. split; [exact Hto|]. split.
  { intros i j Hi Hj. unfold get. now rewrite Gq, Gd. }
  split; [exact Hfrom|]. split.
  { intros i j Hi Hj. unfold get. now rewrite Gg, Gm. }
  split.
  { unfold round_trip. rewrite Hto. cbn [bind]. exact Hfrom. }
  split; [exact Hback|].
  intros Al As Ps Up. apply (tensor_ext NaN g p n r); [| exact Up |].
  - apply Ug. left. apply Um. left. apply Uq. left. apply Ud. now left.
  - intros i j Hi Hj. apply (Hback i j Hi Hj).
    + apply (all_entries_tget _ NaN l n r i j Al Fl Hi Hj).
    + apply (all_entries_tget _ NaN s n r i j As Fs Hi Hj).
    + apply (all_entries_tget _ NaN s n r i j Ps Fs Hi Hj).
Qed.

Lemma C1_round_trip_witness :
  round_trip
    (IsBox (mkBox [[Num.of_Z 0; Num.of_Z 0]] [[Num.of_Z 10; Num.of_Z 20]] (1, 2)))
    [[Num.of_Z 5; Num.of_Z 10]; [NaN; PInf]]
  = Ok [[Num.of_Z 5; Num.of_Z 10]; [NaN; PInf]].
Proof.
  destruct (C1_round_trip
              (IsBox (mkBox [[Num.of_Z 0; Num.of_Z 0]]
                        [[Num.of_Z 10; Num.of_Z 20]] (1, 2)))
              [[Num.of_Z 0; Num.of_Z 0]] [[Num.of_Z 10; Num.of_Z 20]]
              [[Num.of_Z 5; Num.of_Z 10]; [NaN; PInf]] 2 2
              eq_refl eq_refl eq_refl eq_refl eq_refl)
    as (q & g & _ & _ & _ & _ & H & _ & E).
  rewrite H. f_equal. exact (E eq_refl eq_refl eq_refl eq_refl).
Defined.


(** ** C2: the cells of a grid over the unit interval *)

(** The first center of a grid of three cells over [Box([0],[1])] is
    [1/6] in exact arithmetic, which is no binary fraction: no float is
    exactly [0.5/3].  In binary64, the arithmetic of [np.linspace], the
    second center of a grid of five cells is not the float [1.5/5]. *)
Lemma C2_grid_cell_midpoints_inexact :
  (exists g c,
     GridCell.__init__ [mkDim "x" SPATIAL_DIM 3] (IsBox unit_interval) = Ok g /\
     center g = Ok c /\
     get c 0 0 = Fin (midpoint 3 0) /\
     midpoint 3 0 = Q2Qc (1 # 6) /\
     binary_fraction (midpoint 3 0) = false) /\
  IEEE.eqb (unit_cell_center IEEE.binary64 5 1)
           (IEEE.div IEEE.binary64 (IEEE.three_halves IEEE.binary64)
                     (IEEE.of_Z IEEE.binary64 5)) = false /\
  IEEE.ltb (IEEE.div IEEE.binary64 (IEEE.three_halves IEEE.binary64)
                     (IEEE.of_Z IEEE.binary64 5))
           (unit_cell_center IEEE.binary64 5 1) = true.
Proof.
  split; [|split; vm_compute; reflexivity].
  do 2 eexists. split; [reflexivity|]. split; [reflexivity|].
  split; [reflexivity|]. split; [|reflexivity].
  apply Qc_is_canon. reflexivity.
Qed.

(** C2. In exact arithmetic, a [GridCell] of [n] cells on one axis over
    the bounds [Box([0],[1])] has the centers [0.5/n, 1.5/n, ..., (n-0.5)/n]
    and the half size [1/(2n)]; for [n = 4] these are
    [0.125, 0.375, 0.625, 0.875] and [0.125], and the floats of binary32
    and of binary64 give exactly these values. *)
Theorem C2_grid_cell_midpoints (n : nat) (name : string) :
  1 <= n ->
  Box.__init__ (PyList [Num.of_Z 0]) (PyList [Num.of_Z 1]) = Ok unit_interval /\
  GridCell.__init__ [mkDim name SPATIAL_DIM n] (IsBox unit_interval)
  = Ok (IsGridCell (mkCuboid (grid_centers n) (grid_half_size n) n)
          [mkDim name SPATIAL_DIM n] (IsBox unit_interval)) /\
  grid_centers 4
  = [[Num.of_Q (1 # 8)]; [Num.of_Q (3 # 8)]; [Num.of_Q (5 # 8)]; [Num.of_Q (7 # 8)]] /\
  grid_half_size 4 = [[Num.of_Q (1 # 8)]] /\
  in_both_formats (fun f =>
    IEEE.eqb (unit_cell_center f 4 0) (binary f 1 3)
    && IEEE.eqb (unit_cell_center f 4 1) (binary f 3 3)
    && IEEE.eqb (unit_cell_center f 4 2) (binary f 5 3)
    && IEEE.eqb (unit_cell_center f 4 3) (binary f 7 3)
    && IEEE.eqb (unit_cell_half_size f 4) (binary f 1 3)) = true.
Proof.
  intros H. split; [reflexivity|].
  assert (Floats : in_both_formats (fun f =>
    IEEE.eqb (unit_cell_center f 4 0) (binary f 1 3)
    && IEEE.eqb (unit_cell_center f 4 1) (binary f 3 3)
    && IEEE.eqb (unit_cell_center f 4 2) (binary f 5 3)
    && IEEE.eqb (unit_cell_center f 4 3) (binary f 7 3)
    && IEEE.eqb (unit_cell_half_size f 4) (binary f 1 3)) = true)
    by (vm_compute; reflexivity).
  cut (GridCell.__init__ [mkDim name SPATIAL_DIM n] (IsBox unit_interval)
       = Ok (IsGridCell (mkCuboid (grid_centers n) (grid_half_size n) n)
               [mkDim name SPATIAL_DIM n] (IsBox unit_interval)) /\
       grid_centers 4
       = [[Num.of_Q (1 # 8)]; [Num.of_Q (3 # 8)]; [Num.of_Q (5 # 8)];
          [Num.of_Q (7 # 8)]] /\
       grid_half_size 4 = [[Num.of_Q (1 # 8)]]); [tauto|].
  clear Floats. split.
  - unfold GridCell.__init__.
    change (spatial_rank [mkDim name SPATIAL_DIM n]) with 1.
    change (rank [mkDim name SPATIAL_DIM n]) with 1.
    change (Nat.eqb 1 1) with true. cbv iota.
    change (named_sizes [mkDim name SPATIAL_DIM n]) with [(name, n)].
    change (sizes [mkDim name SPATIAL_DIM n]) with [n].
    rewrite (axes_midpoints n name H). cbn [bind].
    rewrite meshgrid_one_axis, map_map.
    fold (grid_centers n).
    rewrite (local_to_global_unit_interval (grid_centers n) n
               (grid_centers_full n) (grid_centers_finite n)).
    cbn [bind]. rewrite unit_interval_size. cbn [bind].
    pose proof (unit_interval_half_size n H) as Hh.
    destruct (tdiv [[Fin (1 - 0)%Qc]]
                (tensor (PyList (map (fun k => Fin (Qc_of_nat k)) [n])))) as [q|e];
      [|discriminate].
    cbn [bind] in Hh |- *. injection Hh as Hh. rewrite Hh.
    unfold Cuboid.__init__, tensor.
    rewrite (grid_combined_shape n (grid_half_size n) H) by reflexivity.
    reflexivity.
  - split; unfold grid_centers, grid_half_size, midpoint, Num.of_Q; simpl;
      repeat f_equal; apply Qc_is_canon; reflexivity.
Qed.

Lemma C2_grid_cell_midpoints_witness :
  GridCell.__init__ [mkDim "x" SPATIAL_DIM 4] (IsBox unit_interval)
  = Ok (IsGridCell (mkCuboid (grid_centers 4) (grid_half_size 4) 4)
          [mkDim "x" SPATIAL_DIM 4] (IsBox unit_interval)).
Proof.
  apply (C2_grid_cell_midpoints 4 "x"). lia.
Defined.


(** ** C3: containment of boxes *)

(** C3.  [contains] returns true only for an [AbstractBox], and
    for one exactly when [other.lower >= self.lower] and
    [other.upper <= self.upper] hold at every entry of every batch element,
    as one boolean; every other argument raises [NotImplementedError], the
    unsupported-operand error of the module; [b.contains(b)] is true for
    every box that meets the invariant [lower <= upper] of the data model,
    with finite or infinite corners, and more generally for every box
    whose corners hold no NaN. *)
Theorem C3_contains (self o : AbstractBox) (sl su ol ou : Tensor) (n r : nat) :
  lower self = Ok sl -> upper self = Ok su ->
  lower o = Ok ol -> upper o = Ok ou ->
  fits sl n r = true -> fits su n r = true ->
  fits ol n r = true -> fits ou n r = true ->
  1 <= n -> 1 <= r ->
  (forall other, AbstractBox.contains self other = Ok true ->
     exists o', other = PyBox o') /\
  AbstractBox.contains self PyNone = Raise NotImplementedError /\
  (forall type_name,
     AbstractBox.contains self (PyOther type_name) = Raise NotImplementedError) /\
  (exists b : bool,
     AbstractBox.contains self (PyBox o) = Ok b /\
     (b = true <-> inside_entrywise sl su ol ou n r)) /\
  (ordered sl su n r = true ->
   AbstractBox.contains self (PyBox self) = Ok true) /\
  (no_nan sl = true -> no_nan su = true ->
   AbstractBox.contains self (PyBox self) = Ok true).
Proof.
  intros Hsl Hsu Hol Hou Fsl Fsu Fol Fou Hn Hr.
  split; [|split; [|split; [|split; [|split]]]].
  - intros [|o'|name] H; try discriminate. now exists o'.
  - reflexivity.
  - reflexivity.
  - now apply contains_entrywise.
  - intros Hord.
    apply (contains_true_iff self self sl su sl su n r); try assumption.
    intros i j Hi Hj.
    pose proof (ordered_get Num.leb sl su n r i j Hord Hi Hj) as Hle.
    unfold Num.geb. split; apply leb_refl.
    + now destruct (get sl i j), (get su i j).
    + now destruct (get sl i j), (get su i j).
  - intros Nl Nu. unfold AbstractBox.contains. rewrite Hsl, Hsu. cbn [bind].
    unfold tge, tle. rewrite tensor_op_diag. cbn [bind].
    rewrite (np_all_tmap_diag Num.geb sl leb_refl Nl).
    rewrite tensor_op_diag. cbn [bind].
    now rewrite (np_all_tmap_diag Num.leb su leb_refl Nu).
Qed.


Lemma C3_contains_witness :
  AbstractBox.contains
    (IsBox (mkBox [[Num.of_Z 0; Num.of_Z 0]] [[Num.of_Z 10; Num.of_Z 20]] (1, 2)))
    (PyBox (IsBox (mkBox [[Num.of_Z 1; Num.of_Z 1]] [[Num.of_Z 5; Num.of_Z 5]] (1, 2))))
  = Ok true /\
  AbstractBox.contains
    (IsBox (mkBox [[Num.of_Z 0; Num.of_Z 0]] [[Num.of_Z 10; Num.of_Z 20]] (1, 2)))
    (PyBox (IsBox (mkBox [[Num.of_Z 0; Num.of_Z 0]] [[Num.of_Z 10; Num.of_Z 20]] (1, 2))))
  = Ok true /\
  AbstractBox.contains
    (IsBox (mkBox [[Num.of_Z 0; Num.of_Z 0]] [[Num.of_Z 10; Num.of_Z 20]] (1, 2)))
    (PyOther "tuple")
  = Raise NotImplementedError.
Proof.
  destruct (C3_contains
              (IsBox (mkBox [[Num.of_Z 0; Num.of_Z 0]]
                        [[Num.of_Z 10; Num.of_Z 20]] (1, 2)))
              (IsBox (mkBox [[Num.of_Z 1; Num.of_Z 1]]
                        [[Num.of_Z 5; Num.of_Z 5]] (1, 2)))
              [[Num.of_Z 0; Num.of_Z 0]] [[Num.of_Z 10; Num.of_Z 20]]
              [[Num.of_Z 1; Num.of_Z 1]] [[Num.of_Z 5; Num.of_Z 5]] 1 2
              eq_refl eq_refl eq_refl eq_refl eq_refl eq_refl eq_refl eq_refl
              (le_n 1) (le_S 1 1 (le_n 1)))
    as (_ & _ & Hother & (b & Hb & Hiff) & Hrefl & _).
  split; [|split].
  - rewrite Hb. f_equal. apply Hiff. intros i j Hi Hj.
    destruct i as [|i]; [|lia].
    destruct j as [|[|j]]; [split; reflexivity | split; reflexivity | lia].
  - apply Hrefl; reflexivity.
  - apply Hother.
Defined.


(** ** C4: equality of boxes *)

(** C4. [Box.__eq__] looks at the shape of the lower corners and at
    their closeness only: two boxes whose lower corners have one shape and
    are close are equal whatever their upper corners, as [Box(0, 1)] and
    [Box(0, 2)] are.  It is false in every other case: for an argument
    that is no box, for a box whose lower corner has another shape, and for
    one whose lower corner is not close, as for [Box(0, 1)] and
    [Box(1, 2)]. *)
Theorem C4_eq_ignores_upper (l1 l2 : Tensor) :
  tshape l1 = tshape l2 -> close l1 l2 = Ok true ->
  (forall u1 u2 s1 s2,
     Box.__eq__ (mkBox l1 u1 s1) (PyBox (IsBox (mkBox l2 u2 s2))) = Ok true) /\
  (exists b1 b2,
     Box.__init__ (PyScalar (Num.of_Z 0)) (PyScalar (Num.of_Z 1)) = Ok b1 /\
     Box.__init__ (PyScalar (Num.of_Z 0)) (PyScalar (Num.of_Z 2)) = Ok b2 /\
     tensor_op Num.eqb (Box_upper b1) (Box_upper b2) = Ok [[false]] /\
     Box.__eq__ b1 (PyBox (IsBox b2)) = Ok true) /\
  (forall (b : Box) (o : AbstractBox) (l : Tensor),
     lower o = Ok l ->
     Box.__eq__ b (PyBox o)
     = if tshape_eqb (tshape (Box_lower b)) (tshape l)
       then close (Box_lower b) l else Ok false) /\
  (forall (b : Box) (o : AbstractBox) (l : Tensor),
     lower o = Ok l -> tshape (Box_lower b) <> tshape l ->
     Box.__eq__ b (PyBox o) = Ok false) /\
  (forall (b : Box) (o : AbstractBox) (l : Tensor),
     lower o = Ok l -> close (Box_lower b) l = Ok false ->
     Box.__eq__ b (PyBox o) = Ok false) /\
  (forall (b : Box),
     Box.__eq__ b PyNone = Ok false /\
     forall type_name, Box.__eq__ b (PyOther type_name) = Ok false) /\
  (exists b1 b2,
     Box.__init__ (PyScalar (Num.of_Z 0)) (PyScalar (Num.of_Z 1)) = Ok b1 /\
     Box.__init__ (PyScalar (Num.of_Z 1)) (PyScalar (Num.of_Z 2)) = Ok b2 /\
     tshape (Box_lower b1) = tshape (Box_lower b2) /\
     Box.__eq__ b1 (PyBox (IsBox b2)) = Ok false).
Proof.
  intros Hshape Hclose.
  assert (Full : forall (b : Box) (o : AbstractBox) (l : Tensor),
            lower o = Ok l ->
            Box.__eq__ b (PyBox o)
            = if tshape_eqb (tshape (Box_lower b)) (tshape l)
              then close (Box_lower b) l else Ok false).
  { intros b o l Hl. unfold Box.__eq__. rewrite Hl. reflexivity. }
  split; [|split; [|split; [exact Full|split; [|split; [|split]]]]].
  - intros u1 u2 s1 s2. unfold Box.__eq__. cbn [lower bind Box_lower].
    now rewrite (tshape_eqb_refl _ _ Hshape).
  - do 2 eexists. repeat split; reflexivity.
  - intros b o l Hl Hne. rewrite (Full b o l Hl).
    now rewrite (tshape_eqb_neq _ _ Hne).
  - intros b o l Hl Hfar. rewrite (Full b o l Hl), Hfar.
    now destruct (tshape_eqb (tshape (Box_lower b)) (tshape l)).
  - intros b. split; [reflexivity|]. intros type_name. reflexivity.
  - do 2 eexists. repeat split; reflexivity.
Qed.

Lemma C4_eq_ignores_upper_witness :
  Box.__eq__ (mkBox [[Num.of_Z 0; Num.of_Z 0]] [[Num.of_Z 1; Num.of_Z 1]] (1, 2))
    (PyBox (IsBox (mkBox [[Num.of_Z 0; Num.of_Z 0]] [[Num.of_Z 7; PInf]] (1, 2))))
  = Ok true.
Proof.
  apply (C4_eq_ignores_upper [[Num.of_Z 0; Num.of_Z 0]] [[Num.of_Z 0; Num.of_Z 0]]);
    reflexivity.
Defined.


(** ** C5: points inside a box *)

(** C5. [lies_inside] compares the location with both corners entry by
    entry and reduces with AND over the [vector] dimension only: the result
    holds one boolean per row of the batch, each decided by that row alone. *)
Theorem C5_lies_inside (self : AbstractBox) (l u p : Tensor) (n r : nat) :
  lower self = Ok l -> upper self = Ok u ->
  fits l n r = true -> fits u n r = true -> fits p n r = true ->
  1 <= r ->
  (exists res,
     AbstractBox.lies_inside self p = Ok res /\
     dim_fits (length res) n = true /\
     (full p n r = true -> length res = n) /\
     (forall i, i < n -> bnth res i false = inside_row l u p r i)) /\
  (exists b,
     unit_box = Ok b /\
     AbstractBox.lies_inside (IsBox b) (tensor (PyList [Num.of_Z 5; Num.of_Z 10]))
     = Ok [true] /\
     AbstractBox.lies_inside (IsBox b) (tensor (PyList [Num.of_Z 15; Num.of_Z 10]))
     = Ok [false]).
Proof.
  intros Hl Hu Fl Fu Fp Hr. split.
  - unfold AbstractBox.lies_inside. rewrite Hl, Hu. cbn [bind].
    destruct (tensor_op_spec Num.geb NaN NaN false p l n r Fp Fl)
      as (above & Ha & Fa & Ua & Ga).
    destruct (tensor_op_spec Num.leb NaN NaN false p u n r Fp Fu)
      as (below & Hb & Fb & Ub & Gb).
    destruct (tensor_op_spec andb false false false above below n r Fa Fb)
      as (both & Hc & Fc & Uc & Gc).
    unfold tge, tle, tand. rewrite Ha. cbn [bind]. rewrite Hb. cbn [bind].
    rewrite Hc. cbn [bind].
    exists (all_vector both). split; [reflexivity|].
    unfold all_vector. rewrite length_map. repeat split.
    + apply fits_iff in Fc. tauto.
    + intros Up. assert (Uboth : full both n r = true) by auto.
      apply full_iff in Uboth. tauto.
    + intros i Hi. rewrite (reduced_row _ false both n r i Fc Hi).
      rewrite (forallb_row _ r (fits_row both n r i Fc Hi) Hr).
      unfold inside_row. apply forallb_ext_in. intros j Hj.
      apply in_seq in Hj.
      change (bnth (bnth both i []) j false) with (tget false both i j).
      rewrite Gc, Ga, Gb by lia. reflexivity.
  - eexists. split; [reflexivity|]. split; reflexivity.
Qed.

Lemma C5_lies_inside_witness :
  AbstractBox.lies_inside
    (IsBox (mkBox [[Num.of_Z 0; Num.of_Z 0]] [[Num.of_Z 10; Num.of_Z 20]] (1, 2)))
    [[Num.of_Z 5; Num.of_Z 10]; [Num.of_Z 15; Num.of_Z 10]]
  = Ok [true; false].
Proof.
  destruct (C5_lies_inside
              (IsBox (mkBox [[Num.of_Z 0; Num.of_Z 0]]
                        [[Num.of_Z 10; Num.of_Z 20]] (1, 2)))
              [[Num.of_Z 0; Num.of_Z 0]] [[Num.of_Z 10; Num.of_Z 20]]
              [[Num.of_Z 5; Num.of_Z 10]; [Num.of_Z 15; Num.of_Z 10]] 2 2
              eq_refl eq_refl eq_refl eq_refl eq_refl (le_S 1 1 (le_n 1)))
    as [(res & Hres & _ & Hlen & Hrows) _].
  rewrite Hres. f_equal.
  pose proof (Hlen eq_refl) as L.
  pose proof (Hrows 0 ltac:(lia)) as R0.
  pose proof (Hrows 1 ltac:(lia)) as R1.
  destruct res as [|a [|b [|c res]]]; simpl in L; try discriminate.
  simpl in R0, R1. now rewrite R0, R1.
Defined.

(** ** C6: the signed distance *)

(** The box [Box[:5]] has [lower < upper]; the point 3 is strictly inside
    it, and its signed distance is NaN, which is not negative.  The
    location [(NaN, 5)] is outside [Box((0, 0), (1, 1))] on the second
    axis, and its signed distance is NaN, which is not positive.  On floats
    the sign is lost for finite corners as well: in binary32 and in
    binary64, [Box(-1, 1e17)] gives the distance 0 to the point -0.5
    inside it and to the point -1.5 outside it. *)
Lemma C6_signed_distance_fails :
  (exists b,
     half_space = Ok b /\
     Box_lower b = [[NInf]] /\ Box_upper b = [[Num.of_Z 5]] /\
     Num.ltb NInf (Num.of_Z 5) = true /\
     interior_row (Box_lower b) (Box_upper b) [[Num.of_Z 3]] 1 0 = true /\
     AbstractBox.approximate_signed_distance (IsBox b) [[Num.of_Z 3]] = Ok [NaN] /\
     Num.ltb NaN (Fin Num.zero) = false) /\
  (exists b,
     Box.__init__ (PyList [Num.of_Z 0; Num.of_Z 0])
                  (PyList [Num.of_Z 1; Num.of_Z 1]) = Ok b /\
     exterior_row (Box_lower b) (Box_upper b) [[NaN; Num.of_Z 5]] 2 0 = true /\
     AbstractBox.approximate_signed_distance (IsBox b) [[NaN; Num.of_Z 5]]
     = Ok [NaN] /\
     Num.ltb (Fin Num.zero) NaN = false) /\
  in_both_formats (fun f =>
    IEEE.ltb (IEEE.of_Z f (-1)) (IEEE.opp_half f)
    && IEEE.ltb (IEEE.opp_half f) (IEEE.of_Z f (10 ^ 17))
    && IEEE.eqb (wide_box_distance f (IEEE.opp_half f)) (IEEE.of_Z f 0)
    && IEEE.ltb (IEEE.opp_three_halves f) (IEEE.of_Z f (-1))
    && IEEE.eqb (wide_box_distance f (IEEE.opp_three_halves f)) (IEEE.of_Z f 0))
  = true.
Proof.
  split; [|split].
  - eexists. split; [reflexivity|]. repeat split; reflexivity.
  - eexists. split; [reflexivity|]. repeat split; reflexivity.
  - vm_compute. reflexivity.
Qed.

(** C6.  [approximate_signed_distance] is the maximum over the
    [vector] dimension of [|p - (lower + upper) / 2| - (upper - lower) / 2].
    In exact arithmetic, on every row where the corners are finite, it is
    strictly negative for a point strictly inside the box, strictly
    positive for a point strictly outside that holds no NaN, and zero on
    the boundary.  On every row where the lower corner is [-inf] or the
    upper corner [+inf] on some axis it is NaN, for every location. *)
Theorem C6_signed_distance (self : AbstractBox) (l u p : Tensor) (n r : nat) :
  lower self = Ok l -> upper self = Ok u ->
  fits l n r = true -> fits u n r = true -> fits p n r = true ->
  1 <= r ->
  exists res,
    AbstractBox.approximate_signed_distance self p = Ok res /\
    dim_fits (length res) n = true /\
    forall i, i < n ->
      max_list (distance_row l u p r i) = Ok (bnth res i NaN) /\
      (finite_row l r i = true -> finite_row u r i = true ->
       (interior_row l u p r i = true ->
        Num.ltb (bnth res i NaN) (Fin Num.zero) = true) /\
       (exterior_row l u p r i = true -> nan_row p r i = false ->
        Num.ltb (Fin Num.zero) (bnth res i NaN) = true) /\
       (boundary_row l u p r i = true ->
        bnth res i NaN = Fin Num.zero)) /\
      (unbounded_row l u r i = true -> bnth res i NaN = NaN).
Proof.
  intros Hl Hu Fl Fu Fp Hr.
  destruct (signed_distance_rows self l u p n r Hl Hu Fl Fu Fp Hr)
    as (res & Hres & Hlen & Rows).
  exists res. split; [exact Hres|]. split; [exact Hlen|].
  intros i Hi. rewrite (Rows i Hi).
  assert (Hne : distance_row l u p r i <> []).
  { unfold distance_row. destruct r as [|r]; [lia | discriminate]. }
  assert (Hin_row : forall j, j < r ->
            In (axis_distance (get l i j) (get u i j) (get p i j))
               (distance_row l u p r i)).
  { intros j Hj. unfold distance_row. apply in_map_iff. exists j.
    split; [reflexivity | apply in_seq; lia]. }
  split; [now apply max_list_row_max|]. split.
  - intros Al Au.
    (* the entries of the row, with the corners as rationals *)
    assert (El : forall j, j < r -> get l i j = Fin (qval (get l i j))).
    { intros j Hj. apply finite_qval. now apply (finite_row_get l r i j). }
    assert (Eu : forall j, j < r -> get u i j = Fin (qval (get u i j))).
    { intros j Hj. apply finite_qval. now apply (finite_row_get u r i j). }
    assert (Signs : (forall j, j < r -> Num.is_nan (get p i j) = false) ->
              (interior_row l u p r i = true ->
               Num.ltb (row_max (distance_row l u p r i)) (Fin Num.zero) = true) /\
              (exterior_row l u p r i = true ->
               Num.ltb (Fin Num.zero) (row_max (distance_row l u p r i)) = true) /\
              (boundary_row l u p r i = true ->
               row_max (distance_row l u p r i) = Fin Num.zero)).
    { intros Np.
      destruct (row_max_spec (distance_row l u p r i) Hne) as (Hm & Hall).
      { intros y Hy. unfold distance_row in Hy. apply in_map_iff in Hy.
        destruct Hy as (j & <- & Hj). apply in_seq in Hj.
        rewrite (El j), (Eu j) by lia.
        apply axis_distance_not_nan. apply Np. lia. }
      set (m := row_max (distance_row l u p r i)) in *.
      unfold distance_row in Hm. apply in_map_iff in Hm.
      destruct Hm as (jm & Em & Hjm). apply in_seq in Hjm.
      split; [|split].
      + (* interior *)
        intros Hint. rewrite <- Em, (El jm), (Eu jm) by lia.
        apply axis_distance_interior_entry.
        unfold interior_row in Hint. rewrite forallb_forall in Hint.
        specialize (Hint jm ltac:(apply in_seq; lia)).
        now rewrite (El jm), (Eu jm) in Hint by lia.
      + (* exterior *)
        intros Hext. unfold exterior_row in Hext. apply existsb_exists in Hext.
        destruct Hext as (j & Hj & Hext). apply in_seq in Hj.
        apply (ltb_leb_trans _ (axis_distance (get l i j) (get u i j) (get p i j)));
          [|apply Hall, Hin_row; lia].
        rewrite (El j), (Eu j) in Hext |- * by lia.
        now apply axis_distance_exterior_entry.
      + (* boundary *)
        intros Hb. unfold boundary_row in Hb. apply andb_true_iff in Hb.
        destruct Hb as [Hins Hface].
        unfold inside_row in Hins. rewrite forallb_forall in Hins.
        apply leb_antisym.
        * rewrite <- Em, (El jm), (Eu jm) by lia.
          apply axis_distance_inside_entry.
          specialize (Hins jm ltac:(apply in_seq; lia)).
          now rewrite (El jm), (Eu jm) in Hins by lia.
        * apply existsb_exists in Hface. destruct Hface as (j & Hj & Hface).
          apply in_seq in Hj.
          specialize (Hins j ltac:(apply in_seq; lia)).
          pose proof (Hall _ (Hin_row j ltac:(lia))) as Hle.
          rewrite (El j), (Eu j) in Hins, Hface, Hle by lia.
          now rewrite (axis_distance_face_entry _ _ _ Hins Hface) in Hle. }
    split; [|split].
    + intros Hint. apply Signs; [|exact Hint].
      intros j Hj. unfold interior_row in Hint. rewrite forallb_forall in Hint.
      specialize (Hint j ltac:(apply in_seq; lia)).
      apply andb_true_iff in Hint. destruct Hint as [_ H2].
      now destruct (get p i j).
    + intros Hext Hnan. apply Signs; [|exact Hext].
      intros j Hj. now apply (nan_row_get p r i j).
    + intros Hb. apply Signs; [|exact Hb].
      intros j Hj. unfold boundary_row in Hb. apply andb_true_iff in Hb.
      destruct Hb as [Hins _].
      destruct (proj1 (inside_row_forall l u p r i) Hins j Hj) as [_ H2].
      now destruct (get p i j).
  - intros Hunb. unfold unbounded_row in Hunb. apply existsb_exists in Hunb.
    destruct Hunb as (j & Hj & Hunb). apply in_seq in Hj.
    apply row_max_holds_nan.
    rewrite <- (axis_distance_unbounded _ _ (get p i j) Hunb).
    apply Hin_row. lia.
Qed.

Lemma C6_signed_distance_witness :
  exists res,
    AbstractBox.approximate_signed_distance
      (IsBox (mkBox [[Num.of_Z 0; Num.of_Z 0]] [[Num.of_Z 10; Num.of_Z 20]] (1, 2)))
      [[Num.of_Z 5; Num.of_Z 10]; [Num.of_Z 15; Num.of_Z 10];
       [Num.of_Z 0; Num.of_Z 10]] = Ok res /\
    Num.ltb (bnth res 0 NaN) (Fin Num.zero) = true /\
    Num.ltb (Fin Num.zero) (bnth res 1 NaN) = true /\
    bnth res 2 NaN = Fin Num.zero.
Proof.
  destruct (C6_signed_distance
              (IsBox (mkBox [[Num.of_Z 0; Num.of_Z 0]]
                        [[Num.of_Z 10; Num.of_Z 20]] (1, 2)))
              [[Num.of_Z 0; Num.of_Z 0]] [[Num.of_Z 10; Num.of_Z 20]]
              [[Num.of_Z 5; Num.of_Z 10]; [Num.of_Z 15; Num.of_Z 10];
               [Num.of_Z 0; Num.of_Z 10]] 3 2
              eq_refl eq_refl eq_refl eq_refl eq_refl (le_S 1 1 (le_n 1)))
    as (res & Hres & _ & Hrows).
  exists res. split; [exact Hres|].
  destruct (Hrows 0 ltac:(lia)) as (_ & H0 & _).
  destruct (Hrows 1 ltac:(lia)) as (_ & H1 & _).
  destruct (Hrows 2 ltac:(lia)) as (_ & H2 & _).
  destruct (H0 eq_refl eq_refl) as (Hin & _ & _).
  destruct (H1 eq_refl eq_refl) as (_ & Hout & _).
  destruct (H2 eq_refl eq_refl) as (_ & _ & Hon).
  split; [apply Hin; reflexivity|].
  split; [apply Hout; reflexivity | apply Hon; reflexivity].
Defined.


(** ** C7: boxes from slices *)

(** C7. [Box[...]]: an absent start becomes [-inf], an absent stop
    [+inf]; a step that is neither absent nor 1 is rejected; the box
    [Box[:5]] contains every point whose coordinate is at most 5. *)
Theorem C7_getitem (slices : list BoxType.slice) (one bad : BoxType.slice)
    (items : list BoxType.entry) (x : num) :
  forallb step_ok slices = true -> step_ok one = true ->
  In (BoxType.Slice bad) items -> step_ok bad = false ->
  Num.leb x (Num.of_Z 5) = true ->
  BoxType.__getitem__ (BoxType.Sequence (map BoxType.Slice slices))
  = Ok (mkBox [map slice_lower slices] [map slice_upper slices]
          (1, length slices)) /\
  BoxType.__getitem__ (BoxType.Single (BoxType.Slice one))
  = Ok (mkBox [[slice_lower one]] [[slice_upper one]] (1, 1)) /\
  BoxType.__getitem__ (BoxType.Sequence items) = Raise AssertionError /\
  BoxType.__getitem__ (BoxType.Single (BoxType.Slice bad))
  = Raise AssertionError /\
  (exists b,
     half_space = Ok b /\
     Box_lower b = [[NInf]] /\ Box_upper b = [[Num.of_Z 5]] /\
     AbstractBox.lies_inside (IsBox b) [[x]] = Ok [true]).
Proof.
  intros Hok Hone Hin Hbad Hx. repeat split.
  - unfold BoxType.__getitem__. rewrite corners_slices by exact Hok.
    cbn [bind fst snd app]. unfold Box.__init__, tensor, combined_shape.
    cbn [length vdim]. rewrite !length_map, !combined_dim_same. reflexivity.
  - unfold BoxType.__getitem__.
    rewrite (corners_slices [one]) by (simpl; now rewrite Hone).
    reflexivity.
  - unfold BoxType.__getitem__. now rewrite (corners_bad_step items bad).
  - unfold BoxType.__getitem__.
    rewrite (corners_bad_step [BoxType.Slice bad] bad); simpl; auto.
  - eexists. split; [reflexivity|]. split; [reflexivity|].
    split; [reflexivity|].
    unfold AbstractBox.lies_inside. simpl.
    destruct x as [q| | |]; try discriminate.
    + simpl in Hx |- *. now rewrite Hx.
    + reflexivity.
Qed.

Lemma C7_getitem_witness :
  BoxType.__getitem__
    (BoxType.Sequence
       [BoxType.Slice (BoxType.mkSlice (Some (Num.of_Z 0)) (Some (Num.of_Z 10)) None);
        BoxType.Slice (BoxType.mkSlice None None (Some (Num.of_Z 1)))])
  = Ok (mkBox [[Num.of_Z 0; NInf]] [[Num.of_Z 10; PInf]] (1, 2)) /\
  BoxType.__getitem__
    (BoxType.Sequence
       [BoxType.Slice (BoxType.mkSlice None None (Some (Num.of_Z 2)))])
  = Raise AssertionError.
Proof.
  pose proof
    (C7_getitem
       [BoxType.mkSlice (Some (Num.of_Z 0)) (Some (Num.of_Z 10)) None;
        BoxType.mkSlice None None (Some (Num.of_Z 1))]
       (BoxType.mkSlice None (Some (Num.of_Z 5)) None)
       (BoxType.mkSlice None None (Some (Num.of_Z 2)))
       [BoxType.Slice (BoxType.mkSlice None None (Some (Num.of_Z 2)))]
       (Num.of_Z (-1000))
       eq_refl eq_refl (or_introl eq_refl) eq_refl eq_refl) as H.
  split; [apply H | apply H].
Defined.


(** ** C8: translation *)

(** Shifting [Box(0, 1)] by [+inf] gives the box from [+inf] to [+inf],
    whose size is NaN and not 1.  On floats a finite offset changes the
    size as well: in binary32 and in binary64 the size of
    [Box(0, 1).shifted(1e20)] is 0, where the size of [Box(0, 1)] is 1. *)
Lemma C8_shifted_size_differs :
  (exists b b',
     Box.__init__ (PyScalar (Num.of_Z 0)) (PyScalar (Num.of_Z 1)) = Ok b /\
     Box.shifted b [[PInf]] = Ok b' /\
     size (IsBox b) = Ok [[Num.of_Z 1]] /\
     size (IsBox b') = Ok [[NaN]]) /\
  in_both_formats (fun f =>
    IEEE.eqb (IEEE.Box_size f (IEEE.of_Z f 0) (IEEE.of_Z f 1)) (IEEE.of_Z f 1)
    && IEEE.is_finite (IEEE.of_Z f (10 ^ 20))
    && IEEE.eqb (far_shift_size f) (IEEE.of_Z f 0)) = true.
Proof.
  split; [|vm_compute; reflexivity].
  do 2 eexists. split; [reflexivity|]. split; [reflexivity|].
  split; [|reflexivity].
  simpl. unfold tsub, tensor_op. simpl. do 4 f_equal.
Qed.

(** C8.  [Box.shifted] returns [Box(lower + delta, upper + delta)]:
    both corners are translated entry by entry, and the size of the result
    is [(upper + delta) - (lower + delta)]; in exact arithmetic that is the
    size of the box at every entry where [delta] is finite.
    [Cuboid.shifted] returns the cuboid with center [center + delta] and the
    same stored half size. *)
Theorem C8_shifted (b : Box) (c : Cuboid) (delta : Tensor) (n r : nat) :
  fits (Box_lower b) n r = true -> fits (Box_upper b) n r = true ->
  fits (Cuboid_center c) n r = true -> fits (Cuboid_half_size c) n r = true ->
  fits delta n r = true -> 1 <= n ->
  (exists l' u' b' s s',
     tadd (Box_lower b) delta = Ok l' /\
     tadd (Box_upper b) delta = Ok u' /\
     Box.__init__ (PyTensor l') (PyTensor u') = Ok b' /\
     Box.shifted b delta = Ok b' /\
     Box_lower b' = l' /\ Box_upper b' = u' /\
     (forall i j, i < n -> j < r ->
        get l' i j = Num.add (get (Box_lower b) i j) (get delta i j) /\
        get u' i j = Num.add (get (Box_upper b) i j) (get delta i j)) /\
     size (IsBox b) = Ok s /\ size (IsBox b') = Ok s' /\
     (forall i j, i < n -> j < r ->
        get s' i j
        = Num.sub (Num.add (get (Box_upper b) i j) (get delta i j))
                  (Num.add (get (Box_lower b) i j) (get delta i j))) /\
     (forall i j, i < n -> j < r ->
        Num.is_finite (get delta i j) = true -> get s' i j = get s i j) /\
     (finite delta = true -> full (Box_lower b) n r = true -> s' = s)) /\
  (exists ctr c',
     tadd (Cuboid_center c) delta = Ok ctr /\
     Cuboid.shifted c delta = Ok c' /\
     Cuboid_center c' = ctr /\
     Cuboid_half_size c' = Cuboid_half_size c).
Proof.
  intros Fl Fu Fc Fh Fd Hn. split.
  - destruct (tensor_op_spec Num.add NaN NaN NaN _ delta n r Fl Fd)
      as (l' & Hl & Fl' & Ul' & Gl).
    destruct (tensor_op_spec Num.add NaN NaN NaN _ delta n r Fu Fd)
      as (u' & Hu & Fu' & Uu' & Gu).
    destruct (combined_shape_fits l' u' n r Fl' Fu' Hn) as [sh Hsh].
    destruct (tensor_op_spec Num.sub NaN NaN NaN _ _ n r Fu Fl)
      as (s & Hs & Fs & Us & Gs).
    destruct (tensor_op_spec Num.sub NaN NaN NaN _ _ n r Fu' Fl')
      as (s' & Hs' & Fs' & Us' & Gs').
    assert (Hkeep : forall i j, i < n -> j < r ->
              Num.is_finite (get delta i j) = true -> get s' i j = get s i j).
    { intros i j Hi Hj Hfin. unfold get in *.
      rewrite Gs', Gs, Gu, Gl by assumption. now apply shift_keeps_extent. }
    exists l', u', (mkBox l' u' sh), s, s'. unfold Box.shifted, tadd in *.
    rewrite Hl, Hu. cbn [bind]. unfold Box.__init__, tensor. rewrite Hsh.
    cbn [bind size Box_lower Box_upper]. unfold tsub.
    repeat (split; [first [reflexivity | assumption]|]).
    split; [|split; [|split; [|split; [|split]]]].
    + intros i j Hi Hj. unfold get. now rewrite Gl, Gu.
    + exact Hs.
    + exact Hs'.
    + intros i j Hi Hj. unfold get. now rewrite Gs', Gu, Gl.
    + exact Hkeep.
    + intros Hfin Ub. apply (tensor_ext NaN s' s n r); auto.
      intros i j Hi Hj. apply (Hkeep i j Hi Hj).
      apply (all_entries_tget Num.is_finite NaN delta n r i j Hfin Fd Hi Hj).
  - destruct (tensor_op_spec Num.add NaN NaN NaN _ delta n r Fc Fd)
      as (ctr & Hc & Fc' & _ & _).
    destruct (combined_shape_fits ctr _ n r Fc' Fh Hn) as [sh Hsh].
    exists ctr, (mkCuboid ctr (Cuboid_half_size c) (fst sh)).
    unfold Cuboid.shifted, tadd in *. rewrite Hc. cbn [bind].
    unfold Cuboid.__init__, tensor. rewrite Hsh. repeat split.
Qed.

Lemma C8_shifted_witness :
  exists b',
    Box.shifted (mkBox [[Num.of_Z 0; Num.of_Z 0]] [[Num.of_Z 10; Num.of_Z 20]] (1, 2))
                [[Num.of_Z 1; Num.of_Z 2]] = Ok b' /\
    size (IsBox b')
    = size (IsBox (mkBox [[Num.of_Z 0; Num.of_Z 0]]
                     [[Num.of_Z 10; Num.of_Z 20]] (1, 2))).
Proof.
  destruct (C8_shifted
              (mkBox [[Num.of_Z 0; Num.of_Z 0]] [[Num.of_Z 10; Num.of_Z 20]] (1, 2))
              (mkCuboid [[Num.of_Z 5; Num.of_Z 10]] [[Num.of_Z 5; Num.of_Z 10]] 1)
              [[Num.of_Z 1; Num.of_Z 2]] 1 2
              eq_refl eq_refl eq_refl eq_refl eq_refl (le_n 1))
    as [(l' & u' & b' & s & s' & _ & _ & _ & Hb & _ & _ & _ & Hs & Hs' & _ & _ & Heq) _].
  exists b'. split; [exact Hb|].
  rewrite Hs, Hs'. f_equal. exact (Heq eq_refl eq_refl).
Defined.


(** ** C9: one component of a corner *)

(** C9. With a [vector] dimension of size one, [get_lower] and
    [get_upper] answer every axis with the single stored component; with a
    larger one they answer with the component at the requested index. *)
Theorem C9_get_lower_upper (self : AbstractBox) (l u : Tensor) (axis : Z) :
  lower self = Ok l -> upper self = Ok u ->
  (vdim l = 1 -> AbstractBox.get_lower self axis = Ok (component l 0)) /\
  (vdim u = 1 -> AbstractBox.get_upper self axis = Ok (component u 0)) /\
  (1 < vdim l -> (0 <= axis < Z.of_nat (vdim l))%Z ->
   AbstractBox.get_lower self axis = Ok (component l (Z.to_nat axis))) /\
  (1 < vdim u -> (0 <= axis < Z.of_nat (vdim u))%Z ->
   AbstractBox.get_upper self axis = Ok (component u (Z.to_nat axis))).
Proof.
  intros Hl Hu. unfold AbstractBox.get_lower, AbstractBox.get_upper.
  rewrite Hl, Hu. cbn [bind].
  auto using get_single_component, get_requested_component.
Qed.

Lemma C9_get_lower_upper_witness :
  AbstractBox.get_lower
    (IsBox (mkBox [[Num.of_Z 0]] [[Num.of_Z 10; Num.of_Z 20]] (1, 2))) 7
  = Ok [Num.of_Z 0] /\
  AbstractBox.get_upper
    (IsBox (mkBox [[Num.of_Z 0]] [[Num.of_Z 10; Num.of_Z 20]] (1, 2))) 1
  = Ok [Num.of_Z 20].
Proof.
  split.
  - apply (C9_get_lower_upper
             (IsBox (mkBox [[Num.of_Z 0]] [[Num.of_Z 10; Num.of_Z 20]] (1, 2)))
             [[Num.of_Z 0]] [[Num.of_Z 10; Num.of_Z 20]] 7 eq_refl eq_refl).
    reflexivity.
  - apply (C9_get_lower_upper
             (IsBox (mkBox [[Num.of_Z 0]] [[Num.of_Z 10; Num.of_Z 20]] (1, 2)))
             [[Num.of_Z 0]] [[Num.of_Z 10; Num.of_Z 20]] 1 eq_refl eq_refl).
    + simpl. lia.
    + simpl. lia.
Defined.


(** ** C10: unstacking *)

(** C10. [GridCell.unstack] returns [None] whatever the dimension; the
    [unstack] of [Box] and the one [Cuboid] inherits from [AbstractBox] raise
    [NotImplementedError]. *)
Theorem C10_grid_cell_unstack (c : Cuboid) (resolution : Shape)
    (bounds : AbstractBox) (b : Box) (dimension : string) :
  GridCell.unstack c resolution bounds dimension = Ok PyNone /\
  unstack (IsGridCell c resolution bounds) dimension = Ok PyNone /\
  unstack (IsBox b) dimension = Raise NotImplementedError /\
  unstack (IsCuboid c) dimension = Raise NotImplementedError /\
  AbstractBox.unstack (IsGridCell c resolution bounds) dimension
  = Raise NotImplementedError.
Proof. repeat split. Qed.


(** * Further properties of the code *)


Lemma Qc_leb_false_lt (a b : Qc) : Num.Qc_leb a b = false -> (b < a)%Qc.
Proof.
  intros H. destruct (Qclt_le_dec b a) as [L|L]; [exact L|].
  apply Qc_leb_le in L. congruence.
Qed.

Lemma ltb_leb_false (x y : num) :
  Num.ltb x y = true -> Num.leb y x = false.
Proof.
  destruct x as [a| | |], y as [b| | |]; simpl; try reflexivity;
    try discriminate.
  intros H. apply Qc_ltb_lt in H.
  destruct (Num.Qc_leb b a) eqn:E; [|reflexivity].
  apply Qc_leb_le in E. exfalso. qc_lra.
Qed.

Lemma leb_add_finite (x y d : num) :
  Num.is_finite d = true ->
  Num.leb (Num.add x d) (Num.add y d) = Num.leb x y.
Proof.
  intros Hd. destruct d as [d| | |]; try discriminate.
  destruct x as [a| | |], y as [b| | |]; simpl; try reflexivity.
  destruct (Num.Qc_leb a b) eqn:E.
  - apply Qc_leb_le. apply Qc_leb_le in E. qc_lra.
  - destruct (Num.Qc_leb (a + d) (b + d)) eqn:E'; [|reflexivity].
    apply Qc_leb_le in E'. apply Qc_leb_false_lt in E. exfalso. qc_lra.
Qed.


(** ** Containment and membership *)

(** X1. Containment is transitive, and two boxes that contain each
    other have the same corners. *)
Theorem X1_contains_order (a b c : AbstractBox)
    (la ua lb ub lc uc : Tensor) (n r : nat) :
  lower a = Ok la -> upper a = Ok ua ->
  lower b = Ok lb -> upper b = Ok ub ->
  lower c = Ok lc -> upper c = Ok uc ->
  fits la n r = true -> fits ua n r = true ->
  fits lb n r = true -> fits ub n r = true ->
  fits lc n r = true -> fits uc n r = true ->
  1 <= n -> 1 <= r ->
  (AbstractBox.contains a (PyBox b) = Ok true ->
   AbstractBox.contains b (PyBox c) = Ok true ->
   AbstractBox.contains a (PyBox c) = Ok true) /\
  (AbstractBox.contains a (PyBox b) = Ok true ->
   AbstractBox.contains b (PyBox a) = Ok true ->
   forall i j, i < n -> j < r ->
     get la i j = get lb i j /\ get ua i j = get ub i j).
Proof.
  intros Hla Hua Hlb Hub Hlc Huc Fla Fua Flb Fub Flc Fuc Hn Hr.
  pose proof (contains_true_iff a b la ua lb ub n r Hla Hua Hlb Hub
                Fla Fua Flb Fub Hn Hr) as Iab.
  pose proof (contains_true_iff b c lb ub lc uc n r Hlb Hub Hlc Huc
                Flb Fub Flc Fuc Hn Hr) as Ibc.
  pose proof (contains_true_iff a c la ua lc uc n r Hla Hua Hlc Huc
                Fla Fua Flc Fuc Hn Hr) as Iac.
  pose proof (contains_true_iff b a lb ub la ua n r Hlb Hub Hla Hua
                Flb Fub Fla Fua Hn Hr) as Iba.
  split.
  - intros Hab Hbc. apply Iac. apply Iab in Hab. apply Ibc in Hbc.
    intros i j Hi Hj. destruct (Hab i j Hi Hj) as [A1 A2].
    destruct (Hbc i j Hi Hj) as [B1 B2]. unfold Num.geb in *. split.
    + eapply leb_trans; eauto.
    + eapply leb_trans; eauto.
  - intros Hab Hba i j Hi Hj. apply Iab in Hab. apply Iba in Hba.
    destruct (Hab i j Hi Hj) as [A1 A2].
    destruct (Hba i j Hi Hj) as [B1 B2]. unfold Num.geb in *. split.
    + now apply leb_antisym.
    + now apply leb_antisym.
Qed.

Lemma X1_contains_order_witness :
  AbstractBox.contains
    (IsBox (mkBox [[Num.of_Z 0; Num.of_Z 0]] [[Num.of_Z 10; Num.of_Z 20]] (1, 2)))
    (PyBox (IsBox (mkBox [[Num.of_Z 2; Num.of_Z 2]] [[Num.of_Z 3; Num.of_Z 3]] (1, 2))))
  = Ok true.
Proof.
  apply (X1_contains_order
           (IsBox (mkBox [[Num.of_Z 0; Num.of_Z 0]]
                     [[Num.of_Z 10; Num.of_Z 20]] (1, 2)))
           (IsBox (mkBox [[Num.of_Z 1; Num.of_Z 1]]
                     [[Num.of_Z 5; Num.of_Z 5]] (1, 2)))
           (IsBox (mkBox [[Num.of_Z 2; Num.of_Z 2]]
                     [[Num.of_Z 3; Num.of_Z 3]] (1, 2)))
           [[Num.of_Z 0; Num.of_Z 0]] [[Num.of_Z 10; Num.of_Z 20]]
           [[Num.of_Z 1; Num.of_Z 1]] [[Num.of_Z 5; Num.of_Z 5]]
           [[Num.of_Z 2; Num.of_Z 2]] [[Num.of_Z 3; Num.of_Z 3]] 1 2
           eq_refl eq_refl eq_refl eq_refl eq_refl eq_refl
           eq_refl eq_refl eq_refl eq_refl eq_refl eq_refl
           (le_n 1) (le_S 1 1 (le_n 1)));
    reflexivity.
Defined.

(** X2. A point inside a box lies inside every box that contains it. *)
Theorem X2_contains_lies_inside (a b : AbstractBox)
    (la ua lb ub p : Tensor) (n r : nat) :
  lower a = Ok la -> upper a = Ok ua ->
  lower b = Ok lb -> upper b = Ok ub ->
  fits la n r = true -> fits ua n r = true ->
  fits lb n r = true -> fits ub n r = true ->
  fits p n r = true -> 1 <= n -> 1 <= r ->
  AbstractBox.contains a (PyBox b) = Ok true ->
  exists ra rb,
    AbstractBox.lies_inside a p = Ok ra /\
    AbstractBox.lies_inside b p = Ok rb /\
    forall i, i < n -> bnth rb i false = true -> bnth ra i false = true.
Proof.
  intros Hla Hua Hlb Hub Fla Fua Flb Fub Fp Hn Hr Hab.
  apply (contains_true_iff a b la ua lb ub n r Hla Hua Hlb Hub
           Fla Fua Flb Fub Hn Hr) in Hab.
  destruct (lies_inside_rows a la ua p n r Hla Hua Fla Fua Fp Hr)
    as (ra & Ha & _ & Ra).
  destruct (lies_inside_rows b lb ub p n r Hlb Hub Flb Fub Fp Hr)
    as (rb & Hb & _ & Rb).
  exists ra, rb. split; [exact Ha|]. split; [exact Hb|].
  intros i Hi. rewrite (Ra i Hi), (Rb i Hi), !inside_row_forall.
  intros H j Hj. destruct (H j Hj) as [P1 P2].
  destruct (Hab i j Hi Hj) as [A1 A2]. unfold Num.geb in *. split.
  - eapply leb_trans; eauto.
  - eapply leb_trans; eauto.
Qed.

Lemma X2_contains_lies_inside_witness :
  exists ra rb,
    AbstractBox.lies_inside
      (IsBox (mkBox [[Num.of_Z 0; Num.of_Z 0]] [[Num.of_Z 10; Num.of_Z 20]] (1, 2)))
      [[Num.of_Z 2; Num.of_Z 3]] = Ok ra /\
    AbstractBox.lies_inside
      (IsBox (mkBox [[Num.of_Z 1; Num.of_Z 1]] [[Num.of_Z 5; Num.of_Z 5]] (1, 2)))
      [[Num.of_Z 2; Num.of_Z 3]] = Ok rb /\
    bnth rb 0 false = true /\ bnth ra 0 false = true.
Proof.
  destruct (X2_contains_lies_inside
              (IsBox (mkBox [[Num.of_Z 0; Num.of_Z 0]]
                        [[Num.of_Z 10; Num.of_Z 20]] (1, 2)))
              (IsBox (mkBox [[Num.of_Z 1; Num.of_Z 1]]
                        [[Num.of_Z 5; Num.of_Z 5]] (1, 2)))
              [[Num.of_Z 0; Num.of_Z 0]] [[Num.of_Z 10; Num.of_Z 20]]
              [[Num.of_Z 1; Num.of_Z 1]] [[Num.of_Z 5; Num.of_Z 5]]
              [[Num.of_Z 2; Num.of_Z 3]] 1 2
              eq_refl eq_refl eq_refl eq_refl eq_refl eq_refl eq_refl eq_refl
              eq_refl (le_n 1) (le_S 1 1 (le_n 1)) eq_refl)
    as (ra & rb & Ha & Hb & Himp).
  exists ra, rb. split; [exact Ha|]. split; [exact Hb|].
  assert (Hrb : bnth rb 0 false = true).
  { cbv in Hb. injection Hb as <-. reflexivity. }
  split; [exact Hrb | apply (Himp 0 (le_n 1) Hrb)].
Defined.

(** X3. The constructors do not compare the corners: a box whose lower
    corner exceeds its upper corner on some axis is built without an error
    and contains no point. *)
Theorem X3_inverted_box_is_empty (self : AbstractBox) (l u p : Tensor)
    (n r i j : nat) :
  lower self = Ok l -> upper self = Ok u ->
  fits l n r = true -> fits u n r = true -> fits p n r = true ->
  1 <= r -> i < n -> j < r ->
  Num.ltb (get u i j) (get l i j) = true ->
  exists res,
    AbstractBox.lies_inside self p = Ok res /\ bnth res i false = false.
Proof.
  intros Hl Hu Fl Fu Fp Hr Hi Hj Hinv.
  destruct (lies_inside_rows self l u p n r Hl Hu Fl Fu Fp Hr)
    as (res & Hres & _ & Rows).
  exists res. split; [exact Hres|]. rewrite (Rows i Hi).
  destruct (inside_row l u p r i) eqn:E; [|reflexivity].
  destruct (proj1 (inside_row_forall l u p r i) E j Hj) as [P1 P2].
  unfold Num.geb in P1.
  pose proof (leb_trans _ _ _ P1 P2) as L.
  apply ltb_leb_false in Hinv. congruence.
Qed.

Lemma X3_inverted_box_is_empty_witness :
  exists b res,
    Box.__init__ (PyList [Num.of_Z 3; Num.of_Z 0])
                 (PyList [Num.of_Z 1; Num.of_Z 9]) = Ok b /\
    AbstractBox.lies_inside (IsBox b) [[Num.of_Z 2; Num.of_Z 5]] = Ok res /\
    bnth res 0 false = false.
Proof.
  eexists.
  destruct (X3_inverted_box_is_empty
              (IsBox (mkBox [[Num.of_Z 3; Num.of_Z 0]]
                        [[Num.of_Z 1; Num.of_Z 9]] (1, 2)))
              [[Num.of_Z 3; Num.of_Z 0]] [[Num.of_Z 1; Num.of_Z 9]]
              [[Num.of_Z 2; Num.of_Z 5]] 1 2 0 0
              eq_refl eq_refl eq_refl eq_refl eq_refl
              (le_S 1 1 (le_n 1)) (le_n 1) (le_S 1 1 (le_n 1)) eq_refl)
    as (res & Hres & Hfalse).
  exists res. split; [reflexivity|]. split; assumption.
Defined.

Lemma div_two (x : Qc) : Num.div (Fin x) two = Fin (x / Q2Qc 2)%Qc.
Proof.
  unfold two, Num.of_Z, Num.div.
  change (Num.Qc_eqb (Q2Qc (inject_Z 2)) Num.zero) with false. reflexivity.
Qed.

Lemma two_mul (x : Qc) : Num.mul two (Fin x) = Fin (x + x)%Qc.
Proof.
  unfold two, Num.of_Z, Num.mul. f_equal.
  change (Q2Qc (inject_Z 2)) with (Q2Qc 2). rewrite two_as_sum. ring.
Qed.

Lemma Qc_two_neq_0 : (1 + 1)%Qc <> 0%Qc.
Proof. intros E. inversion E. Qed.

(** The five properties of a box, entry by entry: where both corners are
    finite they are rationals [ql] and [qu], the size is [qu - ql], the
    center [(ql + qu) / 2] and the half size [(qu - ql) / 2], for every
    class. *)
Lemma views (self : AbstractBox) (n r : nat) :
  well_shaped self n r = true ->
  exists l u s c h,
    lower self = Ok l /\ upper self = Ok u /\ size self = Ok s /\
    center self = Ok c /\ half_size self = Ok h /\
    fits l n r = true /\ fits u n r = true /\ fits s n r = true /\
    fits c n r = true /\ fits h n r = true /\
    forall i j, i < n -> j < r ->
      Num.is_finite (get l i j) = true -> Num.is_finite (get u i j) = true ->
      get s i j = Fin (qval (get u i j) - qval (get l i j))%Qc /\
      get c i j = Fin ((qval (get l i j) + qval (get u i j)) / Q2Qc 2)%Qc /\
      get h i j = Fin ((qval (get u i j) - qval (get l i j)) / Q2Qc 2)%Qc.
Proof.
  intros W.
  assert (Box_case : forall b, fits (Box_lower b) n r = true ->
            fits (Box_upper b) n r = true ->
            exists l u s c h,
              lower (IsBox b) = Ok l /\ upper (IsBox b) = Ok u /\
              size (IsBox b) = Ok s /\ center (IsBox b) = Ok c /\
              half_size (IsBox b) = Ok h /\
              fits l n r = true /\ fits u n r = true /\ fits s n r = true /\
              fits c n r = true /\ fits h n r = true /\
              forall i j, i < n -> j < r ->
                Num.is_finite (get l i j) = true ->
                Num.is_finite (get u i j) = true ->
                get s i j = Fin (qval (get u i j) - qval (get l i j))%Qc /\
                get c i j = Fin ((qval (get l i j) + qval (get u i j)) / Q2Qc 2)%Qc /\
                get h i j = Fin ((qval (get u i j) - qval (get l i j)) / Q2Qc 2)%Qc).
  { intros [l u sh] Fl Fu. simpl in Fl, Fu. simpl.
    destruct (tensor_op_spec Num.sub NaN NaN NaN u l n r Fu Fl)
      as (s & Hs & Fs & _ & Gs).
    destruct (tensor_op_spec Num.add NaN NaN NaN l u n r Fl Fu)
      as (a & Ha & Fa & _ & Ga).
    unfold tsub, tadd. rewrite Hs, Ha. cbn [bind].
    exists l, u, s, (scalar_mul half a), (mul_scalar s half).
    repeat (split; [first [reflexivity | assumption
                          | unfold scalar_mul, mul_scalar; now rewrite fits_tmap]|]).
    intros i j Hi Hj Il Iu. unfold get in *.
    unfold scalar_mul, mul_scalar.
    rewrite (tget_tmap (Num.mul half) NaN NaN a n r i j Fa Hi Hj).
    rewrite (tget_tmap (fun x => Num.mul x half) NaN NaN s n r i j Fs Hi Hj).
    rewrite Gs, Ga by assumption.
    rewrite half_mul_l, half_mul_r.
    rewrite (finite_qval _ Il), (finite_qval _ Iu). simpl qval.
    rewrite <- !div_two. repeat split; reflexivity. }
  assert (Cuboid_case : forall (self : AbstractBox) (cu : Cuboid),
            lower self = tsub (Cuboid_center cu) (Cuboid_half_size cu) ->
            upper self = tadd (Cuboid_center cu) (Cuboid_half_size cu) ->
            size self = Ok (scalar_mul two (Cuboid_half_size cu)) ->
            center self = Ok (Cuboid_center cu) ->
            half_size self = Ok (Cuboid_half_size cu) ->
            fits (Cuboid_center cu) n r = true ->
            fits (Cuboid_half_size cu) n r = true ->
            exists l u s c h,
              lower self = Ok l /\ upper self = Ok u /\
              size self = Ok s /\ center self = Ok c /\
              half_size self = Ok h /\
              fits l n r = true /\ fits u n r = true /\ fits s n r = true /\
              fits c n r = true /\ fits h n r = true /\
              forall i j, i < n -> j < r ->
                Num.is_finite (get l i j) = true ->
                Num.is_finite (get u i j) = true ->
                get s i j = Fin (qval (get u i j) - qval (get l i j))%Qc /\
                get c i j = Fin ((qval (get l i j) + qval (get u i j)) / Q2Qc 2)%Qc /\
                get h i j = Fin ((qval (get u i j) - qval (get l i j)) / Q2Qc 2)%Qc).
  { intros self0 [c h sh] El Eu Es Ec Eh Fc Fh. simpl in *.
    destruct (tensor_op_spec Num.sub NaN NaN NaN c h n r Fc Fh)
      as (l & Hl & Fl & _ & Gl).
    destruct (tensor_op_spec Num.add NaN NaN NaN c h n r Fc Fh)
      as (u & Hu & Fu & _ & Gu).
    unfold tsub, tadd in *. rewrite El, Eu, Es, Ec, Eh, Hl, Hu.
    exists l, u, (scalar_mul two h), c, h.
    repeat (split; [first [reflexivity | assumption
                          | unfold scalar_mul; now rewrite fits_tmap]|]).
    intros i j Hi Hj Il Iu. unfold get in *. unfold scalar_mul.
    rewrite (tget_tmap (Num.mul two) NaN NaN h n r i j Fh Hi Hj).
    rewrite Gl, Gu in * by assumption.
    destruct (tget NaN c i j) as [qc| | |], (tget NaN h i j) as [qh| | |];
      try discriminate.
    simpl qval. rewrite two_mul. repeat split; f_equal;
      rewrite ?two_as_sum; field; apply Qc_two_neq_0. }
  destruct self as [b|c|c res bounds]; simpl in W;
    apply andb_true_iff in W; destruct W as [W1 W2].
  - now apply Box_case.
  - now apply (Cuboid_case (IsCuboid c) c).
  - now apply (Cuboid_case (IsGridCell c res bounds) c).
Qed.


Lemma axis_distance_nonpositive (l u : Qc) (p : num) :
  Num.leb (axis_distance (Fin l) (Fin u) p) (Fin Num.zero)
  = Num.geb p (Fin l) && Num.leb p (Fin u).
Proof.
  destruct p as [p| | |]; try reflexivity.
  rewrite axis_distance_finite. unfold Num.geb. simpl.
  destruct (Num.Qc_leb l p) eqn:E1; destruct (Num.Qc_leb p u) eqn:E2; simpl.
  - apply Qc_leb_le in E1, E2. apply Qc_leb_le. now apply axis_distance_inside.
  - apply Qc_leb_false_lt in E2.
    destruct (Num.Qc_leb (axis_distance_Qc l u p) Num.zero) eqn:E; [|reflexivity].
    apply Qc_leb_le in E.
    pose proof (axis_distance_exterior l u p (or_intror E2)) as X.
    exfalso. unfold Num.zero in *. qc_lra.
  - apply Qc_leb_false_lt in E1.
    destruct (Num.Qc_leb (axis_distance_Qc l u p) Num.zero) eqn:E; [|reflexivity].
    apply Qc_leb_le in E.
    pose proof (axis_distance_exterior l u p (or_introl E1)) as X.
    exfalso. unfold Num.zero in *. qc_lra.
  - apply Qc_leb_false_lt in E1.
    destruct (Num.Qc_leb (axis_distance_Qc l u p) Num.zero) eqn:E; [|reflexivity].
    apply Qc_leb_le in E.
    pose proof (axis_distance_exterior l u p (or_introl E1)) as X.
    exfalso. unfold Num.zero in *. qc_lra.
Qed.

(** X4. In exact arithmetic, for a box with finite corners and a
    location without NaN, the location lies inside the box exactly when its
    approximate signed distance is not positive. *)
Theorem X4_inside_iff_distance_nonpositive (self : AbstractBox)
    (l u p : Tensor) (n r : nat) :
  lower self = Ok l -> upper self = Ok u ->
  fits l n r = true -> fits u n r = true -> fits p n r = true ->
  1 <= r ->
  finite l = true -> finite u = true -> no_nan p = true ->
  exists ins dist,
    AbstractBox.lies_inside self p = Ok ins /\
    AbstractBox.approximate_signed_distance self p = Ok dist /\
    forall i, i < n ->
      bnth ins i false = Num.leb (bnth dist i NaN) (Fin Num.zero).
Proof.
  intros Hl Hu Fl Fu Fp Hr Al Au Ap.
  destruct (lies_inside_rows self l u p n r Hl Hu Fl Fu Fp Hr)
    as (ins & Hins & _ & Rins).
  destruct (signed_distance_rows self l u p n r Hl Hu Fl Fu Fp Hr)
    as (dist & Hdist & _ & Rdist).
  exists ins, dist. split; [exact Hins|]. split; [exact Hdist|].
  intros i Hi. rewrite (Rins i Hi), (Rdist i Hi).
  assert (Hne : distance_row l u p r i <> []).
  { unfold distance_row. destruct r as [|r]; [lia | discriminate]. }
  assert (Hentry : forall j, j < r ->
            axis_distance (get l i j) (get u i j) (get p i j)
            = axis_distance (Fin (qval (get l i j))) (Fin (qval (get u i j)))
                (get p i j) /\
            Num.is_nan (get p i j) = false).
  { intros j Hj.
    rewrite <- (finite_get l n r i j Al Fl Hi Hj),
            <- (finite_get u n r i j Au Fu Hi Hj).
    split; [reflexivity|].
    pose proof (all_entries_tget _ NaN p n r i j Ap Fp Hi Hj) as Np.
    now apply negb_true_iff in Np. }
  destruct (row_max_spec (distance_row l u p r i) Hne) as (Hm & Hall).
  { intros y Hy. unfold distance_row in Hy. apply in_map_iff in Hy.
    destruct Hy as (j & <- & Hj). apply in_seq in Hj.
    destruct (Hentry j ltac:(lia)) as [E Np]. rewrite E.
    now apply axis_distance_not_nan. }
  set (m := row_max (distance_row l u p r i)) in *.
  assert (Hinside : forall j, j < r ->
            Num.leb (axis_distance (get l i j) (get u i j) (get p i j))
                    (Fin Num.zero)
            = Num.geb (get p i j) (get l i j) && Num.leb (get p i j) (get u i j)).
  { intros j Hj. destruct (Hentry j Hj) as [E _]. rewrite E.
    rewrite axis_distance_nonpositive.
    now rewrite <- (finite_get l n r i j Al Fl Hi Hj),
                <- (finite_get u n r i j Au Fu Hi Hj). }
  destruct (inside_row l u p r i) eqn:Ei; symmetry.
  - unfold distance_row in Hm. apply in_map_iff in Hm.
    destruct Hm as (j & <- & Hj). apply in_seq in Hj.
    rewrite Hinside by lia. apply andb_true_iff.
    apply (proj1 (inside_row_forall l u p r i) Ei). lia.
  - destruct (Num.leb m (Fin Num.zero)) eqn:Em; [|reflexivity].
    exfalso. assert (T : inside_row l u p r i = true); [|congruence].
    apply (proj2 (inside_row_forall l u p r i)). intros j Hj.
    apply andb_true_iff. rewrite <- Hinside by exact Hj.
    apply (leb_trans _ m); [|exact Em]. apply Hall.
    unfold distance_row. apply in_map_iff. exists j.
    split; [reflexivity | apply in_seq; lia].
Qed.

Lemma X4_inside_iff_distance_nonpositive_witness :
  exists ins dist,
    AbstractBox.lies_inside
      (IsBox (mkBox [[Num.of_Z 0; Num.of_Z 0]] [[Num.of_Z 10; Num.of_Z 20]] (1, 2)))
      [[Num.of_Z 5; Num.of_Z 10]; [Num.of_Z 15; Num.of_Z 10]] = Ok ins /\
    AbstractBox.approximate_signed_distance
      (IsBox (mkBox [[Num.of_Z 0; Num.of_Z 0]] [[Num.of_Z 10; Num.of_Z 20]] (1, 2)))
      [[Num.of_Z 5; Num.of_Z 10]; [Num.of_Z 15; Num.of_Z 10]] = Ok dist /\
    forall i, i < 2 ->
      bnth ins i false = Num.leb (bnth dist i NaN) (Fin Num.zero).
Proof.
  apply (X4_inside_iff_distance_nonpositive
           (IsBox (mkBox [[Num.of_Z 0; Num.of_Z 0]]
                     [[Num.of_Z 10; Num.of_Z 20]] (1, 2)))
           [[Num.of_Z 0; Num.of_Z 0]] [[Num.of_Z 10; Num.of_Z 20]]
           [[Num.of_Z 5; Num.of_Z 10]; [Num.of_Z 15; Num.of_Z 10]] 2 2
           eq_refl eq_refl eq_refl eq_refl eq_refl (le_S 1 1 (le_n 1))
           eq_refl eq_refl eq_refl).
Defined.

Lemma sub_add_finite (c h d : num) :
  Num.is_finite d = true ->
  Num.sub (Num.add c d) h = Num.add (Num.sub c h) d.
Proof.
  intros Hd. destruct d as [d| | |]; try discriminate.
  destruct c as [c| | |], h as [h| | |]; simpl; try reflexivity.
  f_equal. ring.
Qed.

Lemma add_add_finite (c h d : num) :
  Num.is_finite d = true ->
  Num.add (Num.add c d) h = Num.add (Num.add c h) d.
Proof.
  intros Hd. destruct d as [d| | |]; try discriminate.
  destruct c as [c| | |], h as [h| | |]; simpl; try reflexivity.
  f_equal. ring.
Qed.

Lemma inside_row_shifted (l u p l' u' p' d : Tensor) (n r i : nat) :
  fits d n r = true -> finite d = true -> i < n ->
  (forall j, j < r -> get l' i j = Num.add (get l i j) (get d i j)) ->
  (forall j, j < r -> get u' i j = Num.add (get u i j) (get d i j)) ->
  (forall j, j < r -> get p' i j = Num.add (get p i j) (get d i j)) ->
  inside_row l' u' p' r i = inside_row l u p r i.
Proof.
  intros Fd Ad Hi Gl Gu Gp. unfold inside_row. apply forallb_ext_in.
  intros j Hj. apply in_seq in Hj.
  pose proof (all_entries_tget _ NaN d n r i j Ad Fd Hi ltac:(lia)) as Dfin.
  rewrite Gl, Gu, Gp by lia. unfold Num.geb.
  now rewrite !leb_add_finite.
Qed.

(** X5. In exact arithmetic, shifting a box and a location by the same
    finite offset does not change whether the location lies inside, for
    every class.  Whatever the arithmetic, a shifted [GridCell] is a plain
    [Cuboid]. *)
Theorem X5_shifted_lies_inside (self : AbstractBox) (p delta : Tensor)
    (n r : nat) :
  well_shaped self n r = true ->
  fits p n r = true -> fits delta n r = true -> finite delta = true ->
  1 <= n -> 1 <= r ->
  exists moved p' ins ins',
    shifted self delta = Ok moved /\
    tadd p delta = Ok p' /\
    AbstractBox.lies_inside self p = Ok ins /\
    AbstractBox.lies_inside moved p' = Ok ins' /\
    (forall i, i < n -> bnth ins' i false = bnth ins i false) /\
    (forall c res bounds, self = IsGridCell c res bounds ->
       exists c', moved = IsCuboid c').
Proof.
  intros W Fp Fd Ad Hn Hr.
  destruct (tensor_op_spec Num.add NaN NaN NaN p delta n r Fp Fd)
    as (p' & Hp' & Fp' & _ & Gp').
  assert (Cuboid_case : forall (self0 : AbstractBox) (cu : Cuboid),
            lower self0 = tsub (Cuboid_center cu) (Cuboid_half_size cu) ->
            upper self0 = tadd (Cuboid_center cu) (Cuboid_half_size cu) ->
            shifted self0 delta
            = (c' <- Cuboid.shifted cu delta ;; Ok (IsCuboid c')) ->
            fits (Cuboid_center cu) n r = true ->
            fits (Cuboid_half_size cu) n r = true ->
            exists moved ins ins',
              shifted self0 delta = Ok moved /\
              AbstractBox.lies_inside self0 p = Ok ins /\
              AbstractBox.lies_inside moved p' = Ok ins' /\
              (forall i, i < n -> bnth ins' i false = bnth ins i false) /\
              exists c', moved = IsCuboid c').
  { intros self0 [c h sh] El Eu Es Fc Fh. simpl in *.
    destruct (tensor_op_spec Num.add NaN NaN NaN c delta n r Fc Fd)
      as (c' & Hc' & Fc' & _ & Gc').
    destruct (combined_shape_fits c' h n r Fc' Fh Hn) as [sh' Hsh].
    destruct (tensor_op_spec Num.sub NaN NaN NaN c h n r Fc Fh)
      as (l & Hl & Fl & _ & Gl).
    destruct (tensor_op_spec Num.add NaN NaN NaN c h n r Fc Fh)
      as (u & Hu & Fu & _ & Gu).
    destruct (tensor_op_spec Num.sub NaN NaN NaN c' h n r Fc' Fh)
      as (l' & Hl' & Fl' & _ & Gl').
    destruct (tensor_op_spec Num.add NaN NaN NaN c' h n r Fc' Fh)
      as (u' & Hu' & Fu' & _ & Gu').
    rewrite Es. unfold Cuboid.shifted, Cuboid.__init__, tadd, tsub in *.
    cbn [Cuboid_center Cuboid_half_size]. rewrite Hc'. cbn [bind tensor]. rewrite Hsh. cbn [bind].
    rewrite Hl in El. rewrite Hu in Eu.
    destruct (lies_inside_rows self0 l u p n r El Eu Fl Fu Fp Hr)
      as (ins & Hins & _ & Rins).
    destruct (lies_inside_rows (IsCuboid (mkCuboid c' h (fst sh'))) l' u' p' n r
                Hl' Hu' Fl' Fu' Fp' Hr) as (ins' & Hins' & _ & Rins').
    exists (IsCuboid (mkCuboid c' h (fst sh'))), ins, ins'.
    split; [reflexivity|]. split; [exact Hins|]. split; [exact Hins'|].
    split; [|eauto].
    intros i Hi. rewrite (Rins i Hi), (Rins' i Hi).
    apply (inside_row_shifted l u p l' u' p' delta n r i Fd Ad Hi);
      intros j Hj; unfold get.
    - pose proof (all_entries_tget _ NaN delta n r i j Ad Fd Hi Hj) as Dfin.
      rewrite Gl', Gc', Gl by assumption. now apply sub_add_finite.
    - pose proof (all_entries_tget _ NaN delta n r i j Ad Fd Hi Hj) as Dfin.
      rewrite Gu', Gc', Gu by assumption. now apply add_add_finite.
    - now apply Gp'. }
  assert (Box_case : forall b : Box,
            fits (Box_lower b) n r = true -> fits (Box_upper b) n r = true ->
            exists moved ins ins',
              shifted (IsBox b) delta = Ok moved /\
              AbstractBox.lies_inside (IsBox b) p = Ok ins /\
              AbstractBox.lies_inside moved p' = Ok ins' /\
              (forall i, i < n -> bnth ins' i false = bnth ins i false)).
  { intros [l u sh] Fl Fu. simpl in Fl, Fu.
    destruct (tensor_op_spec Num.add NaN NaN NaN l delta n r Fl Fd)
      as (l' & Hl' & Fl' & _ & Gl').
    destruct (tensor_op_spec Num.add NaN NaN NaN u delta n r Fu Fd)
      as (u' & Hu' & Fu' & _ & Gu').
    destruct (combined_shape_fits l' u' n r Fl' Fu' Hn) as [sh' Hsh].
    unfold shifted, Box.shifted, Box.__init__, tadd.
    cbn [Box_lower Box_upper]. rewrite Hl'. cbn [bind]. rewrite Hu'.
    cbn [bind tensor]. rewrite Hsh. cbn [bind].
    destruct (lies_inside_rows (IsBox (mkBox l u sh)) l u p n r
                eq_refl eq_refl Fl Fu Fp Hr) as (ins & Hins & _ & Rins).
    destruct (lies_inside_rows (IsBox (mkBox l' u' sh')) l' u' p' n r
                eq_refl eq_refl Fl' Fu' Fp' Hr) as (ins' & Hins' & _ & Rins').
    exists (IsBox (mkBox l' u' sh')), ins, ins'.
    split; [reflexivity|]. split; [exact Hins|]. split; [exact Hins'|].
    intros i Hi. rewrite (Rins i Hi), (Rins' i Hi).
    apply (inside_row_shifted l u p l' u' p' delta n r i Fd Ad Hi);
      intros j Hj; unfold get; [now apply Gl' | now apply Gu' | now apply Gp']. }
  destruct self as [b|c|c res bounds]; simpl in W;
    apply andb_true_iff in W; destruct W as [W1 W2].
  - destruct (Box_case b W1 W2) as (moved & ins & ins' & H1 & H2 & H3 & H4).
    exists moved, p', ins, ins'. repeat (split; [assumption|]).
    intros c res bounds E. discriminate.
  - destruct (Cuboid_case (IsCuboid c) c eq_refl eq_refl eq_refl W1 W2)
      as (moved & ins & ins' & H1 & H2 & H3 & H4 & H5).
    exists moved, p', ins, ins'. repeat (split; [assumption|]).
    intros; assumption.
  - destruct (Cuboid_case (IsGridCell c res bounds) c eq_refl eq_refl eq_refl
                W1 W2) as (moved & ins & ins' & H1 & H2 & H3 & H4 & H5).
    exists moved, p', ins, ins'. repeat (split; [assumption|]).
    intros; assumption.
Qed.

Lemma X5_shifted_lies_inside_witness :
  exists moved p' ins ins',
    shifted (IsCuboid (mkCuboid [[Num.of_Z 5; Num.of_Z 10]]
                         [[Num.of_Z 5; Num.of_Z 10]] 1))
            [[Num.of_Z 100; Num.of_Z (-7)]] = Ok moved /\
    tadd [[Num.of_Z 5; Num.of_Z 10]; [Num.of_Z 15; Num.of_Z 10]]
         [[Num.of_Z 100; Num.of_Z (-7)]] = Ok p' /\
    AbstractBox.lies_inside
      (IsCuboid (mkCuboid [[Num.of_Z 5; Num.of_Z 10]]
                   [[Num.of_Z 5; Num.of_Z 10]] 1))
      [[Num.of_Z 5; Num.of_Z 10]; [Num.of_Z 15; Num.of_Z 10]] = Ok ins /\
    AbstractBox.lies_inside moved p' = Ok ins' /\
    (forall i, i < 2 -> bnth ins' i false = bnth ins i false).
Proof.
  destruct (X5_shifted_lies_inside
              (IsCuboid (mkCuboid [[Num.of_Z 5; Num.of_Z 10]]
                           [[Num.of_Z 5; Num.of_Z 10]] 1))
              [[Num.of_Z 5; Num.of_Z 10]; [Num.of_Z 15; Num.of_Z 10]]
              [[Num.of_Z 100; Num.of_Z (-7)]] 2 2
              eq_refl eq_refl eq_refl eq_refl
              (le_S 1 1 (le_n 1)) (le_S 1 1 (le_n 1)))
    as (moved & p' & ins & ins' & H1 & H2 & H3 & H4 & H5 & _).
  exists moved, p', ins, ins'. repeat (split; [assumption|]). exact H5.
Defined.


Ltac qc_half_lra :=
  unfold Qclt, Qcle, Num.zero in *;
  repeat (rewrite ?this_plus, ?this_minus, ?this_half, ?this_mult,
                  ?this_opp, ?this_Q2Qc in * );
  lra.

(** X6. In exact arithmetic, the center of a box with finite corners,
    the lower one below the upper one, lies inside the box, for every
    class. *)
Theorem X6_center_lies_inside (self : AbstractBox) (l u : Tensor)
    (n r : nat) :
  well_shaped self n r = true ->
  lower self = Ok l -> upper self = Ok u ->
  finite l = true -> finite u = true -> ordered l u n r = true ->
  1 <= r ->
  exists c ins,
    center self = Ok c /\
    AbstractBox.lies_inside self c = Ok ins /\
    forall i, i < n -> bnth ins i false = true.
Proof.
  intros W Hl Hu Al Au Hord Hr.
  destruct (views self n r W)
    as (l0 & u0 & s & c & h & Hl0 & Hu0 & _ & Hc & _ & Fl & Fu & _ & Fc & _ & G).
  rewrite Hl in Hl0. injection Hl0 as <-.
  rewrite Hu in Hu0. injection Hu0 as <-.
  destruct (lies_inside_rows self l u c n r Hl Hu Fl Fu Fc Hr)
    as (ins & Hins & _ & Rins).
  exists c, ins. split; [exact Hc|]. split; [exact Hins|].
  intros i Hi. rewrite (Rins i Hi).
  apply (proj2 (inside_row_forall l u c r i)). intros j Hj.
  pose proof (all_entries_tget _ NaN l n r i j Al Fl Hi Hj) as Il.
  pose proof (all_entries_tget _ NaN u n r i j Au Fu Hi Hj) as Iu.
  destruct (G i j Hi Hj Il Iu) as (_ & Gc & _).
  pose proof (ordered_get Num.leb l u n r i j Hord Hi Hj) as Hle.
  rewrite Gc. unfold get in *.
  destruct (tget NaN l i j) as [ql| | |]; try discriminate.
  destruct (tget NaN u i j) as [qu| | |]; try discriminate.
  unfold Num.geb. simpl in *. apply Qc_leb_le in Hle.
  split; apply Qc_leb_le; qc_half_lra.
Qed.

Lemma X6_center_lies_inside_witness :
  exists c ins,
    center (IsBox (mkBox [[Num.of_Z 0; Num.of_Z 0]]
                     [[Num.of_Z 10; Num.of_Z 20]] (1, 2))) = Ok c /\
    AbstractBox.lies_inside
      (IsBox (mkBox [[Num.of_Z 0; Num.of_Z 0]]
                [[Num.of_Z 10; Num.of_Z 20]] (1, 2))) c = Ok ins /\
    forall i, i < 1 -> bnth ins i false = true.
Proof.
  apply (X6_center_lies_inside
           (IsBox (mkBox [[Num.of_Z 0; Num.of_Z 0]]
                     [[Num.of_Z 10; Num.of_Z 20]] (1, 2)))
           [[Num.of_Z 0; Num.of_Z 0]] [[Num.of_Z 10; Num.of_Z 20]] 1 2
           eq_refl eq_refl eq_refl eq_refl eq_refl eq_refl
           (le_S 1 1 (le_n 1))).
Defined.

(** ** Local coordinates *)

Lemma Qc_div_ge (a b c : Qc) :
  (Q2Qc 0 < b)%Qc -> ((c <= a / b)%Qc <-> (c * b <= a)%Qc).
Proof.
  intros Hb.
  assert (Hne : b <> Q2Qc 0) by (intros ->; qc_lra).
  pose proof (test_field a b Hne) as E. split; intros H.
  - rewrite <- E. apply Qcmult_le_compat_r; [exact H|]. now apply Qclt_le_weak.
  - apply (Qcmult_lt_0_le_reg_r _ _ b Hb). now rewrite E.
Qed.

Lemma Qc_div_le (a b c : Qc) :
  (Q2Qc 0 < b)%Qc -> ((a / b <= c)%Qc <-> (a <= c * b)%Qc).
Proof.
  intros Hb.
  assert (Hne : b <> Q2Qc 0) by (intros ->; qc_lra).
  pose proof (test_field a b Hne) as E. split; intros H.
  - rewrite <- E. apply Qcmult_le_compat_r; [exact H|]. now apply Qclt_le_weak.
  - apply (Qcmult_lt_0_le_reg_r _ _ b Hb). now rewrite E.
Qed.

Lemma bool_iff (a b : bool) : (a = true <-> b = true) -> a = b.
Proof.
  destruct a, b; intros [H1 H2]; try reflexivity.
  - symmetry. now apply H1.
  - now apply H2.
Qed.

Lemma unit_entry (ql qu : Qc) (p : num) :
  (ql < qu)%Qc ->
  Num.leb (Num.of_Z 0) (Num.div (Num.sub p (Fin ql)) (Fin (qu - ql)%Qc))
  && Num.leb (Num.div (Num.sub p (Fin ql)) (Fin (qu - ql)%Qc)) (Num.of_Z 1)
  = Num.geb p (Fin ql) && Num.leb p (Fin qu).
Proof.
  intros Hlt.
  assert (Hpos : (Q2Qc 0 < qu - ql)%Qc) by qc_lra.
  assert (Hpos' : Num.Qc_ltb Num.zero (qu - ql)%Qc = true)
    by now apply Qc_ltb_lt.
  destruct (Qc_ltb_irrefl_pos _ Hpos') as [Hne Hnlt].
  destruct p as [p| | |]; unfold Num.geb; simpl.
  - rewrite Hne. unfold Num.of_Z. simpl. apply bool_iff.
    rewrite !andb_true_iff, !Qc_leb_le.
    change (Q2Qc (inject_Z 0)) with (Q2Qc 0).
    change (Q2Qc (inject_Z 1)) with (Q2Qc 1).
    rewrite (Qc_div_ge _ _ _ Hpos), (Qc_div_le _ _ _ Hpos).
    split; intros [H1 H2]; split; qc_lra.
  - unfold Num.signed_inf. rewrite Hnlt. reflexivity.
  - unfold Num.signed_inf. rewrite Hnlt. reflexivity.
  - reflexivity.
Qed.

(** X7. In exact arithmetic, [global_to_local] maps a box with finite
    corners, the lower one strictly below the upper one, onto the unit
    cube: a location lies inside the box exactly when all its local
    coordinates lie between 0 and 1, whatever the location holds. *)
Theorem X7_inside_iff_local_in_unit_cube (self : AbstractBox)
    (l u p : Tensor) (n r : nat) :
  well_shaped self n r = true ->
  lower self = Ok l -> upper self = Ok u -> fits p n r = true ->
  finite l = true -> finite u = true -> strictly_ordered l u n r = true ->
  1 <= r ->
  exists g ins,
    AbstractBox.global_to_local self p = Ok g /\
    AbstractBox.lies_inside self p = Ok ins /\
    forall i, i < n -> bnth ins i false = in_unit_cube g r i.
Proof.
  intros W Hl Hu Fp Al Au Hord Hr.
  destruct (views self n r W)
    as (l0 & u0 & s & c & h & Hl0 & Hu0 & Hs & _ & _ & Fl & Fu & Fs & _ & _ & G).
  rewrite Hl in Hl0. injection Hl0 as <-.
  rewrite Hu in Hu0. injection Hu0 as <-.
  destruct (lies_inside_rows self l u p n r Hl Hu Fl Fu Fp Hr)
    as (ins & Hins & _ & Rins).
  destruct (tensor_op_spec Num.sub NaN NaN NaN p l n r Fp Fl)
    as (d & Hd & Fd & _ & Gd).
  destruct (tensor_op_spec Num.div NaN NaN NaN d s n r Fd Fs)
    as (g & Hg & Fg & _ & Gg).
  exists g, ins. split; [|split; [exact Hins|]].
  { unfold AbstractBox.global_to_local, tsub, tdiv. rewrite Hl. cbn [bind].
    rewrite Hd. cbn [bind]. rewrite Hs. cbn [bind]. exact Hg. }
  intros i Hi. rewrite (Rins i Hi). unfold inside_row, in_unit_cube.
  apply forallb_ext_in. intros j Hj. apply in_seq in Hj.
  assert (Hj' : j < r) by lia.
  pose proof (all_entries_tget _ NaN l n r i j Al Fl Hi Hj') as Il.
  pose proof (all_entries_tget _ NaN u n r i j Au Fu Hi Hj') as Iu.
  destruct (G i j Hi Hj' Il Iu) as (Gs & _ & _).
  pose proof (ordered_get Num.ltb l u n r i j Hord Hi Hj') as Hlt.
  unfold get in *. rewrite Gg, Gd, Gs by assumption.
  destruct (tget NaN l i j) as [ql| | |]; try discriminate.
  destruct (tget NaN u i j) as [qu| | |]; try discriminate.
  simpl in Hlt. apply Qc_ltb_lt in Hlt. simpl qval.
  symmetry. now apply unit_entry.
Qed.

Lemma X7_inside_iff_local_in_unit_cube_witness :
  exists g ins,
    AbstractBox.global_to_local
      (IsBox (mkBox [[Num.of_Z 0; Num.of_Z 0]]
                [[Num.of_Z 10; Num.of_Z 20]] (1, 2)))
      [[Num.of_Z 5; Num.of_Z 10]; [Num.of_Z 15; PInf]] = Ok g /\
    AbstractBox.lies_inside
      (IsBox (mkBox [[Num.of_Z 0; Num.of_Z 0]]
                [[Num.of_Z 10; Num.of_Z 20]] (1, 2)))
      [[Num.of_Z 5; Num.of_Z 10]; [Num.of_Z 15; PInf]] = Ok ins /\
    forall i, i < 2 -> bnth ins i false = in_unit_cube g 2 i.
Proof.
  apply (X7_inside_iff_local_in_unit_cube
           (IsBox (mkBox [[Num.of_Z 0; Num.of_Z 0]]
                     [[Num.of_Z 10; Num.of_Z 20]] (1, 2)))
           [[Num.of_Z 0; Num.of_Z 0]] [[Num.of_Z 10; Num.of_Z 20]]
           [[Num.of_Z 5; Num.of_Z 10]; [Num.of_Z 15; PInf]] 2 2
           eq_refl eq_refl eq_refl eq_refl eq_refl eq_refl eq_refl
           (le_S 1 1 (le_n 1))).
Defined.

(** ** Boxes with the same corners *)

Lemma same_corners_same_geometry (a b : AbstractBox)
    (la ua lb ub : Tensor) (n r : nat) :
  well_shaped a n r = true -> well_shaped b n r = true ->
  lower a = Ok la -> upper a = Ok ua ->
  lower b = Ok lb -> upper b = Ok ub ->
  (forall i j, i < n -> j < r ->
     Num.is_finite (get la i j) = true /\ Num.is_finite (get ua i j) = true /\
     get la i j = get lb i j /\ get ua i j = get ub i j) ->
  same_geometry a b n r.
Proof.
  intros Wa Wb Hla Hua Hlb Hub Hsame.
  destruct (views a n r Wa)
    as (la0 & ua0 & sa & ca & ha & Hla0 & Hua0 & Hsa & Hca & Hha & _ & _ & _ & _ & _ & Ga).
  rewrite Hla in Hla0. injection Hla0 as <-.
  rewrite Hua in Hua0. injection Hua0 as <-.
  destruct (views b n r Wb)
    as (lb0 & ub0 & sb & cb & hb & Hlb0 & Hub0 & Hsb & Hcb & Hhb & _ & _ & _ & _ & _ & Gb).
  rewrite Hlb in Hlb0. injection Hlb0 as <-.
  rewrite Hub in Hub0. injection Hub0 as <-.
  assert (E : forall i j, i < n -> j < r ->
            get sa i j = get sb i j /\ get ca i j = get cb i j /\
            get ha i j = get hb i j).
  { intros i j Hi Hj. destruct (Hsame i j Hi Hj) as (Il & Iu & El & Eu).
    destruct (Ga i j Hi Hj Il Iu) as (-> & -> & ->).
    rewrite El in Il. rewrite Eu in Iu.
    destruct (Gb i j Hi Hj Il Iu) as (-> & -> & ->).
    now rewrite El, Eu. }
  repeat split.
  - exists la, lb. repeat split; try assumption. intros. now apply Hsame.
  - exists ua, ub. repeat split; try assumption. intros. now apply Hsame.
  - exists sa, sb. repeat split; try assumption. intros. now apply E.
  - exists ca, cb. repeat split; try assumption. intros. now apply E.
  - exists ha, hb. repeat split; try assumption. intros. now apply E.
Qed.

Lemma half_sum_minus_half_diff (ql qu : Qc) :
  ((ql + qu) / Q2Qc 2 - (qu - ql) / Q2Qc 2)%Qc = ql.
Proof. rewrite two_as_sum. field. apply Qc_two_neq_0. Qed.

Lemma half_sum_plus_half_diff (ql qu : Qc) :
  ((ql + qu) / Q2Qc 2 + (qu - ql) / Q2Qc 2)%Qc = qu.
Proof. rewrite two_as_sum. field. apply Qc_two_neq_0. Qed.

(** X8. In exact arithmetic, for an object with finite corners, the
    corner representation and the center representation both keep the
    lower and upper corners, the size, the center and the half size. *)
Theorem X8_representations_keep_geometry (self : AbstractBox)
    (l u : Tensor) (n r : nat) :
  well_shaped self n r = true ->
  lower self = Ok l -> upper self = Ok u ->
  finite l = true -> finite u = true -> 1 <= n ->
  exists b c,
    AbstractBox.corner_representation self = Ok b /\
    AbstractBox.center_representation self = Ok c /\
    same_geometry self (IsBox b) n r /\
    same_geometry self (IsCuboid c) n r.
Proof.
  intros W Hl Hu Al Au Hn.
  destruct (views self n r W)
    as (l0 & u0 & s & c & h & Hl0 & Hu0 & _ & Hc & Hh & Fl & Fu & _ & Fc & Fh & G).
  rewrite Hl in Hl0. injection Hl0 as <-.
  rewrite Hu in Hu0. injection Hu0 as <-.
  destruct (combined_shape_fits l u n r Fl Fu Hn) as [sh Hsh].
  destruct (combined_shape_fits c h n r Fc Fh Hn) as [sh' Hsh'].
  exists (mkBox l u sh), (mkCuboid c h (fst sh')).
  split; [|split; [|split]].
  - unfold AbstractBox.corner_representation, Box.__init__.
    rewrite Hl, Hu. cbn [bind tensor]. now rewrite Hsh.
  - unfold AbstractBox.center_representation, Cuboid.__init__.
    rewrite Hc, Hh. cbn [bind tensor]. now rewrite Hsh'.
  - apply (same_corners_same_geometry self (IsBox (mkBox l u sh)) l u l u n r);
      try assumption; try reflexivity.
    + simpl. now rewrite Fl, Fu.
    + intros i j Hi Hj. repeat split.
      * apply (all_entries_tget _ NaN l n r i j Al Fl Hi Hj).
      * apply (all_entries_tget _ NaN u n r i j Au Fu Hi Hj).
  - destruct (tensor_op_spec Num.sub NaN NaN NaN c h n r Fc Fh)
      as (l' & Hl' & Fl' & _ & Gl').
    destruct (tensor_op_spec Num.add NaN NaN NaN c h n r Fc Fh)
      as (u' & Hu' & Fu' & _ & Gu').
    apply (same_corners_same_geometry self (IsCuboid (mkCuboid c h (fst sh')))
             l u l' u' n r); try assumption.
    + simpl. now rewrite Fc, Fh.
    + intros i j Hi Hj.
      pose proof (all_entries_tget _ NaN l n r i j Al Fl Hi Hj) as Il.
      pose proof (all_entries_tget _ NaN u n r i j Au Fu Hi Hj) as Iu.
      destruct (G i j Hi Hj Il Iu) as (_ & Gc & Gh).
      split; [exact Il|]. split; [exact Iu|].
      unfold get in *. rewrite Gl', Gu', Gc, Gh by assumption.
      destruct (tget NaN l i j) as [ql| | |]; try discriminate.
      destruct (tget NaN u i j) as [qu| | |]; try discriminate.
      simpl. now rewrite half_sum_minus_half_diff, half_sum_plus_half_diff.
Qed.

Lemma X8_representations_keep_geometry_witness :
  exists b c,
    AbstractBox.corner_representation
      (IsCuboid (mkCuboid [[Num.of_Z 5; Num.of_Z 10]]
                   [[Num.of_Z 5; Num.of_Z 10]] 1)) = Ok b /\
    AbstractBox.center_representation
      (IsCuboid (mkCuboid [[Num.of_Z 5; Num.of_Z 10]]
                   [[Num.of_Z 5; Num.of_Z 10]] 1)) = Ok c /\
    same_geometry
      (IsCuboid (mkCuboid [[Num.of_Z 5; Num.of_Z 10]]
                   [[Num.of_Z 5; Num.of_Z 10]] 1)) (IsBox b) 1 2 /\
    same_geometry
      (IsCuboid (mkCuboid [[Num.of_Z 5; Num.of_Z 10]]
                   [[Num.of_Z 5; Num.of_Z 10]] 1)) (IsCuboid c) 1 2.
Proof.
  apply (X8_representations_keep_geometry
           (IsCuboid (mkCuboid [[Num.of_Z 5; Num.of_Z 10]]
                        [[Num.of_Z 5; Num.of_Z 10]] 1))
           [[Fin (Q2Qc (inject_Z 5) - Q2Qc (inject_Z 5))%Qc;
             Fin (Q2Qc (inject_Z 10) - Q2Qc (inject_Z 10))%Qc]]
           [[Fin (Q2Qc (inject_Z 5) + Q2Qc (inject_Z 5))%Qc;
             Fin (Q2Qc (inject_Z 10) + Q2Qc (inject_Z 10))%Qc]] 1 2
           eq_refl eq_refl eq_refl eq_refl eq_refl (le_n 1)).
Defined.

(** X9. In exact arithmetic, the bounding box of an object with finite
    corners has the same corners, size, center and half size as the
    object; each of the two contains the other. *)
Theorem X9_bounding_box_is_tight (self : AbstractBox) (l u : Tensor)
    (n r : nat) :
  well_shaped self n r = true ->
  lower self = Ok l -> upper self = Ok u ->
  finite l = true -> finite u = true -> 1 <= n -> 1 <= r ->
  exists b,
    bounding_box self = Ok b /\
    same_geometry self (IsBox b) n r /\
    AbstractBox.contains (IsBox b) (PyBox self) = Ok true /\
    AbstractBox.contains self (PyBox (IsBox b)) = Ok true.
Proof.
  intros W Hl Hu Al Au Hn Hr.
  destruct (views self n r W)
    as (l0 & u0 & s & c & h & Hl0 & Hu0 & Hs & Hc & _ & Fl & Fu & Fs & Fc & _ & G).
  rewrite Hl in Hl0. injection Hl0 as <-.
  rewrite Hu in Hu0. injection Hu0 as <-.
  assert (Fe : fits (mul_scalar s half) n r = true)
    by (unfold mul_scalar; now rewrite fits_tmap).
  destruct (tensor_op_spec Num.sub NaN NaN NaN c _ n r Fc Fe)
    as (l' & Hl' & Fl' & _ & Gl').
  destruct (tensor_op_spec Num.add NaN NaN NaN c _ n r Fc Fe)
    as (u' & Hu' & Fu' & _ & Gu').
  destruct (combined_shape_fits l' u' n r Fl' Fu' Hn) as [sh Hsh].
  assert (Corners : forall i j, i < n -> j < r ->
            Num.is_finite (get l i j) = true /\
            Num.is_finite (get u i j) = true /\
            get l i j = get l' i j /\ get u i j = get u' i j).
  { intros i j Hi Hj.
    pose proof (all_entries_tget _ NaN l n r i j Al Fl Hi Hj) as Il.
    pose proof (all_entries_tget _ NaN u n r i j Au Fu Hi Hj) as Iu.
    destruct (G i j Hi Hj Il Iu) as (Gs & Gc & _).
    split; [exact Il|]. split; [exact Iu|].
    unfold get in *. rewrite Gl', Gu' by assumption. unfold mul_scalar.
    rewrite (tget_tmap (fun x => Num.mul x half) NaN NaN s n r i j Fs Hi Hj).
    rewrite Gc, Gs, half_mul_r, div_two.
    destruct (tget NaN l i j) as [ql| | |]; try discriminate.
    destruct (tget NaN u i j) as [qu| | |]; try discriminate.
    simpl. now rewrite half_sum_minus_half_diff, half_sum_plus_half_diff. }
  exists (mkBox l' u' sh). split; [|split; [|split]].
  - unfold bounding_box, AbstractBox.bounding_half_extent, Box.__init__,
      tsub, tadd.
    rewrite Hc, Hs. cbn [bind]. rewrite Hl'. cbn [bind]. rewrite Hu'.
    cbn [bind tensor]. now rewrite Hsh.
  - apply (same_corners_same_geometry self (IsBox (mkBox l' u' sh))
             l u l' u' n r); try assumption; try reflexivity.
    simpl. now rewrite Fl', Fu'.
  - apply (contains_true_iff (IsBox (mkBox l' u' sh)) self l' u' l u n r);
      try assumption; try reflexivity.
    intros i j Hi Hj. destruct (Corners i j Hi Hj) as (Il & Iu & <- & <-).
    unfold Num.geb. split; apply leb_refl.
    + now destruct (get l i j).
    + now destruct (get u i j).
  - apply (contains_true_iff self (IsBox (mkBox l' u' sh)) l u l' u' n r);
      try assumption; try reflexivity.
    intros i j Hi Hj. destruct (Corners i j Hi Hj) as (Il & Iu & <- & <-).
    unfold Num.geb. split; apply leb_refl.
    + now destruct (get l i j).
    + now destruct (get u i j).
Qed.

Lemma X9_bounding_box_is_tight_witness :
  exists b,
    bounding_box (IsBox (mkBox [[Num.of_Z 0; Num.of_Z 0]]
                           [[Num.of_Z 10; Num.of_Z 20]] (1, 2))) = Ok b /\
    same_geometry (IsBox (mkBox [[Num.of_Z 0; Num.of_Z 0]]
                            [[Num.of_Z 10; Num.of_Z 20]] (1, 2))) (IsBox b) 1 2 /\
    AbstractBox.contains (IsBox b)
      (PyBox (IsBox (mkBox [[Num.of_Z 0; Num.of_Z 0]]
                       [[Num.of_Z 10; Num.of_Z 20]] (1, 2)))) = Ok true /\
    AbstractBox.contains
      (IsBox (mkBox [[Num.of_Z 0; Num.of_Z 0]]
                [[Num.of_Z 10; Num.of_Z 20]] (1, 2))) (PyBox (IsBox b)) = Ok true.
Proof.
  apply (X9_bounding_box_is_tight
           (IsBox (mkBox [[Num.of_Z 0; Num.of_Z 0]]
                     [[Num.of_Z 10; Num.of_Z 20]] (1, 2)))
           [[Num.of_Z 0; Num.of_Z 0]] [[Num.of_Z 10; Num.of_Z 20]] 1 2
           eq_refl eq_refl eq_refl eq_refl eq_refl (le_n 1)
           (le_S 1 1 (le_n 1))).
Defined.

(** ** Grids over an interval *)

Lemma grid_centers_get (n i : nat) :
  i < n -> get (grid_centers n) i 0 = Fin (midpoint n i).
Proof.
  intros Hi. unfold get, tget, grid_centers.
  rewrite (bnth_indep (map (fun i => [Fin (midpoint n i)]) (seq 0 n)) i n []
             ((fun i => [Fin (midpoint n i)]) 0)).
  - rewrite (bnth_map (fun i => [Fin (midpoint n i)]) (seq 0 n) i 0).
    rewrite (bnth_nth (seq 0 n) i 0) by (rewrite length_seq; exact Hi).
    rewrite seq_nth by exact Hi. reflexivity.
  - rewrite length_map, length_seq. unfold dim_fits.
    rewrite Nat.eqb_refl. apply orb_true_r.
  - exact Hi.
Qed.

Lemma fits_one_row {A : Type} (t : tensor_of A) (n r : nat) :
  fits t 1 r = true -> fits t n r = true.
Proof.
  intros H. apply fits_iff in H. destruct H as [H1 H2]. apply fits_iff.
  split; [|exact H2]. unfold dim_fits in *.
  apply orb_true_iff in H1. apply orb_true_iff. left. tauto.
Qed.

Lemma get_one_row (t : Tensor) (r i j : nat) :
  fits t 1 r = true -> get t i j = get t 0 j.
Proof.
  intros H. apply fits_iff in H. destruct H as [H1 _].
  unfold dim_fits in H1. apply orb_true_iff in H1.
  assert (L : length t = 1) by (rewrite !Nat.eqb_eq in H1; tauto).
  unfold get, tget. now rewrite (bnth_single t i 0 [] L).
Qed.

Lemma Qc_of_nat_le (r k : nat) : r <= k -> (Qc_of_nat r <= Qc_of_nat k)%Qc.
Proof.
  intros H. unfold Qc_of_nat, Qcle. rewrite !this_Q2Qc.
  rewrite <- Zle_Qle. lia.
Qed.

Lemma cell_edge_first (lo hi : Qc) (n : nat) : cell_edge lo hi n 0 = lo.
Proof.
  unfold cell_edge. change (Qc_of_nat 0) with (Q2Qc 0). ring.
Qed.

Lemma cell_edge_last (lo hi : Qc) (n : nat) :
  1 <= n -> cell_edge lo hi n n = hi.
Proof.
  intros H. unfold cell_edge. pose proof (Qc_of_nat_neq_0 n H) as Hn.
  generalize dependent (Qc_of_nat n). intros x Hx. field. exact Hx.
Qed.

Lemma cell_lower_edge (lo hi : Qc) (n i : nat) :
  1 <= n ->
  (midpoint n i * (hi - lo) + lo - (hi - lo) / Qc_of_nat n / Q2Qc 2)%Qc
  = cell_edge lo hi n i.
Proof.
  intros H. unfold cell_edge, midpoint.
  pose proof (Qc_of_nat_neq_0 n H) as Hn.
  generalize dependent (Qc_of_nat n). generalize (Qc_of_nat i).
  intros y x Hx. rewrite half_as_quotient, two_as_sum. field.
  split; [exact Hx | apply Qc_two_neq_0].
Qed.

Lemma cell_upper_edge (lo hi : Qc) (n i : nat) :
  1 <= n ->
  (midpoint n i * (hi - lo) + lo + (hi - lo) / Qc_of_nat n / Q2Qc 2)%Qc
  = cell_edge lo hi n (S i).
Proof.
  intros H. unfold cell_edge, midpoint. rewrite Qc_of_nat_S.
  pose proof (Qc_of_nat_neq_0 n H) as Hn.
  generalize dependent (Qc_of_nat n). generalize (Qc_of_nat i).
  intros y x Hx. rewrite half_as_quotient, two_as_sum. field.
  split; [exact Hx | apply Qc_two_neq_0].
Qed.

(** The constructor of a grid on one axis, step by step: the grid it
    builds and the corners of its cells. *)
Lemma grid_cell_edges (bounds : AbstractBox) (l u : Tensor)
    (n : nat) (name : string) :
  well_shaped bounds 1 1 = true ->
  lower bounds = Ok l -> upper bounds = Ok u ->
  finite l = true -> finite u = true -> 1 <= n ->
  let lo := qval (get l 0 0) in
  let hi := qval (get u 0 0) in
  exists g cl cu,
    GridCell.__init__ [mkDim name SPATIAL_DIM n] bounds = Ok g /\
    lower g = Ok cl /\ upper g = Ok cu /\
    fits cl n 1 = true /\ fits cu n 1 = true /\
    (forall i, i < n ->
       get cl i 0 = Fin (cell_edge lo hi n i) /\
       get cu i 0 = Fin (cell_edge lo hi n (S i))) /\
    cell_edge lo hi n 0 = lo /\ cell_edge lo hi n n = hi.
Proof.
  intros W Hl Hu Al Au Hn lo hi.
  destruct (views bounds 1 1 W)
    as (l0 & u0 & s & c & h & Hl0 & Hu0 & Hs & _ & _ & Fl & Fu & Fs & _ & _ & G).
  rewrite Hl in Hl0. injection Hl0 as <-.
  rewrite Hu in Hu0. injection Hu0 as <-.
  pose proof (all_entries_tget _ NaN l 1 1 0 0 Al Fl (le_n 1) (le_n 1)) as Il.
  pose proof (all_entries_tget _ NaN u 1 1 0 0 Au Fu (le_n 1) (le_n 1)) as Iu.
  destruct (G 0 0 (le_n 1) (le_n 1) Il Iu) as (Gs & _ & _).
  fold lo hi in Gs.
  assert (El : get l 0 0 = Fin lo) by (apply finite_qval; exact Il).
  pose proof (fits_one_row l n 1 Fl) as Fl'.
  pose proof (fits_one_row s n 1 Fs) as Fs'.
  pose proof (full_fits _ n 1 (grid_centers_full n)) as Fg.
  destruct (tensor_op_spec Num.mul NaN NaN NaN (grid_centers n) s n 1 Fg Fs')
    as (m & Hm & Fm & _ & Gm).
  destruct (tensor_op_spec Num.add NaN NaN NaN m l n 1 Fm Fl')
    as (points & Hp & Fp & _ & Gp).
  assert (Fn : fits [[Fin (Qc_of_nat n)]] n 1 = true) by reflexivity.
  destruct (tensor_op_spec Num.div NaN NaN NaN s [[Fin (Qc_of_nat n)]] n 1 Fs' Fn)
    as (q & Hq & Fq & _ & Gq).
  assert (Fh : fits (div_scalar q two) n 1 = true)
    by (unfold div_scalar; now rewrite fits_tmap).
  destruct (combined_shape_fits points (div_scalar q two) n 1 Fp Fh Hn)
    as [sh Hsh].
  destruct (tensor_op_spec Num.sub NaN NaN NaN points _ n 1 Fp Fh)
    as (cl & Hcl & Fcl & _ & Gcl).
  destruct (tensor_op_spec Num.add NaN NaN NaN points _ n 1 Fp Fh)
    as (cu & Hcu & Fcu & _ & Gcu).
  exists (IsGridCell (mkCuboid points (div_scalar q two) (fst sh))
            [mkDim name SPATIAL_DIM n] bounds), cl, cu.
  split; [|split; [exact Hcl|split; [exact Hcu|split; [exact Fcl|split; [exact Fcu|split; [|split]]]]]].
  - unfold GridCell.__init__.
    change (spatial_rank [mkDim name SPATIAL_DIM n]) with 1.
    change (rank [mkDim name SPATIAL_DIM n]) with 1.
    change (Nat.eqb 1 1) with true. cbv iota.
    change (named_sizes [mkDim name SPATIAL_DIM n]) with [(name, n)].
    change (sizes [mkDim name SPATIAL_DIM n]) with [n].
    rewrite (axes_midpoints n name Hn). cbn [bind].
    rewrite meshgrid_one_axis, map_map. fold (grid_centers n).
    unfold AbstractBox.local_to_global, tmul, tadd, tdiv.
    rewrite Hs. cbn [bind]. rewrite Hm. cbn [bind]. rewrite Hl. cbn [bind].
    rewrite Hp. cbn [bind map tensor]. rewrite Hq. cbn [bind].
    unfold Cuboid.__init__. cbn [tensor]. rewrite Hsh. reflexivity.
  - intros i Hi. unfold get in *.
    rewrite Gcl, Gcu, Gp, Gm by lia. unfold div_scalar.
    rewrite (tget_tmap (fun x => Num.div x two) NaN NaN q n 1 i 0 Fq Hi (le_n 1)).
    rewrite Gq by lia.
    change (tget NaN [[Fin (Qc_of_nat n)]] i 0) with (Fin (Qc_of_nat n)).
    pose proof (grid_centers_get n i Hi) as Eg. unfold get in Eg. rewrite Eg.
    pose proof (get_one_row s 1 i 0 Fs) as Es. unfold get in Es.
    pose proof (get_one_row l 1 i 0 Fl) as El'. unfold get in El'.
    rewrite Es, El', Gs, El.
    pose proof (Qc_of_nat_neq_0 n Hn) as Hne.
    unfold Num.div at 2 4.
    destruct (Num.Qc_eqb (Qc_of_nat n) Num.zero) eqn:E;
      [apply Qc_eqb_eq in E; contradiction|].
    rewrite div_two. simpl.
    now rewrite (cell_lower_edge lo hi n i Hn), (cell_upper_edge lo hi n i Hn).
  - apply cell_edge_first.
  - now apply cell_edge_last.
Qed.

(** X10. In exact arithmetic, the cells of a [GridCell] of [n] cells on
    one axis tile the bounds, for every bounds with finite corners [lo] and
    [hi]: cell [i] reaches from edge [i] to edge [i + 1] of [n] equal
    parts, the first edge is [lo] and the last one is [hi]. *)
Theorem X10_grid_cells_tile_bounds (bounds : AbstractBox) (l u : Tensor)
    (n : nat) (name : string) :
  well_shaped bounds 1 1 = true ->
  lower bounds = Ok l -> upper bounds = Ok u ->
  finite l = true -> finite u = true -> 1 <= n ->
  let lo := qval (get l 0 0) in
  let hi := qval (get u 0 0) in
  exists g cl cu,
    GridCell.__init__ [mkDim name SPATIAL_DIM n] bounds = Ok g /\
    lower g = Ok cl /\ upper g = Ok cu /\
    (forall i, i < n ->
       get cl i 0 = Fin (cell_edge lo hi n i) /\
       get cu i 0 = Fin (cell_edge lo hi n (S i))) /\
    cell_edge lo hi n 0 = lo /\ cell_edge lo hi n n = hi.
Proof.
  intros W Hl Hu Al Au Hn lo hi.
  destruct (grid_cell_edges bounds l u n name W Hl Hu Al Au Hn)
    as (g & cl & cu & Hg & Hcl & Hcu & _ & _ & Hedges & H0 & Hlast).
  exists g, cl, cu. repeat (split; [assumption|]). assumption.
Qed.

Lemma X10_grid_cells_tile_bounds_witness :
  exists g cl cu,
    GridCell.__init__ [mkDim "x" SPATIAL_DIM 4]
      (IsBox (mkBox [[Num.of_Z 2]] [[Num.of_Z 10]] (1, 1))) = Ok g /\
    lower g = Ok cl /\ upper g = Ok cu /\
    (forall i, i < 4 ->
       get cl i 0 = Fin (cell_edge (Q2Qc (inject_Z 2)) (Q2Qc (inject_Z 10)) 4 i) /\
       get cu i 0 = Fin (cell_edge (Q2Qc (inject_Z 2)) (Q2Qc (inject_Z 10)) 4 (S i))) /\
    cell_edge (Q2Qc (inject_Z 2)) (Q2Qc (inject_Z 10)) 4 0 = Q2Qc (inject_Z 2) /\
    cell_edge (Q2Qc (inject_Z 2)) (Q2Qc (inject_Z 10)) 4 4 = Q2Qc (inject_Z 10).
Proof.
  apply (X10_grid_cells_tile_bounds
           (IsBox (mkBox [[Num.of_Z 2]] [[Num.of_Z 10]] (1, 1)))
           [[Num.of_Z 2]] [[Num.of_Z 10]] 4 "x"
           eq_refl eq_refl eq_refl eq_refl eq_refl
           (le_S 1 3 (le_S 1 2 (le_S 1 1 (le_n 1))))).
Defined.

(** X11. In exact arithmetic, the bounds contain the grid built over
    them: every cell of a [GridCell] on one axis lies between the corners
    of its bounds, when these are finite with the lower one below the upper
    one. *)
Theorem X11_bounds_contain_grid (bounds : AbstractBox) (l u : Tensor)
    (n : nat) (name : string) :
  well_shaped bounds 1 1 = true ->
  lower bounds = Ok l -> upper bounds = Ok u ->
  finite l = true -> finite u = true -> ordered l u 1 1 = true -> 1 <= n ->
  exists g,
    GridCell.__init__ [mkDim name SPATIAL_DIM n] bounds = Ok g /\
    AbstractBox.contains bounds (PyBox g) = Ok true.
Proof.
  intros W Hl Hu Al Au Hord Hn.
  destruct (grid_cell_edges bounds l u n name W Hl Hu Al Au Hn)
    as (g & cl & cu & Hg & Hcl & Hcu & Fcl & Fcu & Hedges & H0 & Hlast).
  exists g. split; [exact Hg|].
  destruct (views bounds 1 1 W)
    as (l0 & u0 & _ & _ & _ & Hl0 & Hu0 & _ & _ & _ & Fl & Fu & _).
  rewrite Hl in Hl0. injection Hl0 as <-.
  rewrite Hu in Hu0. injection Hu0 as <-.
  pose proof (all_entries_tget _ NaN l 1 1 0 0 Al Fl (le_n 1) (le_n 1)) as Il.
  pose proof (all_entries_tget _ NaN u 1 1 0 0 Au Fu (le_n 1) (le_n 1)) as Iu.
  pose proof (ordered_get Num.leb l u 1 1 0 0 Hord (le_n 1) (le_n 1)) as Hle.
  apply (contains_true_iff bounds g l u cl cu n 1 Hl Hu Hcl Hcu
           (fits_one_row l n 1 Fl) (fits_one_row u n 1 Fu) Fcl Fcu Hn (le_n 1)).
  intros i j Hi Hj. assert (j = 0) by lia. subst j.
  destruct (Hedges i Hi) as [-> ->].
  rewrite (get_one_row l 1 i 0 Fl), (get_one_row u 1 i 0 Fu).
  unfold get in *.
  destruct (tget NaN l 0 0) as [lo| | |]; try discriminate.
  destruct (tget NaN u 0 0) as [hi| | |]; try discriminate.
  simpl in Hle. apply Qc_leb_le in Hle. simpl qval.
  unfold Num.geb, Num.leb, cell_edge.
  pose proof (Qc_of_nat_pos n Hn) as Pn.
  assert (Hd : (Q2Qc 0 <= (hi - lo) / Qc_of_nat n)%Qc).
  { apply (Qc_div_ge _ _ _ Pn). qc_lra. }
  pose proof (cell_edge_last lo hi n Hn) as E. unfold cell_edge in E.
  generalize dependent ((hi - lo) / Qc_of_nat n)%Qc.
  intros d Hd E.
  pose proof (Qcmult_le_compat_r _ _ d (Qc_of_nat_le 0 i ltac:(lia)) Hd) as A.
  pose proof (Qcmult_le_compat_r _ _ d (Qc_of_nat_le (S i) n ltac:(lia)) Hd) as B.
  change (Qc_of_nat 0) with (Q2Qc 0) in A.
  clear Hedges H0 Hlast.
  set (sd := (Qc_of_nat (S i) * d)%Qc) in *.
  set (id := (Qc_of_nat i * d)%Qc) in *.
  set (nd := (Qc_of_nat n * d)%Qc) in *.
  clearbody sd id nd. subst hi.
  split; apply Qc_leb_le; qc_lra.
Qed.

Lemma X11_bounds_contain_grid_witness :
  exists g,
    GridCell.__init__ [mkDim "x" SPATIAL_DIM 4]
      (IsBox (mkBox [[Num.of_Z 2]] [[Num.of_Z 10]] (1, 1))) = Ok g /\
    AbstractBox.contains (IsBox (mkBox [[Num.of_Z 2]] [[Num.of_Z 10]] (1, 1)))
      (PyBox g) = Ok true.
Proof.
  apply (X11_bounds_contain_grid
           (IsBox (mkBox [[Num.of_Z 2]] [[Num.of_Z 10]] (1, 1)))
           [[Num.of_Z 2]] [[Num.of_Z 10]] 4 "x"
           eq_refl eq_refl eq_refl eq_refl eq_refl eq_refl
           (le_S 1 3 (le_S 1 2 (le_S 1 1 (le_n 1))))).
Defined.

(** ** Errors of the constructors *)

Lemma filter_length_forallb {A : Type} (f : A -> bool) (l : list A) :
  Nat.eqb (length (filter f l)) (length l) = forallb f l.
Proof.
  assert (Hle : forall l', length (filter f l') <= length l').
  { induction l' as [|x l' IH]; simpl; [lia|]. destruct (f x); simpl; lia. }
  induction l as [|x l IH]; simpl; [reflexivity|].
  destruct (f x); simpl; [exact IH|].
  apply Nat.eqb_neq. specialize (Hle l). lia.
Qed.

Lemma axes_zero_size (resolution : Shape) :
  existsb (fun d => Nat.eqb (dim_size d) 0) resolution = true ->
  mapM (fun ds : string * nat => GridCell.axis_points (snd ds))
       (named_sizes resolution) = Raise ZeroDivisionError.
Proof.
  unfold named_sizes.
  induction resolution as [|d res IH]; simpl; [discriminate|].
  intros H. unfold GridCell.axis_points at 1, GridCell.half_over.
  destruct (Nat.eqb_spec (dim_size d) 0) as [E|E]; [reflexivity|].
  simpl in H. cbn [bind]. rewrite IH by exact H. reflexivity.
Qed.

(** X12. [GridCell(resolution, bounds)] fails before it looks at the
    bounds: with [AssertionError] when some dimension of the resolution is
    not spatial, and with [ZeroDivisionError] when all are spatial and one
    has size zero. *)
Theorem X12_grid_cell_rejects_resolution (resolution : Shape)
    (bounds : AbstractBox) (e : exn) :
  resolution_error resolution = Some e ->
  GridCell.__init__ resolution bounds = Raise e.
Proof.
  unfold resolution_error, GridCell.__init__, spatial_rank, rank.
  rewrite filter_length_forallb.
  destruct (forallb is_spatial resolution); simpl.
  - destruct (existsb (fun d => Nat.eqb (dim_size d) 0) resolution) eqn:Z;
      [|discriminate].
    intros E. injection E as <-. now rewrite axes_zero_size.
  - intros E. injection E as <-. reflexivity.
Qed.

Lemma X12_grid_cell_rejects_resolution_witness :
  GridCell.__init__ [mkDim "x" SPATIAL_DIM 4; mkDim "y" SPATIAL_DIM 0]
    (IsBox unit_interval) = Raise ZeroDivisionError /\
  GridCell.__init__ [mkDim "x" SPATIAL_DIM 4; mkDim "batch" BATCH_DIM 0]
    (IsBox unit_interval) = Raise AssertionError.
Proof.
  split.
  - apply (X12_grid_cell_rejects_resolution
             [mkDim "x" SPATIAL_DIM 4; mkDim "y" SPATIAL_DIM 0]
             (IsBox unit_interval) ZeroDivisionError).
    reflexivity.
  - apply (X12_grid_cell_rejects_resolution
             [mkDim "x" SPATIAL_DIM 4; mkDim "batch" BATCH_DIM 0]
             (IsBox unit_interval) AssertionError).
    reflexivity.
Defined.

Lemma corners_entries (items : list BoxType.entry) :
  forall lo hi,
    BoxType.corners items lo hi
    = if forallb entry_ok items
      then Ok (lo ++ map entry_lower items, hi ++ map entry_upper items)
      else Raise AssertionError.
Proof.
  induction items as [|it items IH]; intros lo hi; simpl.
  - now rewrite !app_nil_r.
  - destruct it as [s|name]; simpl; [|reflexivity].
    unfold step_ok at 1.
    destruct (match BoxType.step s with
              | Some st => Num.eqb st (Num.of_Z 1)
              | None => true
              end); simpl; [|reflexivity].
    rewrite IH. destruct (forallb entry_ok items); [|reflexivity].
    unfold slice_lower, slice_upper. now rewrite <- !app_assoc.
Qed.

(** X13. [Box[...]] builds the box of the corners its entries stand
    for when every entry is a slice whose step is absent or 1, and raises
    [AssertionError] otherwise: an entry that is no slice is rejected, and
    no other error occurs. *)
Theorem X13_getitem_builds_or_asserts (item : BoxType.subscript) :
  1 <= length (entries item) ->
  BoxType.__getitem__ item
  = if forallb entry_ok (entries item)
    then Ok (mkBox [map entry_lower (entries item)]
                   [map entry_upper (entries item)]
                   (1, length (entries item)))
    else Raise AssertionError.
Proof.
  intros _. unfold BoxType.__getitem__. fold (entries item).
  rewrite corners_entries.
  destruct (forallb entry_ok (entries item)); [|reflexivity].
  cbn [bind fst snd app]. unfold Box.__init__, tensor, combined_shape.
  cbn [length vdim]. rewrite !length_map, !combined_dim_same. reflexivity.
Qed.

Lemma X13_getitem_builds_or_asserts_witness :
  BoxType.__getitem__
    (BoxType.Sequence
       [BoxType.Slice (BoxType.mkSlice (Some (Num.of_Z 0)) None None);
        BoxType.NotSlice "int"]) = Raise AssertionError.
Proof.
  apply (X13_getitem_builds_or_asserts
           (BoxType.Sequence
              [BoxType.Slice (BoxType.mkSlice (Some (Num.of_Z 0)) None None);
               BoxType.NotSlice "int"])).
  simpl. lia.
Defined.

(** ** Locations that hold a NaN *)


(** X14. A location that holds a NaN lies inside no box, bounded or
    not, and its approximate signed distance is NaN. *)
Theorem X14_nan_location_is_outside (self : AbstractBox) (l u p : Tensor)
    (n r i : nat) :
  lower self = Ok l -> upper self = Ok u ->
  fits l n r = true -> fits u n r = true -> fits p n r = true ->
  1 <= r -> i < n -> nan_row p r i = true ->
  exists ins dist,
    AbstractBox.lies_inside self p = Ok ins /\
    AbstractBox.approximate_signed_distance self p = Ok dist /\
    bnth ins i false = false /\ bnth dist i NaN = NaN.
Proof.
  intros Hl Hu Fl Fu Fp Hr Hi Hnan.
  destruct (lies_inside_rows self l u p n r Hl Hu Fl Fu Fp Hr)
    as (ins & Hins & _ & Rins).
  destruct (signed_distance_rows self l u p n r Hl Hu Fl Fu Fp Hr)
    as (dist & Hdist & _ & Rdist).
  exists ins, dist. split; [exact Hins|]. split; [exact Hdist|].
  unfold nan_row in Hnan. apply existsb_exists in Hnan.
  destruct Hnan as (j & Hj & Hnan). apply in_seq in Hj.
  assert (Ep : get p i j = NaN) by (now destruct (get p i j)).
  rewrite (Rins i Hi), (Rdist i Hi). split.
  - destruct (inside_row l u p r i) eqn:E; [|reflexivity].
    destruct (proj1 (inside_row_forall l u p r i) E j ltac:(lia)) as [_ P2].
    rewrite Ep in P2. discriminate.
  - apply row_max_holds_nan. unfold distance_row. apply in_map_iff.
    exists j. split; [|apply in_seq; lia].
    rewrite Ep. apply axis_distance_nan.
Qed.

Lemma X14_nan_location_is_outside_witness :
  exists b ins dist,
    whole_line = Ok b /\
    AbstractBox.lies_inside (IsBox b) [[NaN]] = Ok ins /\
    AbstractBox.approximate_signed_distance (IsBox b) [[NaN]] = Ok dist /\
    bnth ins 0 false = false /\ bnth dist 0 NaN = NaN.
Proof.
  eexists.
  destruct (X14_nan_location_is_outside
              (IsBox (mkBox [[NInf]] [[PInf]] (1, 1)))
              [[NInf]] [[PInf]] [[NaN]] 1 1 0
              eq_refl eq_refl eq_refl eq_refl eq_refl (le_n 1) (le_n 1)
              eq_refl) as (ins & dist & H1 & H2 & H3 & H4).
  exists ins, dist. split; [reflexivity|]. repeat split; assumption.
Defined.

(** ** The coordinate maps, from local to global and back *)

Lemma local_trip_entry (q l s : num) :
  Num.is_nan q = false -> Num.is_finite l = true ->
  Num.is_finite s = true -> Num.ltb (Fin Num.zero) s = true ->
  Num.div (Num.sub (Num.add (Num.mul q s) l) l) s = q.
Proof.
  intros Hq Hl Hs Hpos.
  destruct l as [l| | |]; try discriminate.
  destruct s as [s| | |]; try discriminate.
  simpl in Hpos. destruct (Qc_ltb_irrefl_pos s Hpos) as [Hne Hnlt].
  destruct q as [q| | |]; try discriminate; simpl.
  - rewrite Hne. f_equal. field. intros ->. discriminate.
  - rewrite Hne. unfold Num.signed_inf. rewrite Hnlt. simpl.
    unfold Num.signed_inf. now rewrite Hnlt.
  - rewrite Hne. unfold Num.signed_inf. rewrite Hnlt. simpl.
    unfold Num.signed_inf. now rewrite Hnlt.
Qed.

(** X15. In exact arithmetic, for a box whose lower corner and size are
    finite with a strictly positive size, [global_to_local] undoes
    [local_to_global]: with the round trip in the other direction the two
    maps are inverse to each other. *)
Theorem X15_local_round_trip (self : AbstractBox) (l s q : Tensor)
    (n r : nat) :
  lower self = Ok l -> size self = Ok s ->
  fits l n r = true -> fits s n r = true -> fits q n r = true ->
  finite l = true -> finite s = true -> positive s = true ->
  no_nan q = true ->
  exists g,
    local_round_trip self q = Ok g /\
    (forall i j, i < n -> j < r -> get g i j = get q i j) /\
    (full q n r = true -> g = q).
Proof.
  intros Hl Hs Fl Fs Fq Al As Ps Aq.
  destruct (tensor_op_spec Num.mul NaN NaN NaN q s n r Fq Fs)
    as (m & Hm & Fm & Um & Gm).
  destruct (tensor_op_spec Num.add NaN NaN NaN m l n r Fm Fl)
    as (p & Hp & Fp & Up & Gp).
  destruct (tensor_op_spec Num.sub NaN NaN NaN p l n r Fp Fl)
    as (d & Hd & Fd & Ud & Gd).
  destruct (tensor_op_spec Num.div NaN NaN NaN d s n r Fd Fs)
    as (g & Hg & Fg & Ug & Gg).
  assert (Hback : forall i j, i < n -> j < r -> get g i j = get q i j).
  { intros i j Hi Hj. unfold get.
    rewrite Gg, Gd, Gp, Gm by assumption.
    pose proof (all_entries_tget _ NaN l n r i j Al Fl Hi Hj) as Hfl.
    pose proof (all_entries_tget _ NaN s n r i j As Fs Hi Hj) as Hfs.
    pose proof (all_entries_tget _ NaN s n r i j Ps Fs Hi Hj) as Hps.
    pose proof (all_entries_tget _ NaN q n r i j Aq Fq Hi Hj) as Hfq.
    apply negb_true_iff in Hfq.
    now apply local_trip_entry. }
  exists g. split; [|split; [exact Hback|]].
  - unfold local_round_trip, AbstractBox.local_to_global,
      AbstractBox.global_to_local, tmul, tadd, tsub, tdiv.
    rewrite Hs. cbn [bind]. rewrite Hm. cbn [bind]. rewrite Hl. cbn [bind].
    rewrite Hp. cbn [bind]. rewrite Hd. cbn [bind]. exact Hg.
  - intros Uq. apply (tensor_ext NaN g q n r); [| exact Uq | exact Hback].
    apply Ug. left. apply Ud. left. apply Up. left. apply Um. now left.
Qed.

Lemma X15_local_round_trip_witness :
  local_round_trip
    (IsBox (mkBox [[Num.of_Z 0; Num.of_Z 0]] [[Num.of_Z 10; Num.of_Z 20]] (1, 2)))
    [[Num.of_Q (1 # 2); Num.of_Z 2]; [NInf; Num.of_Z 0]]
  = Ok [[Num.of_Q (1 # 2); Num.of_Z 2]; [NInf; Num.of_Z 0]].
Proof.
  destruct (X15_local_round_trip
              (IsBox (mkBox [[Num.of_Z 0; Num.of_Z 0]]
                        [[Num.of_Z 10; Num.of_Z 20]] (1, 2)))
              [[Num.of_Z 0; Num.of_Z 0]] [[Num.of_Z 10; Num.of_Z 20]]
              [[Num.of_Q (1 # 2); Num.of_Z 2]; [NInf; Num.of_Z 0]] 2 2
              eq_refl eq_refl eq_refl eq_refl eq_refl eq_refl eq_refl eq_refl
              eq_refl)
    as (g & H & _ & E).
  rewrite H. f_equal. exact (E eq_refl).
Defined.

(** ** Equality *)

Lemma Shape_eqb_refl (s : Shape) : Shape_eqb s s = true.
Proof.
  induction s as [|d s IH]; simpl; [reflexivity|]. rewrite IH.
  unfold Dim_eqb. rewrite String.eqb_refl, Nat.eqb_refl.
  now destruct (dim_kind d).
Qed.

(** X16. Comparing an object with itself: a [Cuboid] raises
    [NotImplementedError], for [==] and for [!=], because it inherits
    [AbstractBox.__eq__]; a [GridCell] answers as its bounds do when they
    are compared with themselves, so that a grid over [Cuboid] bounds
    cannot be compared with itself either. *)
Theorem X16_equal_to_itself (c c' : Cuboid) (resolution : Shape)
    (bounds : AbstractBox) :
  __eq__ (IsCuboid c) (PyBox (IsCuboid c)) = Raise NotImplementedError /\
  __ne__ (IsCuboid c) (PyBox (IsCuboid c)) = Raise NotImplementedError /\
  __eq__ (IsGridCell c resolution bounds)
         (PyBox (IsGridCell c resolution bounds))
  = __eq__ bounds (PyBox bounds) /\
  __ne__ (IsGridCell c resolution bounds)
         (PyBox (IsGridCell c resolution bounds))
  = __ne__ bounds (PyBox bounds) /\
  __eq__ (IsGridCell c resolution (IsCuboid c'))
         (PyBox (IsGridCell c resolution (IsCuboid c')))
  = Raise NotImplementedError.
Proof.
  assert (E : __eq__ (IsGridCell c resolution bounds)
                     (PyBox (IsGridCell c resolution bounds))
              = __eq__ bounds (PyBox bounds)).
  { cbn [__eq__]. destruct (__eq__ bounds (PyBox bounds)) as [[|]|e];
      cbn [bind]; try reflexivity.
    now rewrite Shape_eqb_refl. }
  split; [reflexivity|]. split; [reflexivity|]. split; [exact E|].
  split; [|reflexivity]. unfold __ne__. now rewrite E.
Qed.

(** X17. Equality depends on the order of its operands: a [Box]
    equals every [Cuboid] and [GridCell] whose lower corner is close to
    its own, while the reverse comparison raises [NotImplementedError] for
    a [Cuboid] and is false for a [GridCell]. *)
Theorem X17_equality_is_not_symmetric (b : Box) (c : Cuboid)
    (resolution : Shape) (bounds : AbstractBox) (l : Tensor) :
  lower (IsCuboid c) = Ok l ->
  tshape (Box_lower b) = tshape l -> close (Box_lower b) l = Ok true ->
  __eq__ (IsBox b) (PyBox (IsCuboid c)) = Ok true /\
  __eq__ (IsCuboid c) (PyBox (IsBox b)) = Raise NotImplementedError /\
  __eq__ (IsBox b) (PyBox (IsGridCell c resolution bounds)) = Ok true /\
  __eq__ (IsGridCell c resolution bounds) (PyBox (IsBox b)) = Ok false.
Proof.
  intros Hl Hshape Hclose.
  split; [|split; [reflexivity|split; [|reflexivity]]].
  - change (__eq__ (IsBox b) (PyBox (IsCuboid c)))
      with (Box.__eq__ b (PyBox (IsCuboid c))).
    unfold Box.__eq__. rewrite Hl. cbn [bind].
    now rewrite (tshape_eqb_refl _ _ Hshape).
  - change (__eq__ (IsBox b) (PyBox (IsGridCell c resolution bounds)))
      with (Box.__eq__ b (PyBox (IsGridCell c resolution bounds))).
    unfold Box.__eq__.
    change (lower (IsGridCell c resolution bounds)) with (lower (IsCuboid c)).
    rewrite Hl. cbn [bind]. now rewrite (tshape_eqb_refl _ _ Hshape).
Qed.

Lemma X17_equality_is_not_symmetric_witness :
  __eq__ (IsBox (mkBox [[Num.of_Z 0; Num.of_Z 0]] [[Num.of_Z 1; Num.of_Z 1]] (1, 2)))
    (PyBox (IsCuboid (mkCuboid [[Num.of_Z 5; Num.of_Z 5]]
                        [[Num.of_Z 5; Num.of_Z 5]] 1))) = Ok true /\
  __eq__ (IsCuboid (mkCuboid [[Num.of_Z 5; Num.of_Z 5]]
                      [[Num.of_Z 5; Num.of_Z 5]] 1))
    (PyBox (IsBox (mkBox [[Num.of_Z 0; Num.of_Z 0]]
                     [[Num.of_Z 1; Num.of_Z 1]] (1, 2))))
  = Raise NotImplementedError.
Proof.
  pose proof
    (X17_equality_is_not_symmetric
       (mkBox [[Num.of_Z 0; Num.of_Z 0]] [[Num.of_Z 1; Num.of_Z 1]] (1, 2))
       (mkCuboid [[Num.of_Z 5; Num.of_Z 5]] [[Num.of_Z 5; Num.of_Z 5]] 1)
       [] (IsBox unit_interval)
       [[Fin (Q2Qc (inject_Z 5) - Q2Qc (inject_Z 5))%Qc;
         Fin (Q2Qc (inject_Z 5) - Q2Qc (inject_Z 5))%Qc]]
       eq_refl eq_refl eq_refl) as H.
  split; [apply H | apply H].
Defined.

(** ** The bounding radius *)

Lemma square_le (a b : Qc) :
  (Q2Qc 0 <= a)%Qc -> (a <= b)%Qc -> (a * a <= b * b)%Qc.
Proof.
  intros A B. apply Qcle_trans with (b * a)%Qc.
  - now apply Qcmult_le_compat_r.
  - rewrite (Qcmult_comm b a). apply Qcmult_le_compat_r; [exact B|].
    eapply Qcle_trans; eauto.
Qed.

Lemma sum_squares_le (h : nat -> Qc) (b : Qc) (js : list nat) :
  (forall j, In j js -> (Q2Qc 0 <= h j)%Qc /\ (h j <= b)%Qc) ->
  (fold_right (fun j acc => h j * h j + acc) (Q2Qc 0) js
   <= Qc_of_nat (length js) * (b * b))%Qc.
Proof.
  induction js as [|j js IH]; intros H.
  - simpl. change (Qc_of_nat 0) with (Q2Qc 0). qc_lra.
  - cbn [fold_right length]. rewrite Qc_of_nat_S.
    destruct (H j (or_introl eq_refl)) as [A B].
    pose proof (square_le _ _ A B) as S.
    specialize (IH (fun k Hk => H k (or_intror Hk))).
    replace ((Qc_of_nat (length js) + 1) * (b * b))%Qc
      with (b * b + Qc_of_nat (length js) * (b * b))%Qc by ring.
    now apply Qcplus_le_compat.
Qed.

Lemma eight_le_four_sqrt2_sq :
  (Q2Qc 8 <= Q2Qc 4 * (Q2Qc (1414214 # 1000000) * Q2Qc (1414214 # 1000000)))%Qc.
Proof. unfold Qcle. vm_compute. discriminate. Qed.

Lemma radius_bound (r : nat) (m acc : Qc) :
  r <= 8 -> (Q2Qc 0 <= m)%Qc ->
  (acc <= Qc_of_nat r * (m / Q2Qc 2 * (m / Q2Qc 2)))%Qc ->
  (acc <= m * Q2Qc (1414214 # 1000000) * (m * Q2Qc (1414214 # 1000000)))%Qc.
Proof.
  intros Hr Hm Hacc.
  set (c := Q2Qc (1414214 # 1000000)) in *.
  assert (E : (m * c * (m * c) = Q2Qc 4 * (c * c) * (m / Q2Qc 2 * (m / Q2Qc 2)))%Qc).
  { assert (F : Q2Qc 4 = ((1 + 1) * (1 + 1))%Qc)
      by (apply Qc_is_canon; reflexivity).
    rewrite F, two_as_sum. field. intros E; inversion E. }
  rewrite E.
  assert (Hh : (Q2Qc 0 <= m / Q2Qc 2 * (m / Q2Qc 2))%Qc).
  { assert (A : (Q2Qc 0 <= m / Q2Qc 2)%Qc) by qc_half_lra.
    replace (Q2Qc 0) with (Q2Qc 0 * (m / Q2Qc 2))%Qc by ring.
    now apply Qcmult_le_compat_r. }
  eapply Qcle_trans; [exact Hacc|].
  apply Qcmult_le_compat_r; [|exact Hh].
  eapply Qcle_trans; [apply (Qc_of_nat_le r 8 Hr)|].
  exact eight_le_four_sqrt2_sq.
Qed.

(** X18. In exact arithmetic, on up to eight axes the bounding radius of
    a box with finite corners, the lower one below the upper one, reaches
    every corner: its square is at least the sum of the squared half
    sizes. *)
Theorem X18_bounding_radius_reaches_corners (self : AbstractBox)
    (l u : Tensor) (n r : nat) :
  well_shaped self n r = true ->
  lower self = Ok l -> upper self = Ok u ->
  finite l = true -> finite u = true -> ordered l u n r = true ->
  1 <= r -> r <= 8 ->
  exists radius,
    bounding_radius self = Ok radius /\
    forall i, i < n ->
      Num.leb (Fin (half_diagonal_sq l u r i))
              (Num.mul (bnth radius i NaN) (bnth radius i NaN)) = true.
Proof.
  intros W Hl Hu Al Au Hord Hr Hr8.
  destruct (views self n r W)
    as (l0 & u0 & s & c & h & Hl0 & Hu0 & Hs & _ & _ & Fl & Fu & Fs & _ & _ & G).
  rewrite Hl in Hl0. injection Hl0 as <-.
  rewrite Hu in Hu0. injection Hu0 as <-.
  assert (Hrows : forall row, In row s -> max_list row = Ok (row_max row)).
  { intros row Hin. apply max_list_row_max. intros E.
    apply fits_iff in Fs. destruct Fs as [_ Hrows].
    specialize (Hrows row Hin). rewrite E in Hrows. unfold dim_fits in Hrows.
    simpl in Hrows. destruct r as [|r]; [lia | discriminate]. }
  exists (map (fun x => Num.mul x sqrt2) (map row_max s)). split.
  { unfold bounding_radius, max_vector. rewrite Hs.
    cbn [bind]. now rewrite (mapM_map max_list row_max s Hrows). }
  intros i Hi. rewrite map_map.
  rewrite (reduced_row (fun row => Num.mul (row_max row) sqrt2) NaN s n r i Fs Hi).
  rewrite (row_max_row _ r (fits_row s n r i Fs Hi) Hr).
  set (row := map (fun j => bnth (bnth s i []) j NaN) (seq 0 r)).
  assert (Hentry : forall j, j < r ->
            bnth (bnth s i []) j NaN
            = Fin (qval (get u i j) - qval (get l i j))%Qc /\
            (Q2Qc 0 <= qval (get u i j) - qval (get l i j))%Qc).
  { intros j Hj.
    pose proof (all_entries_tget _ NaN l n r i j Al Fl Hi Hj) as Il.
    pose proof (all_entries_tget _ NaN u n r i j Au Fu Hi Hj) as Iu.
    destruct (G i j Hi Hj Il Iu) as (Gs & _ & _). split; [exact Gs|].
    pose proof (ordered_get Num.leb l u n r i j Hord Hi Hj) as Hle.
    unfold get in *.
    destruct (tget NaN l i j) as [ql| | |]; try discriminate.
    destruct (tget NaN u i j) as [qu| | |]; try discriminate.
    simpl in *. apply Qc_leb_le in Hle. qc_lra. }
  assert (Hne : row <> []).
  { unfold row. destruct r as [|r]; [lia | discriminate]. }
  destruct (row_max_spec row Hne) as (Hm & Hall).
  { intros y Hy. unfold row in Hy. apply in_map_iff in Hy.
    destruct Hy as (j & <- & Hj). apply in_seq in Hj.
    destruct (Hentry j ltac:(lia)) as [-> _]. reflexivity. }
  unfold row in Hm at 2. apply in_map_iff in Hm.
  destruct Hm as (j0 & Em & Hj0). apply in_seq in Hj0.
  destruct (Hentry j0 ltac:(lia)) as [E0 P0]. rewrite E0 in Em.
  rewrite <- Em in *. clear Em.
  set (m := (qval (get u i j0) - qval (get l i j0))%Qc) in *.
  unfold sqrt2, Num.of_Q. simpl. apply Qc_leb_le.
  apply (radius_bound r m _ Hr8 P0).
  unfold half_diagonal_sq.
  pose proof (sum_squares_le
                (fun j => ((qval (get u i j) - qval (get l i j)) / Q2Qc 2)%Qc)
                (m / Q2Qc 2)%Qc (seq 0 r)) as S.
  rewrite length_seq in S. apply S. intros j Hj. apply in_seq in Hj.
  destruct (Hentry j ltac:(lia)) as [Ej Pj].
  assert (Lj : Num.leb (Fin (qval (get u i j) - qval (get l i j))%Qc) (Fin m) = true).
  { apply Hall. unfold row. apply in_map_iff. exists j.
    split; [exact Ej | apply in_seq; lia]. }
  simpl in Lj. apply Qc_leb_le in Lj.
  generalize dependent (qval (get u i j) - qval (get l i j))%Qc.
  intros sj _ Pj Lj. split; qc_half_lra.
Qed.

Lemma X18_bounding_radius_reaches_corners_witness :
  exists radius,
    bounding_radius
      (IsBox (mkBox [[Num.of_Z 0; Num.of_Z 0]]
                [[Num.of_Z 10; Num.of_Z 20]] (1, 2))) = Ok radius /\
    forall i, i < 1 ->
      Num.leb
        (Fin (half_diagonal_sq [[Num.of_Z 0; Num.of_Z 0]]
                [[Num.of_Z 10; Num.of_Z 20]] 2 i))
        (Num.mul (bnth radius i NaN) (bnth radius i NaN)) = true.
Proof.
  apply (X18_bounding_radius_reaches_corners
           (IsBox (mkBox [[Num.of_Z 0; Num.of_Z 0]]
                     [[Num.of_Z 10; Num.of_Z 20]] (1, 2)))
           [[Num.of_Z 0; Num.of_Z 0]] [[Num.of_Z 10; Num.of_Z 20]] 1 2
           eq_refl eq_refl eq_refl eq_refl eq_refl eq_refl
           (le_S 1 1 (le_n 1)));
    lia.
Defined.
